(** * calm-dsl: the secret walk, patch-config stripping, AHV provider helpers
      and CLI error paths, embedded in Rocq.

    The development follows the Python sources:
    - [calm/dsl/api/util.py]: [is_secret_modified], [strip_secrets],
      [strip_vmware_secrets], [patch_secrets], [strip_patch_config_tasks];
    - [calm/dsl/decompile/substrate.py]: [get_provider_spec_string];
    - [calm/dsl/providers/plugins/ahv_vm/main.py]: [update_vm_image_config];
    - [calm/dsl/cli/acps.py], [calm/dsl/cli/mpis.py]: the error paths of
      [get_acps], [delete_acp] and [get_app_family_list].

    The last part, "Further functions of the modules", adds
    [trunc_string] and [get_group_data_value] of [mpis.py],
    [AhvNew.categories] and [find_schema] of [ahv_vm/main.py] and
    [vm_power_action_target_map] of [util.py], and further properties of
    the functions above.

    Payloads are JSON documents held in Python dicts and lists.  They are
    modelled as trees ([json]); a Python reference to a sub-object of the
    payload is the path of that sub-object from the root ([loc]), so that a
    mutation through a local variable is an update of the one shared tree.
    Exceptions are values of [exn]; a mutating function keeps the state it
    had reached when it raises, as the Python objects do. *)

From stdpp Require Import prelude strings pretty.
From Stdlib Require Import ZArith Lia.

Set Warnings "-register-all".
Local Open Scope string_scope.
Local Open Scope list_scope.

(** ** Python values *)

(** Dictionary keys are the hashable scalars that occur in the payloads:
    [None], integers (a boolean key hashes as its integer) and strings. *)
Inductive key : Type :=
  | KNone
  | KInt (z : Z)
  | KStr (s : string).

(** JSON values as Python holds them.  Dictionaries keep insertion order;
    floats do not occur in the fields this code reads. *)
Inductive json : Type :=
  | JNone
  | JBool (b : bool)
  | JInt (z : Z)
  | JStr (s : string)
  | JList (l : list json)
  | JDict (d : list (key * json)).

Abbreviation dict := (list (key * json)).

#[global] Instance key_eq_dec : EqDecision key.
Proof. solve_decision. Defined.

#[global] Instance json_inhabited : Inhabited json := populate JNone.

Inductive exn_class : Type :=
  | KeyError
  | AttributeError
  | TypeError
  | IndexError
  | ValueError
  | Exception
  | BdbQuit.

(** An exception: its class and, for a [raise] statement of the program,
    the message it was built with. *)
Record exn : Type := mk_exn { exn_cls : exn_class; exn_msg : option string }.

Definition builtin (c : exn_class) : exn := mk_exn c None.
Definition raised (c : exn_class) (msg : string) : exn := mk_exn c (Some msg).

#[global] Instance exn_class_eq_dec : EqDecision exn_class.
Proof. solve_decision. Defined.

Inductive result (A : Type) : Type :=
  | Ok (a : A)
  | Raise (e : exn).
Arguments Ok {A} a.
Arguments Raise {A} e.

Definition rbind {A B} (m : result A) (k : A → result B) : result B :=
  match m with
  | Ok a => k a
  | Raise e => Raise e
  end.

Declare Scope res_scope.
Delimit Scope res_scope with res.
Notation "x <-- m ;;; k" := (rbind m (λ x, k))
  (at level 100, m at next level, right associativity) : res_scope.

(** ** Dictionaries *)

Fixpoint dict_lookup (k : key) (d : dict) : option json :=
  match d with
  | [] => None
  | (k', v) :: d' => if decide (k = k') then Some v else dict_lookup k d'
  end.

(** [d[k] = v]: an existing key keeps its position, a new one goes last. *)
Fixpoint dict_set (k : key) (v : json) (d : dict) : dict :=
  match d with
  | [] => [(k, v)]
  | (k', v') :: d' =>
      if decide (k = k') then (k, v) :: d' else (k', v') :: dict_set k v d'
  end.

Fixpoint dict_remove (k : key) (d : dict) : dict :=
  match d with
  | [] => []
  | (k', v') :: d' =>
      if decide (k = k') then dict_remove k d' else (k', v') :: dict_remove k d'
  end.

Definition dict_mem (k : key) (d : dict) : bool :=
  match dict_lookup k d with Some _ => true | None => false end.

(** ** Python operators on values *)

(** [bool(v)] *)
Definition truthy (v : json) : bool :=
  match v with
  | JNone => false
  | JBool b => b
  | JInt z => negb (z =? 0)%Z
  | JStr s => negb (String.eqb s "")
  | JList l => match l with [] => false | _ => true end
  | JDict d => match d with [] => false | _ => true end
  end.

(** [a or b] *)
Definition py_or (a b : json) : json := if truthy a then a else b.

Definition Z_of_bool (b : bool) : Z := if b then 1%Z else 0%Z.

(** [a == b]: dictionaries compare regardless of order, booleans compare as
    the integers 0 and 1. *)
Fixpoint py_eqb (a b : json) : bool :=
  match a, b with
  | JNone, JNone => true
  | JBool x, JBool y => Bool.eqb x y
  | JBool x, JInt y => (Z_of_bool x =? y)%Z
  | JInt x, JBool y => (x =? Z_of_bool y)%Z
  | JInt x, JInt y => (x =? y)%Z
  | JStr x, JStr y => String.eqb x y
  | JList l1, JList l2 =>
      (fix go (l1 l2 : list json) : bool :=
         match l1, l2 with
         | [], [] => true
         | x :: l1', y :: l2' => py_eqb x y && go l1' l2'
         | _, _ => false
         end) l1 l2
  | JDict d1, JDict d2 =>
      (length d1 =? length d2)%nat &&
      (fix go (d1 : dict) : bool :=
         match d1 with
         | [] => true
         | (k, v) :: d1' =>
             match dict_lookup k d2 with
             | Some w => py_eqb v w
             | None => false
             end && go d1'
         end) d1
  | _, _ => false
  end.

(** The dictionary key a value hashes to; lists and dicts are unhashable. *)
Definition to_key (v : json) : result key :=
  match v with
  | JNone => Ok KNone
  | JBool b => Ok (KInt (Z_of_bool b))
  | JInt z => Ok (KInt z)
  | JStr s => Ok (KStr s)
  | JList _ | JDict _ => Raise (builtin TypeError)
  end.

Definition of_key (k : key) : json :=
  match k with
  | KNone => JNone
  | KInt z => JInt z
  | KStr s => JStr s
  end.

(** The position a Python index addresses in a sequence of length [n]:
    [-n <= i < 0] counts from the end. *)
Definition norm_index (n : nat) (i : Z) : option nat :=
  if decide (0 ≤ i < Z.of_nat n)%Z then Some (Z.to_nat i)
  else if decide (- Z.of_nat n ≤ i < 0)%Z then Some (Z.to_nat (i + Z.of_nat n))
  else None.

(** [obj.get(k, default)]: only dictionaries have [get]. *)
Definition py_get (obj : json) (k : key) (dflt : json) : result json :=
  match obj with
  | JDict d => Ok (default dflt (dict_lookup k d))
  | _ => Raise (builtin AttributeError)
  end.

(** [obj[k]] for a hashable index [k]. *)
Definition py_getitem_key (obj : json) (k : key) : result json :=
  match obj with
  | JDict d =>
      match dict_lookup k d with
      | Some v => Ok v
      | None => Raise (builtin KeyError)
      end
  | JList l =>
      match k with
      | KInt i =>
          match norm_index (length l) i with
          | Some n => match l !! n with
                      | Some v => Ok v
                      | None => Raise (builtin IndexError)
                      end
          | None => Raise (builtin IndexError)
          end
      | _ => Raise (builtin TypeError)
      end
  | JStr s =>
      match k with
      | KInt i =>
          match norm_index (String.length s) i with
          | Some n => match String.get n s with
                      | Some c => Ok (JStr (String c EmptyString))
                      | None => Raise (builtin IndexError)
                      end
          | None => Raise (builtin IndexError)
          end
      | _ => Raise (builtin TypeError)
      end
  | _ => Raise (builtin TypeError)
  end.

(** [obj[k]] *)
Definition py_getitem (obj k : json) : result json :=
  rbind (to_key k) (py_getitem_key obj).

Definition is_substring (t s : string) : bool :=
  match String.index 0 t s with Some _ => true | None => false end.

(** [k in c] *)
Definition py_contains (k c : json) : result bool :=
  match c with
  | JDict d => rbind (to_key k) (λ kk, Ok (dict_mem kk d))
  | JList l => Ok (existsb (py_eqb k) l)
  | JStr s =>
      match k with
      | JStr t => Ok (is_substring t s)
      | _ => Raise (builtin TypeError)
      end
  | _ => Raise (builtin TypeError)
  end.

(** [a + b] on strings. *)
Definition py_str_add (a b : json) : result json :=
  match a, b with
  | JStr x, JStr y => Ok (JStr (x +:+ y))
  | _, _ => Raise (builtin TypeError)
  end.

(** The number of rounds of [for x in v] when [v] is a list.  Iterating a
    non-empty dict or string yields keys or characters, on which the first
    statement of each loop body of this module raises [elem_err]; anything
    else is not iterable. *)
Definition iter_len (v : json) (elem_err : exn_class) : result nat :=
  match v with
  | JList l => Ok (length l)
  | JDict [] => Ok O
  | JStr EmptyString => Ok O
  | JDict _ | JStr _ => Raise (builtin elem_err)
  | _ => Raise (builtin TypeError)
  end.

(** ** The payload as a store: locations, reads and writes *)

(** A location is the path of a sub-object from the root of the payload:
    dictionary keys and list positions. *)
Abbreviation loc := (list key).

Definition child (k : key) (v : json) : option json :=
  match v with
  | JDict d => dict_lookup k d
  | JList l =>
      match k with
      | KInt i => if decide (0 ≤ i)%Z then l !! Z.to_nat i else None
      | _ => None
      end
  | _ => None
  end.

Fixpoint get_at (p : loc) (v : json) : option json :=
  match p with
  | [] => Some v
  | k :: p' => match child k v with
               | Some c => get_at p' c
               | None => None
               end
  end.

(** Replace the object at [p] by [f] of it; nothing changes when [p] does
    not resolve. *)
Fixpoint alter_at (f : json → json) (p : loc) (v : json) : json :=
  match p with
  | [] => f v
  | k :: p' =>
      match v with
      | JDict d =>
          match dict_lookup k d with
          | Some c => JDict (dict_set k (alter_at f p' c) d)
          | None => v
          end
      | JList l =>
          match k with
          | KInt i =>
              if decide (0 ≤ i)%Z
              then JList (alter (alter_at f p') (Z.to_nat i) l)
              else v
          | _ => v
          end
      | _ => v
      end
  end.

(** The state of the secret walk: the payload and the three collections
    the caller passes in and reads back. *)
Record state : Type := mk_state {
  resources : json;
  secret_map : dict;
  secret_variables : list (list key * json * json);
  not_stripped_secrets : list (list key * json);
}.

Definition set_resources (f : json → json) (s : state) : state :=
  mk_state (f (resources s)) (secret_map s) (secret_variables s)
    (not_stripped_secrets s).

(** A computation that may mutate a state of type [S] and may raise; the
    state reached is kept in both cases. *)
Definition MS (S A : Type) : Type := S → result A * S.

Definition ret {S A} (a : A) : MS S A := λ s, (Ok a, s).
Definition raise {S A} (e : exn) : MS S A := λ s, (Raise e, s).
Definition bind {S A B} (m : MS S A) (k : A → MS S B) : MS S B :=
  λ s, match m s with
       | (Ok a, s') => k a s'
       | (Raise e, s') => (Raise e, s')
       end.
Definition lift {S A} (r : result A) : MS S A := λ s, (r, s).

Declare Scope m_scope.
Delimit Scope m_scope with M.
Notation "x <- m ;; k" := (bind m (λ x, k))
  (at level 100, m at next level, right associativity) : m_scope.
Notation "m ;; k" := (bind m (λ _, k))
  (at level 100, right associativity) : m_scope.

(** [for x in l: body(x)] *)
Fixpoint for_each {S A} (l : list A) (body : A → MS S unit) : MS S unit :=
  match l with
  | [] => ret tt
  | x :: l' => bind (body x) (λ _, for_each l' body)
  end.

(** A loop whose body may [return] from the enclosing function: the body
    answers [false] to stop. *)
Fixpoint for_each_until {S A} (l : list A) (body : A → MS S bool)
    : MS S unit :=
  match l with
  | [] => ret tt
  | x :: l' =>
      bind (body x) (λ go, if go : bool then for_each_until l' body else ret tt)
  end.

(** A loop that builds a local value [acc]. *)
Fixpoint for_fold {S A B} (l : list A) (acc : B) (body : A → B → MS S B)
    : MS S B :=
  match l with
  | [] => ret acc
  | x :: l' => bind (body x acc) (λ acc', for_fold l' acc' body)
  end.

Abbreviation M := (MS state).

Definition indices (n : nat) : list Z := Z.of_nat <$> seq 0 n.

(** The object a pointer designates.  A pointer is only ever built by
    navigating from the root, so it resolves; the error branch stands for
    a dangling pointer, which Python does not have. *)
Definition deref (p : loc) : M json :=
  λ s, match get_at p (resources s) with
       | Some v => (Ok v, s)
       | None => (Raise (builtin KeyError), s)
       end.

Definition dict_setitem (k : key) (v : json) (obj : json) : json :=
  match obj with
  | JDict d => JDict (dict_set k v d)
  | _ => obj
  end.

Definition dict_delitem (k : key) (obj : json) : json :=
  match obj with
  | JDict d => JDict (dict_remove k d)
  | _ => obj
  end.

(** [obj[k] = v] for the dictionary [obj] at [p]. *)
Definition setitem_at (p : loc) (k : key) (v : json) : M unit :=
  bind (deref p) (λ obj,
    match obj with
    | JDict _ => λ s, (Ok tt, set_resources (alter_at (dict_setitem k v) p) s)
    | _ => raise (builtin TypeError)
    end).

(** [obj.pop(k)] and [obj.pop(k, default)] for the object at [p]. *)
Definition pop_at (p : loc) (k : key) (dflt : option json) : M json :=
  bind (deref p) (λ obj,
    match obj with
    | JDict d =>
        match dict_lookup k d with
        | Some v =>
            λ s, (Ok v, set_resources (alter_at (dict_delitem k) p) s)
        | None =>
            match dflt with
            | Some v => ret v
            | None => raise (builtin KeyError)
            end
        end
    | JList _ => raise (builtin TypeError)
    | _ => raise (builtin AttributeError)
    end).

(** [secret_map[name] = v] *)
Definition secret_map_set (name v : json) : M unit :=
  bind (lift (to_key name)) (λ k s,
    (Ok tt, mk_state (resources s) (dict_set k v (secret_map s))
              (secret_variables s) (not_stripped_secrets s))).

(** [secret_variables.append(e)] *)
Definition secret_variables_append (e : list key * json * json) : M unit :=
  λ s, (Ok tt, mk_state (resources s) (secret_map s)
                 (secret_variables s ++ [e]) (not_stripped_secrets s)).

(** [not_stripped_secrets.append(e)] *)
Definition not_stripped_append (e : list key * json) : M unit :=
  λ s, (Ok tt, mk_state (resources s) (secret_map s) (secret_variables s)
                 (not_stripped_secrets s ++ [e])).

Coercion KStr : string >-> key.
Local Open Scope m_scope.

(** ** [calm/dsl/api/util.py] *)

(** [get_secrets_from_context(decompiled_secrets, context)]; the deep copy
    is the value itself. *)
Definition get_secrets_from_context (decompiled_secrets : json)
    (context : string) : result json :=
  rbind (py_contains (JStr context) decompiled_secrets) (λ found,
    if found : bool
    then py_get decompiled_secrets (KStr context) (JDict [])
    else Ok (JDict [])).

(** [is_secret_modified(filtered_secrets, name, value)]; the two log lines
    of the first branch have no effect on the result. *)
Definition is_secret_modified (filtered_secrets name value : json)
    : result bool :=
  rbind (rbind (py_contains name filtered_secrets) (λ found,
           if found : bool
           then rbind (py_getitem filtered_secrets name) (λ old,
                  Ok (negb (py_eqb old value)))
           else Ok false)) (λ changed,
    if changed : bool then Ok true
    else rbind (py_contains name filtered_secrets) (λ found,
           if negb found then Ok true else Ok false)).

Definition py_str (v : json) : result string :=
  match v with
  | JStr s => Ok s
  | _ => Raise (builtin TypeError)
  end.

(** [path_list[0]] used as the left operand of a string concatenation. *)
Definition path0 (path_list : list key) : result string :=
  match path_list with
  | [] => Raise (builtin IndexError)
  | KStr s :: _ => Ok s
  | _ :: _ => Raise (builtin TypeError)
  end.

Definition attrs_placeholder : json :=
  JDict [(KStr "attrs",
          JDict [(KStr "is_secret_modified", JBool false);
                 (KStr "secret_reference", JNone)])].

Definition attrs_value : json :=
  JDict [(KStr "is_secret_modified", JBool false);
         (KStr "secret_reference", JNone)].

Definition endpoint_password_placeholder : json :=
  JDict [(KStr "attrs",
          JDict [(KStr "is_secret_modified", JBool false);
                 (KStr "value", JNone)])].

Definition options_password_placeholder : json :=
  JDict [(KStr "value", JNone);
         (KStr "attrs", JDict [(KStr "is_secret_modified", JBool false)])].

Definition auth_password_placeholder : json :=
  JDict [(KStr "attrs", JDict [(KStr "is_secret_modified", JBool false)])].

Section strip_secrets.

Variable decompiled_secrets : json.

(** The body of [for cred in creds]; [cred] is the object at
    [credential_definition_list[i]]. *)
Definition strip_credential (filtered : json) (i : Z) : M unit :=
  let p := [KStr "credential_definition_list"; KInt i] in
  cred <- deref p ;;
  name <- lift (py_getitem_key cred "name") ;;
  secret <- lift (py_getitem_key cred "secret") ;;
  value <- lift (py_getitem_key secret "value") ;;
  modified <- lift (is_secret_modified filtered name value) ;;
  if modified : bool then
    popped <- pop_at p "secret" (Some (JDict [])) ;;
    secret_map_set name popped ;;
    setitem_at p "secret" attrs_placeholder
  else ret tt.

(** "Remove creds before upload". *)
Definition strip_credentials : M unit :=
  res <- deref [] ;;
  creds0 <- lift (py_get res "credential_definition_list" (JList [])) ;;
  filtered <- lift (get_secrets_from_context decompiled_secrets
                      "credential_definition_list") ;;
  n <- lift (iter_len (py_or creds0 (JList [])) TypeError) ;;
  for_each (indices n) (strip_credential filtered).

(** "Remove creds from HTTP endpoints resources". *)
Definition strip_endpoint_auth : M unit :=
  filtered <- lift (get_secrets_from_context decompiled_secrets
                      "authentication") ;;
  res <- deref [] ;;
  auth0 <- lift (py_get res "authentication" (JDict [])) ;;
  let auth := py_or auth0 (JDict []) in
  ty <- lift (py_get auth "type" JNone) ;;
  if py_eqb ty (JStr "basic") then
    username <- lift (py_getitem_key auth "username") ;;
    password <- lift (py_getitem_key auth "password") ;;
    modified <- lift (is_secret_modified filtered username password) ;;
    if modified : bool then
      name <- lift (py_getitem_key auth "username") ;;
      popped <- pop_at [KStr "authentication"] "password" (Some (JDict [])) ;;
      secret_map_set name popped ;;
      setitem_at [KStr "authentication"] "password"
        endpoint_password_placeholder
    else ret tt
  else ret tt.

(** The first half of the body of [for var_idx, variable in
    enumerate(...)] in [strip_entity_secret_variables], the statement
    [if variable["type"] == "SECRET": ...]; [variable] is the object at
    [ptr ++ [field_name; var_idx]]. *)
Definition strip_secret_value (filtered : json) (path_list : list key)
    (ptr : loc) (field_name : string) (var_idx : Z) : M unit :=
  let vptr := ptr ++ [KStr field_name; KInt var_idx] in
  let vpath := path_list ++ [KStr field_name; KInt var_idx] in
  variable <- deref vptr ;;
  ty <- lift (py_getitem_key variable "type") ;;
  if py_eqb ty (JStr "SECRET") then
    name <- lift (py_get variable "name" JNone) ;;
    value <- lift (py_get variable "value" JNone) ;;
    modified <- lift (is_secret_modified filtered name value) ;;
    if modified : bool then
      popped <- pop_at vptr "value" None ;;
      variable' <- deref vptr ;;
      name' <- lift (py_get variable' "name" JNone) ;;
      secret_variables_append (vpath, popped, name') ;;
      setitem_at vptr "attrs" attrs_value
    else
      value' <- lift (py_get variable "value" JNone) ;;
      if truthy value' then
        kept <- lift (py_getitem_key variable "value") ;;
        not_stripped_append (vpath, kept)
      else ret tt
  else ret tt.

(** The second half of that body, "For dynamic variables having http task
    with auth". *)
Definition strip_options_auth (path_list : list key) (ptr : loc)
    (field_name : string) (var_idx : Z) : M unit :=
  let vptr := ptr ++ [KStr field_name; KInt var_idx] in
  let vpath := path_list ++ [KStr field_name; KInt var_idx] in
  variable <- deref vptr ;;
  opts <- lift (py_get variable "options" JNone) ;;
  auth <- (if truthy opts then
             attrs <- lift (py_get opts "attrs" JNone) ;;
             if truthy attrs
             then lift (py_get attrs "authentication" JNone)
             else ret JNone
           else ret JNone) ;;
  if truthy auth then
    auth_type <- lift (py_get auth "auth_type" JNone) ;;
    if py_eqb auth_type (JStr "basic") then
      let bptr := vptr ++ [KStr "options"; KStr "attrs";
                           KStr "authentication"; KStr "basic_auth"] in
      basic_auth <- lift (py_get auth "basic_auth" JNone) ;;
      username <- lift (py_get basic_auth "username" JNone) ;;
      password <- pop_at bptr "password" None ;;
      pvalue <- lift (py_get password "value" JNone) ;;
      secret_variables_append
        (vpath ++ [KStr "options"; KStr "attrs"; KStr "authentication";
                   KStr "basic_auth"; KStr "password"], pvalue, username) ;;
      setitem_at bptr "password" options_password_placeholder
    else ret tt
  else ret tt.

(** The body of [for var_idx, variable in enumerate(...)]. *)
Definition strip_variable (filtered : json) (path_list : list key)
    (ptr : loc) (field_name : string) (var_idx : Z) : M unit :=
  strip_secret_value filtered path_list ptr field_name var_idx ;;
  strip_options_auth path_list ptr field_name var_idx.

(** [strip_entity_secret_variables(path_list, obj, field_name, context)];
    [obj] is the object at [ptr]. *)
Definition strip_entity_secret_variables (path_list : list key) (ptr : loc)
    (field_name : string) (context : string) : M unit :=
  obj <- deref ptr ;;
  context <- (if negb (String.eqb field_name "headers") then
                name <- lift (py_get obj "name" JNone) ;;
                if truthy name then
                  name <- lift (rbind (py_getitem_key obj "name") py_str) ;;
                  ret (context +:+ "." +:+ name +:+ "." +:+ field_name)
                else ret context
              else ret context) ;;
  filtered <- lift (get_secrets_from_context decompiled_secrets context) ;;
  vars <- lift (py_get obj field_name (JList [])) ;;
  n <- lift (iter_len (py_or vars (JList [])) TypeError) ;;
  for_each (indices n) (strip_variable filtered path_list ptr field_name).

Definition task_auth_suffix : list key :=
  [KStr "attrs"; KStr "authentication"; KStr "basic_auth"; KStr "password"].

(** The body of [for task_idx, task in enumerate(tasks)] in
    [strip_action_secret_variables]; [task] is the object at [tptr],
    [tpath] is [path_list + ["action_list", action_idx, "runbook",
    "task_definition_list", task_idx]]. *)
Definition strip_action_task (tpath : list key) (tptr : loc)
    (var_runbook_task_context : string) : M unit :=
  task <- deref tptr ;;
  ty <- lift (py_get task "type" JNone) ;;
  if negb (py_eqb ty (JStr "HTTP")) then ret tt
  else
    attrs <- lift (py_get task "attrs" (JDict [])) ;;
    auth0 <- lift (py_get (py_or attrs (JDict [])) "authentication"
                     (JDict [])) ;;
    let auth := py_or auth0 (JDict []) in
    tname <- lift (rbind (py_getitem_key task "name") py_str) ;;
    let var_runbook_task_name_context :=
      var_runbook_task_context +:+ "." +:+ tname in
    let var_runbook_task_name_basic_auth_context :=
      var_runbook_task_context +:+ "." +:+ tname +:+ ".basic_auth" in
    auth_type <- lift (py_get auth "auth_type" JNone) ;;
    (if py_eqb auth_type (JStr "basic") then
       let aptr := tptr ++ [KStr "attrs"; KStr "authentication"] in
       filtered <- lift (get_secrets_from_context decompiled_secrets
                           var_runbook_task_name_basic_auth_context) ;;
       basic_auth <- lift (py_get auth "basic_auth" (JDict [])) ;;
       username <- lift (py_get basic_auth "username" JNone) ;;
       password <- lift (py_get basic_auth "password" (JDict [])) ;;
       value <- lift (py_get password "value" JNone) ;;
       modified <- lift (is_secret_modified filtered username value) ;;
       if modified : bool then
         basic_auth <- lift (py_getitem_key auth "basic_auth") ;;
         _ <- lift (py_getitem_key basic_auth "password") ;;
         popped <- pop_at (aptr ++ [KStr "basic_auth"; KStr "password"])
                     "value" None ;;
         auth' <- deref aptr ;;
         basic_auth' <- lift (py_get auth' "basic_auth" (JDict [])) ;;
         username' <- lift (py_get basic_auth' "username" JNone) ;;
         secret_variables_append (tpath ++ task_auth_suffix, popped, username') ;;
         _ <- lift (py_getitem_key auth' "basic_auth") ;;
         setitem_at (aptr ++ [KStr "basic_auth"]) "password" attrs_placeholder
       else
         basic_auth <- lift (py_get auth "basic_auth" JNone) ;;
         password <- lift (py_get basic_auth "password" JNone) ;;
         value <- lift (py_get password "value" JNone) ;;
         if truthy value then
           kept <- lift (rbind (rbind (py_getitem_key auth "basic_auth")
                                  (λ b, py_getitem_key b "password"))
                           (λ p, py_getitem_key p "value")) ;;
           not_stripped_append (tpath ++ task_auth_suffix, kept)
         else ret tt
     else ret tt) ;;
    task <- deref tptr ;;
    attrs <- lift (py_get task "attrs" (JDict [])) ;;
    headers <- lift (py_get (py_or attrs (JDict [])) "headers" (JList [])) ;;
    if truthy (py_or headers (JList [])) then
      _ <- lift (py_getitem_key task "attrs") ;;
      strip_entity_secret_variables (tpath ++ [KStr "attrs"])
        (tptr ++ [KStr "attrs"]) "headers"
        (var_runbook_task_name_context +:+ ".headers")
    else ret tt.

(** The body of [for action_idx, action in enumerate(...)] in
    [strip_action_secret_variables]; it answers [false] where the source
    returns from the function. *)
Definition strip_action (path_list : list key) (ptr : loc)
    (context : string) (action_idx : Z) : M bool :=
  let aptr := ptr ++ [KStr "action_list"; KInt action_idx] in
  let apath := path_list ++ [KStr "action_list"; KInt action_idx] in
  action <- deref aptr ;;
  aname <- lift (rbind (py_getitem_key action "name") py_str) ;;
  let var_context := context +:+ "." +:+ aname in
  runbook0 <- lift (py_get action "runbook" (JDict [])) ;;
  let runbook := py_or runbook0 (JDict []) in
  let var_runbook_context := var_context +:+ ".runbook" in
  if negb (truthy runbook) then ret false
  else
    strip_entity_secret_variables (apath ++ [KStr "runbook"])
      (aptr ++ [KStr "runbook"]) "variable_list" var_runbook_context ;;
    runbook <- deref (aptr ++ [KStr "runbook"]) ;;
    tasks <- lift (py_get runbook "task_definition_list" (JList [])) ;;
    rname <- lift (rbind (py_getitem_key runbook "name") py_str) ;;
    let var_runbook_task_context :=
      var_runbook_context +:+ "." +:+ rname +:+ ".task_definition_list" in
    n <- lift (iter_len tasks AttributeError) ;;
    for_each (indices n) (λ task_idx,
      strip_action_task
        (apath ++ [KStr "runbook"; KStr "task_definition_list"; KInt task_idx])
        (aptr ++ [KStr "runbook"; KStr "task_definition_list"; KInt task_idx])
        var_runbook_task_context) ;;
    ret true.

(** [strip_action_secret_variables(path_list, obj)] *)
Definition strip_action_secret_variables (path_list : list key) (ptr : loc)
    : M unit :=
  obj <- deref ptr ;;
  root <- lift (path0 path_list) ;;
  name <- lift (rbind (py_getitem_key obj "name") py_str) ;;
  let context := root +:+ "." +:+ name +:+ ".action_list" in
  actions <- lift (py_get obj "action_list" (JList [])) ;;
  n <- lift (iter_len (py_or actions (JList [])) TypeError) ;;
  for_each_until (indices n) (strip_action path_list ptr context).

(** [strip_authentication_secret_variables(path_list, obj, context)].
    [obj] is the value the caller passes; it is the object at [ptr]
    whenever it holds an ["authentication"] entry, which the branch that
    writes requires (the fresh [{}] a caller may pass has none). *)
Definition strip_authentication_secret_variables (path_list : list key)
    (ptr : loc) (obj : json) (context : string) : M unit :=
  name <- lift (rbind (py_get obj "name" (JStr "")) py_str) ;;
  let basic_auth_context := context +:+ "." +:+ name +:+ ".basic_auth" in
  filtered <- lift (get_secrets_from_context decompiled_secrets
                      basic_auth_context) ;;
  auth <- lift (py_get obj "authentication" (JDict [])) ;;
  auth_type <- lift (py_get auth "auth_type" JNone) ;;
  if py_eqb auth_type (JStr "basic") then
    let aptr := ptr ++ [KStr "authentication"] in
    let apath :=
      path_list ++ [KStr "authentication"; KStr "basic_auth"; KStr "password"] in
    password <- lift (py_get auth "password" (JDict [])) ;;
    pname <- lift (py_get password "name" JNone) ;;
    password <- lift (py_get auth "password" (JDict [])) ;;
    pvalue <- lift (py_get password "value" JNone) ;;
    modified <- lift (is_secret_modified filtered pname pvalue) ;;
    if modified : bool then
      _ <- lift (py_getitem_key auth "password") ;;
      popped <- pop_at (aptr ++ [KStr "password"]) "value" None ;;
      auth' <- deref aptr ;;
      password' <- lift (py_get auth' "password" (JDict [])) ;;
      pname' <- lift (py_get password' "name" JNone) ;;
      secret_variables_append (apath, popped, pname') ;;
      setitem_at aptr "password" auth_password_placeholder
    else
      password <- lift (py_get auth "password" JNone) ;;
      value <- lift (py_get password "value" JNone) ;;
      if truthy value then
        kept <- lift (rbind (py_getitem_key auth "password")
                        (λ p, py_getitem_key p "value")) ;;
        not_stripped_append (apath, kept)
      else ret tt
  else ret tt.

(** The body of [for task_idx, task in enumerate(tasks)] in
    [strip_runbook_secret_variables]; [task] is the object at
    [ptr ++ ["task_definition_list"; task_idx]]. *)
Definition strip_runbook_task (original_path_list : list key) (ptr : loc)
    (context : string) (task_idx : Z) : M unit :=
  let tptr := ptr ++ [KStr "task_definition_list"; KInt task_idx] in
  let path_list := original_path_list in
  task <- deref tptr ;;
  ty <- lift (py_get task "type" JNone) ;;
  if py_eqb ty (JStr "RT_OPERATION") then
    let path_list :=
      path_list ++ [KStr "task_definition_list"; KInt task_idx; KStr "attrs"] in
    _ <- lift (py_getitem_key task "attrs") ;;
    strip_entity_secret_variables path_list (tptr ++ [KStr "attrs"])
      "inarg_list" ""
  else if negb (py_eqb ty (JStr "HTTP")) then ret tt
  else
    attrs <- lift (py_get task "attrs" (JDict [])) ;;
    auth0 <- lift (py_get (py_or attrs (JDict [])) "authentication"
                     (JDict [])) ;;
    let auth := py_or auth0 (JDict []) in
    auth_type <- lift (py_get auth "auth_type" JNone) ;;
    let path_list :=
      if py_eqb auth_type (JStr "basic")
      then path_list ++ [KStr "runbook"] else path_list in
    let path_list :=
      path_list ++ [KStr "task_definition_list"; KInt task_idx; KStr "attrs"] in
    tname <- lift (rbind (py_getitem_key task "name") py_str) ;;
    let var_task_context := context +:+ "." +:+ tname in
    attrs <- lift (py_get task "attrs" (JDict [])) ;;
    strip_authentication_secret_variables path_list (tptr ++ [KStr "attrs"])
      (py_or attrs (JDict [])) var_task_context ;;
    task <- deref tptr ;;
    attrs <- lift (py_get task "attrs" (JDict [])) ;;
    headers <- lift (py_get (py_or attrs (JDict [])) "headers" (JList [])) ;;
    if truthy (py_or (JBool (negb (truthy headers))) (JList []))
    then ret tt
    else
      _ <- lift (py_getitem_key task "attrs") ;;
      strip_entity_secret_variables path_list (tptr ++ [KStr "attrs"])
        "headers" (var_task_context +:+ ".headers").

(** [strip_runbook_secret_variables(path_list, obj)] *)
Definition strip_runbook_secret_variables (path_list : list key) (ptr : loc)
    : M unit :=
  obj <- deref ptr ;;
  root <- lift (path0 path_list) ;;
  name <- lift (rbind (py_getitem_key obj "name") py_str) ;;
  let context := root +:+ "." +:+ name +:+ ".task_definition_list" in
  tasks <- lift (py_get obj "task_definition_list" (JList [])) ;;
  n <- lift (iter_len tasks AttributeError) ;;
  for_each (indices n) (strip_runbook_task path_list ptr context).

(** [strip_all_secret_variables(path_list, obj)] for the object at [ptr]. *)
Definition strip_all_secret_variables (path_list : list key) (ptr : loc)
    : M unit :=
  root <- lift (path0 path_list) ;;
  strip_entity_secret_variables path_list ptr "variable_list" root ;;
  strip_action_secret_variables path_list ptr ;;
  strip_runbook_secret_variables path_list ptr ;;
  obj <- deref ptr ;;
  strip_authentication_secret_variables path_list ptr obj root.

(** [strip_all_secret_variables([obj], {})], the call made for a name of
    [objects] that [resources] lacks: the default [{}] has no variables, so
    [strip_entity_secret_variables] only looks up the context secrets, and
    [strip_action_secret_variables] raises at [obj["name"]]. *)
Definition strip_all_secret_variables_absent (name : string) : M unit :=
  _ <- lift (get_secrets_from_context decompiled_secrets name) ;;
  raise (builtin KeyError).

(** The body of [for object_list in object_lists]. *)
Definition strip_object_list (object_list : string) : M unit :=
  res <- deref [] ;;
  objs <- lift (py_get res object_list (JList [])) ;;
  n <- lift (iter_len (py_or objs (JList [])) AttributeError) ;;
  for_each (indices n) (λ obj_idx,
    strip_all_secret_variables [KStr object_list; KInt obj_idx]
      [KStr object_list; KInt obj_idx]).

(** The body of [for obj in objects]. *)
Definition strip_object (obj : string) : M unit :=
  res <- deref [] ;;
  match res with
  | JDict d =>
      match dict_lookup obj d with
      | Some _ => strip_all_secret_variables [KStr obj] [KStr obj]
      | None => strip_all_secret_variables_absent obj
      end
  | _ => raise (builtin AttributeError)
  end.

(** [strip_secrets(resources, secret_map, secret_variables, object_lists,
    objects, decompiled_secrets, not_stripped_secrets)] *)
Definition strip_secrets (object_lists objects : list string) : M unit :=
  strip_credentials ;;
  strip_endpoint_auth ;;
  for_each object_lists strip_object_list ;;
  for_each objects strip_object.

End strip_secrets.

Definition is_dict (v : json) : bool :=
  match v with JDict _ => true | _ => false end.

(** The location component [obj[k]] designates: a list position counted
    from the end is the same element as its position from the start. *)
Definition canon_key (obj : json) (k : key) : key :=
  match obj, k with
  | JList l, KInt i =>
      match norm_index (length l) i with
      | Some n => KInt (Z.of_nat n)
      | None => k
      end
  | _, _ => k
  end.

(** The inner loop of [patch_secrets]:
    [for sub_path in path: if isinstance(variable, dict) and sub_path not
    in variable: break; variable = variable[sub_path]].  [None] is the
    [break]; otherwise the object reached and its location. *)
Fixpoint walk_path (path : list key) (variable : json) (ptr : loc)
    : result (option (loc * json)) :=
  match path with
  | [] => Ok (Some (ptr, variable))
  | sub_path :: rest =>
      if is_dict variable
         && negb (match variable with
                  | JDict d => dict_mem sub_path d
                  | _ => false
                  end)
      then Ok None
      else rbind (py_getitem_key variable sub_path) (λ next,
             walk_path rest next (ptr ++ [canon_key variable sub_path]))
  end.

(** [variable[k] = v] for the object a walk ended on. *)
Definition setitem_reached (ptr : loc) (variable : json) (k : key) (v : json)
    : M unit :=
  match variable with
  | JDict _ => setitem_at ptr k v
  | _ => raise (builtin TypeError)
  end.

Definition is_secret_modified_attrs (b : bool) : json :=
  JDict [(KStr "is_secret_modified", JBool b)].

(** The body of [for cred in creds] in [patch_secrets]. *)
Definition patch_credential (secret_map : dict) (i : Z) : M unit :=
  let p := [KStr "credential_definition_list"; KInt i] in
  cred <- deref p ;;
  name <- lift (py_getitem_key cred "name") ;;
  found <- lift (py_contains name (JDict secret_map)) ;;
  if found : bool then
    secret <- lift (py_getitem (JDict secret_map) name) ;;
    setitem_at p "secret" secret
  else ret tt.

(** "Add creds back" and "Add creds back for HTTP endpoint". *)
Definition patch_credentials (secret_map : dict) : M unit :=
  res <- deref [] ;;
  creds <- lift (py_get res "credential_definition_list" (JList [])) ;;
  n <- lift (iter_len creds TypeError) ;;
  for_each (indices n) (patch_credential secret_map) ;;
  res <- deref [] ;;
  auth <- lift (py_get res "authentication" (JDict [])) ;;
  username <- lift (py_get auth "username" (JStr "")) ;;
  if truthy username then
    found <- lift (py_contains username (JDict secret_map)) ;;
    if found : bool then
      secret <- lift (py_getitem (JDict secret_map) username) ;;
      setitem_at [KStr "authentication"] "password" secret
    else ret tt
  else ret tt.

(** The body of [for path, secret in existing_secrets]. *)
Definition patch_existing_secret (e : list key * json) : M unit :=
  res <- deref [] ;;
  reached <- lift (walk_path e.1 res []) ;;
  match reached with
  | Some (ptr, variable) =>
      setitem_reached ptr variable "attrs" (is_secret_modified_attrs false)
  | None => ret tt
  end.

(** The body of [for secret_var_data in secret_variables]. *)
Definition patch_secret_variable (e : list key * json * json) : M unit :=
  let path := e.1.1 in
  let secret := e.1.2 in
  res <- deref [] ;;
  reached <- lift (walk_path path res []) ;;
  match reached with
  | Some (ptr, variable) =>
      setitem_reached ptr variable "attrs" (is_secret_modified_attrs true) ;;
      setitem_at ptr "value" secret
  | None => ret tt
  end.

(** [patch_secrets(resources, secret_map, secret_variables,
    existing_secrets)]; the payload is the [resources] of the state, the
    result is the patched payload. *)
Definition patch_secrets (secret_map : dict)
    (secret_variables : list (list key * json * json))
    (existing_secrets : list (list key * json)) : M json :=
  patch_credentials secret_map ;;
  for_each existing_secrets patch_existing_secret ;;
  for_each secret_variables patch_secret_variable ;;
  deref [].

(** The body of [for patch_config in profile.get("patch_list", [])] in
    [strip_patch_config_tasks]; [patch_config] is the object at [cptr] and
    [acc] is [patch_config_task_list_map]. *)
Definition strip_patch_config (cptr : loc) (acc : dict) : M dict :=
  patch_config <- deref cptr ;;
  tasks <- match patch_config with
           | JDict d =>
               match dict_lookup "runbook" d with
               | Some _ => pop_at (cptr ++ [KStr "runbook"])
                             "task_definition_list" (Some (JList []))
               | None => ret (JList [])
               end
           | _ => raise (builtin AttributeError)
           end ;;
  patch_config <- deref cptr ;;
  name <- lift (rbind (py_get patch_config "name" JNone) to_key) ;;
  _ <- pop_at cptr "runbook" (Some (JStr "")) ;;
  ret (dict_set name tasks acc).

(** The body of [for profile in resources.get("app_profile_list", [])];
    [acc] is [profile_patch_config_tasks]. *)
Definition strip_profile_patch_configs (i : Z) (acc : dict) : M dict :=
  let pptr := [KStr "app_profile_list"; KInt i] in
  profile <- deref pptr ;;
  patch_list <- lift (py_get profile "patch_list" (JList [])) ;;
  n <- lift (iter_len patch_list AttributeError) ;;
  patch_config_task_list_map <-
    for_fold (indices n) []
      (λ j, strip_patch_config (pptr ++ [KStr "patch_list"; KInt j])) ;;
  profile <- deref pptr ;;
  name <- lift (rbind (py_get profile "name" JNone) to_key) ;;
  ret (dict_set name (JDict patch_config_task_list_map) acc).

(** [strip_patch_config_tasks(resources)] *)
Definition strip_patch_config_tasks : M json :=
  res <- deref [] ;;
  profiles <- lift (py_get res "app_profile_list" (JList [])) ;;
  n <- lift (iter_len profiles AttributeError) ;;
  profile_patch_config_tasks <-
    for_fold (indices n) [] strip_profile_patch_configs ;;
  ret (JDict profile_patch_config_tasks).

(** *** [strip_vmware_secrets] *)

(** [path_list] is a list object of the caller that the function extends
    in place; [obj] is the [resources] of the store. *)
Record vm_state : Type := mk_vm_state {
  vm_path_list : list key;
  vm_store : state;
}.

Definition in_store {A} (m : M A) : MS vm_state A :=
  λ s, match m (vm_store s) with
       | (r, st) => (r, mk_vm_state (vm_path_list s) st)
       end.

(** [path_list.extend(ks)] *)
Definition path_list_extend (ks : list key) : MS vm_state unit :=
  λ s, (Ok tt, mk_vm_state (vm_path_list s ++ ks) (vm_store s)).

Definition read_path_list : MS vm_state (list key) :=
  λ s, (Ok (vm_path_list s), s).

Definition vmware_secrets_context : string :=
  "create_spec.resources.guest_customization.windows_data".

Definition guest_customization_loc : loc :=
  [KStr "create_spec"; KStr "resources"; KStr "guest_customization"].

(** [strip_vmware_secrets(path_list, obj, secret_variables,
    decompiled_secrets, not_stripped_secrets)] *)
Definition strip_vmware_secrets (decompiled_secrets : json)
    : MS vm_state unit :=
  path_list_extend guest_customization_loc ;;
  root <- in_store (deref []) ;;
  obj <- lift (rbind (rbind (py_getitem_key root "create_spec")
                        (λ o, py_getitem_key o "resources"))
                 (λ o, py_getitem_key o "guest_customization")) ;;
  windows_data <- lift (py_get obj "windows_data" (JDict [])) ;;
  if truthy windows_data then
    path_list_extend [KStr "windows_data"] ;;
    let optr := guest_customization_loc ++ [KStr "windows_data"] in
    obj <- lift (py_getitem_key obj "windows_data") ;;
    if negb (truthy obj) then ret tt
    else
      pname <- lift (rbind (rbind (py_getitem_key obj "password")
                              (λ p, py_get p "name" (JStr ""))) py_str) ;;
      let vmware_secrets_admin_context :=
        vmware_secrets_context +:+ "windows_data" +:+ ".password." +:+ pname in
      filtered <- lift (get_secrets_from_context decompiled_secrets
                          vmware_secrets_admin_context) ;;
      (* Check for admin_password *)
      password <- lift (py_get obj "password" (JDict [])) ;;
      (if truthy password then
         password <- lift (py_getitem_key obj "password") ;;
         name <- lift (py_get password "name" (JStr "")) ;;
         value <- lift (py_get password "value" JNone) ;;
         modified <- lift (is_secret_modified filtered name value) ;;
         path_list <- read_path_list ;;
         if modified : bool then
           popped <- in_store (pop_at (optr ++ [KStr "password"]) "value"
                                 (Some (JStr ""))) ;;
           obj' <- in_store (deref optr) ;;
           name' <- lift (rbind (py_getitem_key obj' "password")
                            (λ p, py_get p "name" (JStr ""))) ;;
           in_store (secret_variables_append
                       (path_list ++ [KStr "password"], popped, name')) ;;
           in_store (setitem_at (optr ++ [KStr "password"]) "attrs"
                       attrs_value)
         else
           kept <- lift (py_get password "value" (JStr "")) ;;
           in_store (not_stripped_append
                       (path_list ++ [KStr "password"], kept))
       else ret tt) ;;
      (* Now check for domain password *)
      obj <- in_store (deref optr) ;;
      is_domain <- lift (py_get obj "is_domain" (JBool false)) ;;
      if truthy is_domain then
        domain_password <- lift (py_get obj "domain_password" (JDict [])) ;;
        if truthy domain_password then
          dname <- lift (rbind (rbind (py_getitem_key obj "domain_password")
                                  (λ p, py_get p "name" (JStr ""))) py_str) ;;
          let vmware_secrets_domain_context :=
            vmware_secrets_context +:+ "windows_data" +:+ ".domain_password."
              +:+ dname in
          filtered <- lift (get_secrets_from_context decompiled_secrets
                              vmware_secrets_domain_context) ;;
          name <- lift (py_get domain_password "name" (JStr "")) ;;
          value <- lift (py_get domain_password "value" JNone) ;;
          modified <- lift (is_secret_modified filtered name value) ;;
          path_list <- read_path_list ;;
          if modified : bool then
            popped <- in_store (pop_at (optr ++ [KStr "domain_password"])
                                  "value" (Some (JStr ""))) ;;
            obj' <- in_store (deref optr) ;;
            name' <- lift (rbind (py_getitem_key obj' "domain_password")
                             (λ p, py_getitem_key p "name")) ;;
            in_store (secret_variables_append
                        (path_list ++ [KStr "domain_password"], popped, name')) ;;
            in_store (setitem_at (optr ++ [KStr "domain_password"]) "attrs"
                        attrs_value)
          else
            popped <- in_store (pop_at (optr ++ [KStr "domain_password"])
                                  "value" (Some (JStr ""))) ;;
            in_store (not_stripped_append
                        (path_list ++ [KStr "domain_password"], popped))
        else ret tt
      else ret tt
  else ret tt.

(** The default values of the optional parameters are objects created once,
    when the [def] statement runs, and shared by every call that leaves the
    parameter out.  [decompiled_secrets=[]] is only read; the two lists
    below are appended to. *)
Record vmware_defaults : Type := mk_vmware_defaults {
  dflt_secret_variables : list (list key * json * json);
  dflt_not_stripped_secrets : list (list key * json);
}.

Definition vmware_defaults_at_import : vmware_defaults :=
  mk_vmware_defaults [] [].

(** What a call [strip_vmware_secrets(path_list, obj)] leaves behind: how
    it ended, the caller's two objects, and the lists that collected the
    secrets. *)
Record vmware_call : Type := mk_vmware_call {
  call_result : result unit;
  call_path_list : list key;
  call_obj : json;
  call_secret_variables : list (list key * json * json);
  call_not_stripped_secrets : list (list key * json);
}.

(** [strip_vmware_secrets(path_list, obj)] with the three optional
    parameters left out, and the default objects after the call. *)
Definition strip_vmware_secrets_defaults (path_list : list key) (obj : json)
    (d : vmware_defaults) : vmware_call * vmware_defaults :=
  match strip_vmware_secrets (JList [])
          (mk_vm_state path_list
             (mk_state obj [] (dflt_secret_variables d)
                (dflt_not_stripped_secrets d))) with
  | (r, s) =>
      (mk_vmware_call r (vm_path_list s) (resources (vm_store s))
         (secret_variables (vm_store s))
         (not_stripped_secrets (vm_store s)),
       mk_vmware_defaults (secret_variables (vm_store s))
         (not_stripped_secrets (vm_store s)))
  end.

(** The defaults of [strip_secrets]: [object_lists=[]], [objects=[]] and
    [decompiled_secrets=[]] are only read, [not_stripped_secrets=[]] is the
    list the walk appends to. *)
Record strip_defaults : Type := mk_strip_defaults {
  dflt_not_stripped : list (list key * json);
}.

Record strip_call : Type := mk_strip_call {
  sc_result : result unit;
  sc_resources : json;
  sc_secret_map : dict;
  sc_secret_variables : list (list key * json * json);
  sc_not_stripped_secrets : list (list key * json);
}.

(** [strip_secrets(resources, secret_map, secret_variables)] with the four
    optional parameters left out. *)
Definition strip_secrets_defaults (res : json) (sm : dict)
    (sv : list (list key * json * json)) (d : strip_defaults)
    : strip_call * strip_defaults :=
  match strip_secrets (JList []) [] []
          (mk_state res sm sv (dflt_not_stripped d)) with
  | (r, s) =>
      (mk_strip_call r (resources s) (secret_map s) (secret_variables s)
         (not_stripped_secrets s),
       mk_strip_defaults (not_stripped_secrets s))
  end.

(** ** [calm/dsl/decompile/substrate.py] *)

(** [len(v)] *)
Definition py_len (v : json) : result Z :=
  match v with
  | JList l => Ok (Z.of_nat (length l))
  | JDict d => Ok (Z.of_nat (length d))
  | JStr s => Ok (Z.of_nat (String.length s))
  | _ => Raise (builtin TypeError)
  end.

(** [disk_ind_img_map[k] = v] on a local dict from disk numbers to names. *)
Fixpoint img_map_set (k : Z) (v : string) (m : list (Z * string))
    : list (Z * string) :=
  match m with
  | [] => [(k, v)]
  | (k', v') :: m' =>
      if decide (k = k') then (k, v) :: m' else (k', v') :: img_map_set k v m'
  end.

(** [s[1:]] when [s.startswith(",")], else [s]. *)
Definition strip_leading_comma (s : string) : string :=
  if String.prefix "," s
  then match s with String _ s' => s' | EmptyString => s end
  else s.

(** [for k, v in disk_ind_img_map.items():
      disk_pkg_string += ",{}: {}".format(k, v)] *)
Definition disk_pkg_items (m : list (Z * string)) : string :=
  foldl (λ acc kv, acc +:+ "," +:+ pretty kv.1 +:+ ": " +:+ kv.2) "" m.

Section get_provider_spec_string.

(** Parts of the repository and of the interpreter that the sources at hand
    do not hold: the debugger session opened by [pdb.set_trace()], which
    may do anything to the program state and ends by resuming or by raising
    [BdbQuit]; [AhvVmType.decompile], applied to the spec for its effect;
    and [get_valid_identifier] of [calm.dsl.builtins]. *)
Variable pdb_set_trace : M unit.
Variable AhvVmType_decompile : M unit.
Variable get_valid_identifier : json → result string.

Definition disk_list_loc : loc := [KStr "resources"; KStr "disk_list"].

(** The body of [for ind, disk in enumerate(disk_list)]. *)
Definition collect_disk_package (ind : Z) (disk_ind_img_map : list (Z * string))
    : M (list (Z * string)) :=
  let dptr := disk_list_loc ++ [KInt ind] in
  disk <- deref dptr ;;
  data_source_ref <- lift (py_get disk "data_source_reference" (JDict [])) ;;
  if truthy data_source_ref then
    kind <- lift (py_get data_source_ref "kind" JNone) ;;
    if py_eqb kind (JStr "app_package") then
      name <- lift (py_get data_source_ref "name" JNone) ;;
      ident <- lift (get_valid_identifier name) ;;
      _ <- pop_at (dptr ++ [KStr "data_source_reference"]) "uuid" (Some JNone) ;;
      ret (img_map_set (ind + 1) ident disk_ind_img_map)
    else ret disk_ind_img_map
  else ret disk_ind_img_map.

(** [get_provider_spec_string(spec, filename, provider_type, vm_images)];
    [spec] is the [resources] of the state. *)
Definition get_provider_spec_string (filename provider_type : string)
    (vm_images : json) : M string :=
  if String.eqb provider_type "AHV_VM" then
    pdb_set_trace ;;
    AhvVmType_decompile ;;
    spec <- deref [] ;;
    disk_list <- lift (rbind (py_getitem_key spec "resources")
                         (λ r, py_getitem_key r "disk_list")) ;;
    n <- lift (iter_len disk_list AttributeError) ;;
    disk_ind_img_map <- for_fold (indices n) [] collect_disk_package ;;
    let disk_pkg_string := disk_pkg_items disk_ind_img_map in
    let disk_pkg_string := strip_leading_comma disk_pkg_string in
    let disk_pkg_string := "{" +:+ disk_pkg_string +:+ "}" in
    ret ("read_ahv_spec('" +:+ filename +:+ "', disk_packages = "
           +:+ disk_pkg_string +:+ ")")
  else if String.eqb provider_type "VMWARE_VM" then
    spec <- deref [] ;;
    template <- lift (py_getitem_key spec "template") ;;
    spec_template <- lift (get_valid_identifier template) ;;
    found <- lift (py_contains (JStr spec_template) vm_images) ;;
    if found : bool then
      setitem_reached [] spec "template" (JStr "") ;;
      ret ("read_vmw_spec('" +:+ filename +:+ "', vm_template="
             +:+ spec_template +:+ ")")
    else ret ("read_vmw_spec('" +:+ filename +:+ "')")
  else ret ("read_provider_spec('" +:+ filename +:+ "')").

End get_provider_spec_string.

(** ** [calm/dsl/providers/plugins/ahv_vm/main.py] *)

(** A downloadable-image class, as [update_vm_image_config] uses it:
    [img_cls.compile()] and [ref(img_cls).compile()]. *)
Record img_cls : Type := mk_img_cls {
  img_compile : result json;
  img_ref_compile : result json;
}.

Section update_vm_image_config.

(** [AhvConstants.IMAGE_TYPES] of [.constants], which is not among the
    sources at hand: the table from a disk's device type to its image
    type. *)
Variable IMAGE_TYPES : json.

Definition read_disk_list : M json :=
  spec <- deref [] ;;
  lift (rbind (py_getitem_key spec "resources")
          (λ r, py_get r "disk_list" (JList []))).

(** The body of [for disk_ind, img_cls in disk_packages.items()]. *)
Definition update_vm_image (e : Z * img_cls) : M unit :=
  let disk_ind := e.1 in
  let img := e.2 in
  disk_list <- read_disk_list ;;
  n <- lift (py_len disk_list) ;;
  if (n <? disk_ind)%Z then
    raise (raised ValueError
             ("invalid disk address (" +:+ pretty disk_ind +:+ ")"))
  else
    let dptr := disk_list_loc ++ [canon_key disk_list (KInt (disk_ind - 1))] in
    disk <- lift (py_getitem_key disk_list (KInt (disk_ind - 1))) ;;
    has_ref <- lift (py_contains (JStr "data_source_reference") disk) ;;
    if negb has_ref then
      raise (raised ValueError
               ("unable to set downloadable image in disk "
                  +:+ pretty disk_ind))
    else
      pkg <- lift (img_compile img) ;;
      vm_image_type <-
        lift (rbind (rbind (py_getitem_key pkg "options")
                       (λ o, py_getitem_key o "resources"))
                (λ r, py_getitem_key r "image_type")) ;;
      device_type <-
        lift (rbind (py_getitem_key disk "device_properties")
                (λ p, py_getitem_key p "device_type")) ;;
      disk_img_type <- lift (py_getitem IMAGE_TYPES device_type) ;;
      if negb (py_eqb vm_image_type disk_img_type) then
        raise (raised TypeError
                 ("image type mismatch in disk " +:+ pretty disk_ind))
      else
        (* Set the reference of this disk *)
        reference <- lift (img_ref_compile img) ;;
        setitem_reached dptr disk "data_source_reference" reference.

(** [AhvVmProvider.update_vm_image_config(spec, disk_packages)];
    [disk_packages] is given by its items, in the order [items()] yields
    them. *)
Definition update_vm_image_config (disk_packages : list (Z * img_cls))
    : M unit :=
  _ <- read_disk_list ;;
  for_each disk_packages update_vm_image.

End update_vm_image_config.

(** ** [calm/dsl/cli/acps.py] and [calm/dsl/cli/mpis.py] *)

(** What a command handler does that its caller or the operator can see:
    log records, text written by [click.echo], and how it ends. *)
Inductive event : Type :=
  | LogInfo (msg : string)
  | LogWarning (msg : string)
  | LogError (msg : string)
  | LogErrorValue (err : json)
  | EchoJson (doc : json)
  | EchoText (text : string)
  | EchoTable (field_names : list string) (rows : list (list string)).

Inductive ending (A : Type) : Type :=
  | Returned (a : A)
  | Exited (code : Z)
  | Raised (e : exn).
Arguments Returned {A} a.
Arguments Exited {A} code.
Arguments Raised {A} e.

(** The pair [res, err] a REST call returns: [res.json()] when there is a
    response, and the error, [None] on success. *)
Record response : Type := mk_response {
  res_json : option json;
  err : json;
}.

Section cli.

(** The server the client talks to, and the calls the handlers make; each
    answers from the server's state and may change it.  [get_name_query]
    and [highlight_text] are helpers of [calm.dsl.cli.utils], [py_format]
    is the text [str.format] gives a value, [pc_ip] is
    [config["SERVER"]["pc_ip"]]: none of them is among the sources at
    hand. *)
Variable world : Type.
Variable acp_list : json → world → response * world.
Variable acp_get_name_uuid_map : json → world → json * world.
Variable acp_delete : json → world → response * world.
Variable acp_read : json → world → response * world.
Variable projects_internal_read : json → world → response * world.
Variable project_update : json → json → world → response * world.
Variable app_family_list : json → world → response * world.
Variable get_name_query : list string → string.
Variable highlight_text : json → string.
Variable py_format : json → string.
Variable pc_ip : string.

Definition H (A : Type) : Type := world → list event * ending A * world.

Definition hret {A} (a : A) : H A := λ w, ([], Returned a, w).
Definition hbind {A B} (m : H A) (k : A → H B) : H B :=
  λ w, match m w with
       | (ev, Returned a, w') =>
           match k a w' with
           | (ev', r, w'') => (ev ++ ev', r, w'')
           end
       | (ev, Exited c, w') => (ev, Exited c, w')
       | (ev, Raised e, w') => (ev, Raised e, w')
       end.
Definition emit (e : event) : H unit := λ w, ([e], Returned tt, w).
Definition sys_exit {A} (code : Z) : H A := λ w, ([], Exited code, w).
Definition hraise {A} (e : exn) : H A := λ w, ([], Raised e, w).
Definition hlift {A} (r : result A) : H A :=
  match r with
  | Ok a => hret a
  | Raise e => hraise e
  end.
Definition call {A} (f : world → A * world) : H A :=
  λ w, match f w with (a, w') => ([], Returned a, w') end.

Declare Scope h_scope.
Delimit Scope h_scope with H.
Notation "x <- m ;; k" := (hbind m (λ x, k))
  (at level 100, m at next level, right associativity) : h_scope.
Notation "m ;; k" := (hbind m (λ _, k))
  (at level 100, right associativity) : h_scope.
Local Open Scope h_scope.

Fixpoint hfor_each {A} (l : list A) (body : A → H unit) : H unit :=
  match l with
  | [] => hret tt
  | x :: l' => hbind (body x) (λ _, hfor_each l' body)
  end.

(** [res.json()] *)
Definition response_json (r : response) : result json :=
  match res_json r with
  | Some doc => Ok doc
  | None => Raise (builtin AttributeError)
  end.

(** [for x in v] over a value read from a response. *)
Definition py_iter (v : json) : result (list json) :=
  match v with
  | JList l => Ok l
  | JDict d => Ok (of_key <$> d.*1)
  | JStr s => Ok ((λ c, JStr (String c EmptyString)) <$> String.list_ascii_of_string s)
  | _ => Raise (builtin TypeError)
  end.

Fixpoint rmap {A B} (f : A → result B) (l : list A) : result (list B) :=
  match l with
  | [] => Ok []
  | x :: l' => rbind (f x) (λ y, rbind (rmap f l') (λ ys, Ok (y :: ys)))
  end.

Definition newline : string := String (Ascii.ascii_of_nat 10) EmptyString.

Definition acp_table_fields : list string :=
  ["NAME"; "STATE"; "REFERENCED_ROLE"; "REFERENCED_PROJECT"; "UUID"].

(** One [table.add_row] of [get_acps]. *)
Definition acp_table_row (_row : json) : result (list string) :=
  rbind (py_getitem_key _row "status") (λ row,
  rbind (py_getitem_key _row "metadata") (λ metadata,
  rbind (rbind (py_getitem_key row "resources")
           (λ r, py_get r "role_reference" (JDict []))) (λ role_ref,
  rbind (py_get role_ref "name" (JStr "-")) (λ role,
  rbind (py_get metadata "project_reference" (JDict [])) (λ project_ref,
  rbind (py_get project_ref "name" (JStr "-")) (λ project_name,
  rbind (py_getitem_key row "name") (λ name,
  rbind (py_getitem_key row "state") (λ state,
  rbind (py_getitem_key metadata "uuid") (λ uuid,
    Ok [highlight_text name; highlight_text state; highlight_text role;
        highlight_text project_name; highlight_text uuid]))))))))).

(** The [params] that [get_acps] builds for [client.acp.list]. *)
Definition get_acps_params (name filter_by : string) (limit offset : json)
    : json :=
  let params := [(KStr "length", limit); (KStr "offset", offset)] in
  let filter_query := "" in
  let filter_query :=
    if negb (String.eqb name "") then get_name_query [name] else filter_query in
  let filter_query :=
    if negb (String.eqb filter_by "")
    then filter_query +:+ ";(" +:+ filter_by +:+ ")" else filter_query in
  let filter_query :=
    if String.prefix ";" filter_query
    then match filter_query with String _ s => s | EmptyString => "" end
    else filter_query in
  let params :=
    if negb (String.eqb filter_query "")
    then dict_set "filter" (JStr filter_query) params else params in
  JDict params.

(** [get_acps(name, filter_by, limit, offset, quiet, out)] *)
Definition get_acps (name filter_by : string) (limit offset : json)
    (quiet : bool) (out : string) : H unit :=
  r <- call (acp_list (get_acps_params name filter_by limit offset)) ;;
  if truthy (err r) then
    emit (LogWarning ("Cannot fetch acps from " +:+ pc_ip)) ;;
    hret tt
  else if String.eqb out "json" then
    doc <- hlift (response_json r) ;;
    emit (EchoJson doc) ;;
    hret tt
  else
    json_rows <- hlift (rbind (response_json r)
                          (λ doc, py_getitem_key doc "entities")) ;;
    if negb (truthy json_rows) then
      emit (EchoText (highlight_text (JStr ("No acp found !!!" +:+ newline)))) ;;
      hret tt
    else
      rows <- hlift (py_iter json_rows) ;;
      if quiet then
        hfor_each rows (λ _row,
          name <- hlift (rbind (py_getitem_key _row "status")
                           (λ row, py_getitem_key row "name")) ;;
          emit (EchoText (highlight_text name))) ;;
        hret tt
      else
        table <- hlift (rmap acp_table_row rows) ;;
        emit (EchoTable acp_table_fields table).

(** The first [def delete_acp] of [acps.py]; the second one, below,
    replaces it when the module is loaded. *)
Definition delete_acp_shadowed (acp_names : list string) : H unit :=
  let params := JDict [(KStr "length", JInt 1000)] in
  acp_name_uuid_map <- call (acp_get_name_uuid_map params) ;;
  hfor_each acp_names (λ acp,
    acp_uuid <- hlift (py_get acp_name_uuid_map acp (JStr "")) ;;
    if negb (truthy acp_uuid) then
      emit (LogError ("ACP " +:+ acp +:+ " doesn't exists")) ;;
      sys_exit (-1)
    else
      r <- call (acp_delete acp_uuid) ;;
      if truthy (err r) then
        code <- hlift (py_getitem_key (err r) "code") ;;
        error <- hlift (py_getitem_key (err r) "error") ;;
        hraise (raised Exception
                  ("[" +:+ py_format code +:+ "] - " +:+ py_format error))
      else emit (LogInfo ("ACP " +:+ acp +:+ " deleted"))).

(** [_row["operation"] = "DELETE"] or ["UPDATE"], for one row of the
    project's [access_control_policy_list]. *)
Definition mark_acp_row (acp_uuid : json) (_row : json) : result json :=
  rbind (rbind (py_getitem_key _row "metadata")
           (λ m, py_getitem_key m "uuid")) (λ uuid,
    match _row with
    | JDict d =>
        Ok (JDict (dict_set "operation"
                     (JStr (if py_eqb uuid acp_uuid then "DELETE" else "UPDATE"))
                     d))
    | _ => Raise (builtin TypeError)
    end).

(** [project_payload] as [delete_acp_using_projects_internal_api] sends
    it: without ["status"], every policy row marked. *)
Definition marked_project_payload (acp_uuid project_payload : json)
    : result json :=
  match project_payload with
  | JDict d0 =>
      let d := dict_remove "status" d0 in
      rbind (py_getitem_key (JDict d) "spec") (λ spec,
      rbind (py_get spec "access_control_policy_list" (JList [])) (λ acps,
      rbind (py_iter acps) (λ rows,
      rbind (rmap (mark_acp_row acp_uuid) rows) (λ rows',
        match spec, acps with
        | JDict sd, JList _ =>
            match dict_lookup "access_control_policy_list" sd with
            | Some _ =>
                Ok (JDict (dict_set "spec"
                             (JDict (dict_set "access_control_policy_list"
                                       (JList rows') sd)) d))
            | None => Ok (JDict d)
            end
        | _, _ => Ok (JDict d)
        end))))
  | JList _ => Raise (builtin TypeError)
  | _ => Raise (builtin AttributeError)
  end.

(** [delete_acp_using_projects_internal_api(acp_uuid)] *)
Definition delete_acp_using_projects_internal_api (acp_uuid : json)
    : H unit :=
  r <- call (acp_read acp_uuid) ;;
  res <- hlift (response_json r) ;;
  metadata <- hlift (py_getitem_key res "metadata") ;;
  project_ref <- hlift (py_get metadata "project_reference" (JDict [])) ;;
  project_uuid <- hlift (py_get project_ref "uuid" JNone) ;;
  if negb (truthy project_uuid) then
    emit (LogWarning ("No project is referenced to acp (uuid="
                        +:+ py_format acp_uuid +:+ ")")) ;;
    hret tt
  else
    r <- call (projects_internal_read project_uuid) ;;
    if truthy (err r) then
      emit (LogErrorValue (err r)) ;;
      sys_exit (-1)
    else
      project_payload <- hlift (response_json r) ;;
      project_payload <- hlift (marked_project_payload acp_uuid
                                  project_payload) ;;
      r <- call (project_update project_uuid project_payload) ;;
      if truthy (err r) then
        emit (LogErrorValue (err r)) ;;
        sys_exit (-1)
      else
        emit (EchoText ("Delete action on acp (uuid=" +:+ py_format acp_uuid
                          +:+ ") triggered")).

(** [delete_acp(acp_names)] *)
Definition delete_acp (acp_names : list string) : H unit :=
  let params := JDict [(KStr "length", JInt 1000)] in
  acp_name_uuid_map <- call (acp_get_name_uuid_map params) ;;
  hfor_each acp_names (λ acp,
    acp_uuid <- hlift (py_get acp_name_uuid_map acp (JStr "")) ;;
    (if negb (truthy acp_uuid) then
       emit (LogError ("ACP " +:+ acp +:+ " not found.")) ;;
       sys_exit (-1)
     else hret tt) ;;
    match acp_uuid with
    | JList uuids => hfor_each uuids delete_acp_using_projects_internal_api
    | _ => delete_acp_using_projects_internal_api acp_uuid
    end ;;
    emit (LogInfo ("ACP " +:+ acp +:+ " deleted"))).

(** [get_app_family_list()] of [mpis.py] *)
Definition get_app_family_list : H (list json) :=
  r <- call (app_family_list (JDict [])) ;;
  if truthy (err r) then
    code <- hlift (py_getitem_key (err r) "code") ;;
    error <- hlift (py_getitem_key (err r) "error") ;;
    hraise (raised Exception
              ("[" +:+ py_format code +:+ "] - " +:+ py_format error))
  else
    entities <- hlift (rbind (rbind (response_json r)
                                (λ res, py_getitem_key res "entities"))
                         py_iter) ;;
    hlift (rmap (λ entity, py_getitem_key entity "value") entities).

End cli.

(** * Example payloads *)

(** A blueprint payload with one credential, and one service that has a
    secret variable, a plain variable and a basic-auth password. *)
Definition example_resources : json :=
  JDict [
    (KStr "credential_definition_list",
     JList [JDict [(KStr "name", JStr "cred1");
                   (KStr "secret", JDict [(KStr "value", JStr "pw")])]]);
    (KStr "service_definition_list",
     JList [JDict [
       (KStr "name", JStr "svc");
       (KStr "variable_list",
        JList [JDict [(KStr "name", JStr "token");
                      (KStr "type", JStr "SECRET");
                      (KStr "value", JStr "s3cret")];
               JDict [(KStr "name", JStr "port");
                      (KStr "type", JStr "LOCAL");
                      (KStr "value", JStr "8080")]]);
       (KStr "authentication",
        JDict [(KStr "auth_type", JStr "basic");
               (KStr "password",
                JDict [(KStr "name", JStr "admin");
                       (KStr "value", JStr "hunter2")])])]])].

Definition example_state : state := mk_state example_resources [] [] [].

(** * Properties *)

(** ** Locations that do not overlap *)

(** Two locations diverge when they part at some component: neither is
    inside the other. *)
Fixpoint diverge (p q : loc) : Prop :=
  match p, q with
  | k1 :: p', k2 :: q' => k1 ≠ k2 ∨ (k1 = k2 ∧ diverge p' q')
  | _, _ => False
  end.

(** [L] lies at or below one of the locations of [P]. *)
Definition covered (P : loc → Prop) (L : loc) : Prop :=
  ∃ q, P q ∧ q `prefix_of` L.

(** [p] overlaps no location of [P]. *)
Definition outside (P : loc → Prop) (p : loc) : Prop :=
  ∀ q, P q → diverge q p.

(** [r'] holds what [r] holds at every location outside [P]. *)
Definition agree_outside (P : loc → Prop) (r r' : json) : Prop :=
  ∀ p, outside P p → get_at p r' = get_at p r.

(** Running [m] keeps the payload equal to [r0] outside [P], whether it
    returns or raises. *)
Definition preserves (P : loc → Prop) (r0 : json) {A} (m : M A) : Prop :=
  ∀ s, agree_outside P r0 (resources s) →
       agree_outside P r0 (resources (m s).2).

(** ** Dictionaries and the store *)

Lemma dict_lookup_set_eq k v d : dict_lookup k (dict_set k v d) = Some v.
Proof.
  induction d as [|[k' v'] d IH]; simpl.
  - by rewrite decide_True.
  - destruct (decide (k = k')) as [->|Hne]; simpl.
    + by rewrite decide_True.
    + by rewrite decide_False.
Qed.

Lemma dict_lookup_set_ne k k' v d :
  k ≠ k' → dict_lookup k' (dict_set k v d) = dict_lookup k' d.
Proof.
  intros Hne. induction d as [|[k0 v0] d IH]; simpl.
  - by rewrite decide_False.
  - destruct (decide (k = k0)) as [->|Hne0]; simpl.
    + by rewrite !decide_False.
    + destruct (decide (k' = k0)); done.
Qed.

Lemma dict_lookup_remove_eq k d : dict_lookup k (dict_remove k d) = None.
Proof.
  induction d as [|[k' v'] d IH]; simpl; [done|].
  destruct (decide (k = k')); simpl; [done|]. by rewrite decide_False.
Qed.

Lemma dict_lookup_remove_ne k k' d :
  k ≠ k' → dict_lookup k' (dict_remove k d) = dict_lookup k' d.
Proof.
  intros Hne. induction d as [|[k0 v0] d IH]; simpl; [done|].
  destruct (decide (k = k0)) as [->|Hne0]; simpl.
  - by rewrite decide_False.
  - destruct (decide (k' = k0)); done.
Qed.

Lemma child_dict_setitem_ne k k' v o :
  k ≠ k' → child k' (dict_setitem k v o) = child k' o.
Proof. intros. destruct o; simpl; auto using dict_lookup_set_ne. Qed.

Lemma child_dict_delitem_ne k k' o :
  k ≠ k' → child k' (dict_delitem k o) = child k' o.
Proof. intros. destruct o; simpl; auto using dict_lookup_remove_ne. Qed.

Lemma get_at_app p q r :
  get_at (p ++ q) r
  = match get_at p r with Some o => get_at q o | None => None end.
Proof.
  revert r. induction p as [|k p IH]; intros r; simpl; [done|].
  destruct (child k r); [apply IH|done].
Qed.

Lemma get_at_alter_at_app f p q r :
  get_at (p ++ q) (alter_at f p r)
  = match get_at p r with Some o => get_at q (f o) | None => None end.
Proof.
  revert r. induction p as [|k p IH]; intros r; simpl; [done|].
  destruct r as [| | | |l|d]; simpl; try done.
  - destruct k as [|i|]; simpl; try done.
    destruct (decide (0 ≤ i)%Z); simpl; [|by rewrite decide_False].
    rewrite decide_True by done. rewrite list_lookup_alter_eq.
    destruct (l !! Z.to_nat i); simpl; [apply IH|done].
  - destruct (dict_lookup k d) eqn:E; simpl.
    + rewrite dict_lookup_set_eq. apply IH.
    + by rewrite E.
Qed.

Lemma get_at_alter_at f p r : get_at p (alter_at f p r) = f <$> get_at p r.
Proof.
  rewrite <-(app_nil_r p) at 1. rewrite get_at_alter_at_app.
  by destruct (get_at p r).
Qed.

Lemma get_at_alter_at_diverge f p q r :
  diverge p q → get_at q (alter_at f p r) = get_at q r.
Proof.
  revert q r. induction p as [|k1 p IH]; intros [|k2 q] r; simpl; try done.
  intros [Hne|[<- Hd]].
  - destruct r as [| | | |l|d]; simpl; try done.
    + destruct k1 as [|i|]; simpl; try done.
      destruct (decide (0 ≤ i)%Z); simpl; [|done].
      destruct k2 as [|j|]; simpl; try done.
      destruct (decide (0 ≤ j)%Z); simpl; [|done].
      rewrite list_lookup_alter_ne; [done|]. intros ?. apply Hne. f_equal. lia.
    + destruct (dict_lookup k1 d) eqn:E; simpl; [|done].
      by rewrite dict_lookup_set_ne.
  - destruct r as [| | | |l|d]; simpl; try done.
    + destruct k1 as [|i|]; simpl; try done.
      destruct (decide (0 ≤ i)%Z); simpl; [|by rewrite decide_False].
      rewrite decide_True by done. rewrite list_lookup_alter_eq.
      destruct (l !! Z.to_nat i); simpl; [by apply IH|done].
    + destruct (dict_lookup k1 d) eqn:E; simpl.
      * rewrite dict_lookup_set_eq. by apply IH.
      * by rewrite E.
Qed.


Lemma diverge_app_l p t q : diverge p q → diverge (p ++ t) q.
Proof.
  revert q. induction p as [|k1 p IH]; intros [|k2 q]; simpl; try done.
  intros [?|[-> ?]]; [by left|right; auto].
Qed.


Lemma diverge_prefix q L p : q `prefix_of` L → diverge q p → diverge L p.
Proof. intros [t ->]. apply diverge_app_l. Qed.

Lemma diverge_app_same c p q : diverge p q → diverge (c ++ p) (c ++ q).
Proof. induction c; simpl; auto. Qed.

(** A write to key [k] of the object at [p] leaves every location that
    diverges from [p ++ [k]] as it was. *)
Lemma get_at_key_write g p k q r :
  (∀ k' o, k ≠ k' → child k' (g o) = child k' o) →
  diverge (p ++ [k]) q → get_at q (alter_at g p r) = get_at q r.
Proof.
  intros Hg. revert q r. induction p as [|k1 p IH]; intros [|k2 q] r; simpl;
    try done.
  - intros [Hne|[_ []]]. by rewrite Hg.
  - intros [Hne|[<- Hd]].
    + apply (get_at_alter_at_diverge g (k1 :: p) (k2 :: q)). simpl. by left.
    + destruct r as [| | | |l|d]; simpl; try done.
      * destruct k1 as [|i|]; simpl; try done.
        destruct (decide (0 ≤ i)%Z); simpl; [|by rewrite decide_False].
        rewrite decide_True by done. rewrite list_lookup_alter_eq.
        destruct (l !! Z.to_nat i); simpl; [by apply IH|done].
      * destruct (dict_lookup k1 d) eqn:E; simpl.
        -- rewrite dict_lookup_set_eq. by apply IH.
        -- by rewrite E.
Qed.

(** ** Reasoning rules for [preserves] *)

Lemma agree_outside_write P r0 r g p k :
  (∀ k' o, k ≠ k' → child k' (g o) = child k' o) →
  covered P (p ++ [k]) →
  agree_outside P r0 r → agree_outside P r0 (alter_at g p r).
Proof.
  intros Hg (q & HP & Hpre) Hagree p' Hout.
  rewrite (get_at_key_write g p k); [by apply Hagree|done|].
  eapply diverge_prefix; [done|]. by apply Hout.
Qed.

Lemma preserves_ret P r0 {A} (a : A) : preserves P r0 (ret a).
Proof. by intros s. Qed.

Lemma preserves_raise P r0 {A} e : preserves P r0 (@raise state A e).
Proof. by intros s. Qed.

Lemma preserves_lift P r0 {A} (r : result A) : preserves P r0 (lift r).
Proof. by intros s. Qed.

Lemma preserves_deref P r0 p : preserves P r0 (deref p).
Proof. intros s. unfold deref. by destruct (get_at p (resources s)). Qed.

Lemma preserves_bind P r0 {A B} (m : M A) (k : A → M B) :
  preserves P r0 m → (∀ a, preserves P r0 (k a)) → preserves P r0 (bind m k).
Proof.
  intros Hm Hk s Hs. unfold bind. specialize (Hm s Hs).
  destruct (m s) as [[a|e] s']; simpl in *; [by apply Hk|done].
Qed.

Lemma preserves_for_each P r0 {A} (l : list A) (body : A → M unit) :
  (∀ x, preserves P r0 (body x)) → preserves P r0 (for_each l body).
Proof.
  intros Hb. induction l as [|x l IH]; simpl.
  - apply preserves_ret.
  - apply preserves_bind; auto.
Qed.

Lemma preserves_for_each_until P r0 {A} (l : list A) (body : A → M bool) :
  (∀ x, preserves P r0 (body x)) → preserves P r0 (for_each_until l body).
Proof.
  intros Hb. induction l as [|x l IH]; simpl.
  - apply preserves_ret.
  - apply preserves_bind; [done|]. intros []; [done|apply preserves_ret].
Qed.

Lemma preserves_for_fold P r0 {A B} (l : list A) (acc : B)
    (body : A → B → M B) :
  (∀ x b, preserves P r0 (body x b)) → preserves P r0 (for_fold l acc body).
Proof.
  intros Hb. revert acc. induction l as [|x l IH]; intros acc; simpl.
  - apply preserves_ret.
  - apply preserves_bind; auto.
Qed.

Lemma preserves_setitem_at P r0 p k v :
  covered P (p ++ [k]) → preserves P r0 (setitem_at p k v).
Proof.
  intros Hc s Hs. unfold setitem_at, bind, deref.
  destruct (get_at p (resources s)) as [[]|]; simpl; try done.
  eapply agree_outside_write; [|done..].
  intros. by apply child_dict_setitem_ne.
Qed.

Lemma preserves_pop_at P r0 p k dflt :
  covered P (p ++ [k]) → preserves P r0 (pop_at p k dflt).
Proof.
  intros Hc s Hs. unfold pop_at, bind, deref.
  destruct (get_at p (resources s)) as [[| | | | |d]|]; simpl; try done.
  destruct (dict_lookup k d); simpl.
  - eapply agree_outside_write; [|done..].
    intros. by apply child_dict_delitem_ne.
  - by destruct dflt.
Qed.

Lemma preserves_secret_map_set P r0 name v :
  preserves P r0 (secret_map_set name v).
Proof.
  intros s Hs. unfold secret_map_set, bind, lift. by destruct (to_key name).
Qed.

Lemma preserves_secret_variables_append P r0 e :
  preserves P r0 (secret_variables_append e).
Proof. by intros s. Qed.

Lemma preserves_not_stripped_append P r0 e :
  preserves P r0 (not_stripped_append e).
Proof. by intros s. Qed.

Lemma preserves_setitem_reached P r0 p o k v :
  covered P (p ++ [k]) → preserves P r0 (setitem_reached p o k v).
Proof.
  intros. destruct o; simpl; auto using preserves_raise, preserves_setitem_at.
Qed.

Lemma covered_mono (P Q : loc → Prop) L :
  (∀ q, P q → Q q) → covered P L → covered Q L.
Proof. intros HPQ (q & ? & ?). exists q. auto. Qed.

Lemma covered_app P L t : covered P L → covered P (L ++ t).
Proof.
  intros (q & ? & ?). exists q. split; [done|]. by apply prefix_app_r.
Qed.

Lemma covered_here (P : loc → Prop) L : P L → covered P L.
Proof. intros. by exists L. Qed.

(** One step of a proof of [preserves]: the rule for the head of the
    computation, a case split on a test or a scrutinee. *)
Ltac preserves_step :=
  lazymatch goal with
  | |- preserves _ _ (bind _ _) => apply preserves_bind; [|intros ?]
  | |- preserves _ _ (ret _) => apply preserves_ret
  | |- preserves _ _ (raise _) => apply preserves_raise
  | |- preserves _ _ (lift _) => apply preserves_lift
  | |- preserves _ _ (deref _) => apply preserves_deref
  | |- preserves _ _ (secret_map_set _ _) => apply preserves_secret_map_set
  | |- preserves _ _ (secret_variables_append _) =>
      apply preserves_secret_variables_append
  | |- preserves _ _ (not_stripped_append _) =>
      apply preserves_not_stripped_append
  | |- preserves _ _ (for_each _ _) => apply preserves_for_each; intros ?
  | |- preserves _ _ (for_each_until _ _) =>
      apply preserves_for_each_until; intros ?
  | |- preserves _ _ (for_fold _ _ _) =>
      apply preserves_for_fold; intros ? ?
  | |- preserves _ _ (setitem_at _ _ _) => apply preserves_setitem_at
  | |- preserves _ _ (setitem_reached _ _ _ _) =>
      apply preserves_setitem_reached
  | |- preserves _ _ (pop_at _ _ _) => apply preserves_pop_at
  | |- preserves _ _ (if ?b then _ else _) => destruct b
  | |- preserves _ _ (match ?x with _ => _ end) => destruct x
  end.

Lemma preserves_for_each_in P r0 {A} (l : list A) (body : A → M unit) :
  (∀ x, x ∈ l → preserves P r0 (body x)) → preserves P r0 (for_each l body).
Proof.
  induction l as [|x l IH]; intros Hb; simpl.
  - apply preserves_ret.
  - apply preserves_bind; [apply Hb; left|].
    intros _. apply IH. intros y Hy. apply Hb. by right.
Qed.

(** ** The secret-bearing locations of a payload *)

Definition options_password : loc :=
  [KStr "options"; KStr "attrs"; KStr "authentication"; KStr "basic_auth";
   KStr "password"].

(** Inside an entry of a variable list: its value, its attrs, and the
    basic-auth password of a dynamic variable's HTTP task. *)
Inductive variable_site : loc → Prop :=
  | vs_value : variable_site [KStr "value"]
  | vs_attrs : variable_site [KStr "attrs"]
  | vs_options : variable_site options_password.

(** Inside an object of one of the object lists, or one of the objects:
    the entries of its variable list, of the variable lists and HTTP task
    headers of its actions' runbooks, of the [inarg_list] and headers of
    its own tasks, and the basic-auth passwords of those tasks and of the
    object. *)
Inductive entity_site : loc → Prop :=
  | es_variable i w :
      variable_site w →
      entity_site (KStr "variable_list" :: KInt i :: w)
  | es_action_variable a i w :
      variable_site w →
      entity_site (KStr "action_list" :: KInt a :: KStr "runbook"
                     :: KStr "variable_list" :: KInt i :: w)
  | es_action_task_password a t :
      entity_site [KStr "action_list"; KInt a; KStr "runbook";
                   KStr "task_definition_list"; KInt t; KStr "attrs";
                   KStr "authentication"; KStr "basic_auth"; KStr "password"]
  | es_action_task_header a t i w :
      variable_site w →
      entity_site (KStr "action_list" :: KInt a :: KStr "runbook"
                     :: KStr "task_definition_list" :: KInt t :: KStr "attrs"
                     :: KStr "headers" :: KInt i :: w)
  | es_task_inarg t i w :
      variable_site w →
      entity_site (KStr "task_definition_list" :: KInt t :: KStr "attrs"
                     :: KStr "inarg_list" :: KInt i :: w)
  | es_task_password t :
      entity_site [KStr "task_definition_list"; KInt t; KStr "attrs";
                   KStr "authentication"; KStr "password"]
  | es_task_header t i w :
      variable_site w →
      entity_site (KStr "task_definition_list" :: KInt t :: KStr "attrs"
                     :: KStr "headers" :: KInt i :: w)
  | es_password :
      entity_site [KStr "authentication"; KStr "password"].


(** ** The frame of the secret walk *)

Ltac norm_loc := rewrite <- ?app_assoc; simpl.

Lemma covered_below P ptr w t :
  covered P (ptr ++ w) → covered P (ptr ++ w ++ t).
Proof. intros. rewrite app_assoc. by apply covered_app. Qed.

Lemma strip_variable_preserves P r0 filtered path_list ptr f i :
  (∀ w, variable_site w → covered P (ptr ++ KStr f :: KInt i :: w)) →
  preserves P r0 (strip_variable filtered path_list ptr f i).
Proof.
  intros HP. unfold strip_variable, strip_secret_value, strip_options_auth.
  cbv zeta. repeat preserves_step; norm_loc; apply HP; constructor.
Qed.

Lemma strip_entity_secret_variables_preserves ds P r0 path_list ptr f ctx :
  (∀ i w, variable_site w → covered P (ptr ++ KStr f :: KInt i :: w)) →
  preserves P r0 (strip_entity_secret_variables ds path_list ptr f ctx).
Proof.
  intros HP. unfold strip_entity_secret_variables.
  repeat preserves_step. apply strip_variable_preserves; auto.
Qed.

Lemma strip_action_task_preserves ds P r0 tpath tptr ctx :
  covered P (tptr ++ [KStr "attrs"; KStr "authentication"; KStr "basic_auth";
                      KStr "password"]) →
  (∀ i w, variable_site w →
          covered P (tptr ++ KStr "attrs" :: KStr "headers" :: KInt i :: w)) →
  preserves P r0 (strip_action_task ds tpath tptr ctx).
Proof.
  intros Hpw Hh. unfold strip_action_task. cbv zeta.
  repeat preserves_step; norm_loc; try done.
  - by apply (covered_below P tptr [_; _; _; _] [_]).
  - apply strip_entity_secret_variables_preserves. intros. norm_loc. auto.
Qed.

Lemma strip_action_preserves ds P r0 path_list ptr ctx a :
  (∀ w, entity_site w → covered P (ptr ++ w)) →
  preserves P r0 (strip_action ds path_list ptr ctx a).
Proof.
  intros HP. unfold strip_action. cbv zeta.
  repeat preserves_step.
  - apply strip_entity_secret_variables_preserves. intros. norm_loc.
    apply HP. by constructor.
  - apply strip_action_task_preserves; intros; norm_loc; apply HP;
      by constructor.
Qed.

Lemma strip_action_secret_variables_preserves ds P r0 path_list ptr :
  (∀ w, entity_site w → covered P (ptr ++ w)) →
  preserves P r0 (strip_action_secret_variables ds path_list ptr).
Proof.
  intros HP. unfold strip_action_secret_variables. cbv zeta.
  repeat preserves_step. apply strip_action_preserves; auto.
Qed.

Lemma strip_authentication_secret_variables_preserves ds P r0 path_list ptr
    obj ctx :
  covered P (ptr ++ [KStr "authentication"; KStr "password"]) →
  preserves P r0
    (strip_authentication_secret_variables ds path_list ptr obj ctx).
Proof.
  intros HP. unfold strip_authentication_secret_variables. cbv zeta.
  repeat preserves_step; norm_loc; try done.
  by apply (covered_below P ptr [_; _] [_]).
Qed.

Lemma strip_runbook_task_preserves ds P r0 path_list ptr ctx t :
  (∀ w, entity_site w → covered P (ptr ++ w)) →
  preserves P r0 (strip_runbook_task ds path_list ptr ctx t).
Proof.
  intros HP. unfold strip_runbook_task. cbv zeta.
  repeat preserves_step.
  - apply strip_entity_secret_variables_preserves. intros. norm_loc.
    apply HP. by constructor.
  - apply strip_authentication_secret_variables_preserves. norm_loc.
    apply HP. constructor.
  - apply strip_entity_secret_variables_preserves. intros. norm_loc.
    apply HP. by constructor.
Qed.

Lemma strip_runbook_secret_variables_preserves ds P r0 path_list ptr :
  (∀ w, entity_site w → covered P (ptr ++ w)) →
  preserves P r0 (strip_runbook_secret_variables ds path_list ptr).
Proof.
  intros HP. unfold strip_runbook_secret_variables. cbv zeta.
  repeat preserves_step. apply strip_runbook_task_preserves; auto.
Qed.

Lemma strip_all_secret_variables_preserves ds P r0 path_list ptr :
  (∀ w, entity_site w → covered P (ptr ++ w)) →
  preserves P r0 (strip_all_secret_variables ds path_list ptr).
Proof.
  intros HP. unfold strip_all_secret_variables.
  repeat preserves_step.
  - apply strip_entity_secret_variables_preserves. intros.
    apply HP. by constructor.
  - apply strip_action_secret_variables_preserves; auto.
  - apply strip_runbook_secret_variables_preserves; auto.
  - apply strip_authentication_secret_variables_preserves.
    apply HP. constructor.
Qed.





(** Divergence of two locations whose spines are known: compare the
    components one by one. *)
Ltac solve_diverge :=
  simpl;
  repeat lazymatch goal with
  | |- ?a ≠ ?a ∨ _ => right; split; [reflexivity|]
  | |- ?a ≠ ?b ∨ (?a = ?b ∧ _) =>
      first [ left; discriminate
            | left; congruence
            | destruct (decide (a = b)) as [?|?];
              [right; split; [done|]|by left] ]
  end.


(** ** Weakest preconditions *)

Definition wp {S A} (m : MS S A) (Q : result A → S → Prop) (s : S) : Prop :=
  Q (m s).1 (m s).2.

Lemma wp_bind {S A B} (m : MS S A) (k : A → MS S B) Q s :
  wp m (λ r s', match r with
                | Ok a => wp (k a) Q s'
                | Raise e => Q (Raise e) s'
                end) s →
  wp (bind m k) Q s.
Proof. unfold wp, bind. by destruct (m s) as [[a|e] s']. Qed.

Lemma wp_ret {S A} (a : A) (Q : result A → S → Prop) s :
  Q (Ok a) s → wp (ret a) Q s.
Proof. done. Qed.

Lemma wp_raise {S A} e (Q : result A → S → Prop) s :
  Q (Raise e) s → wp (raise e) Q s.
Proof. done. Qed.

Lemma wp_lift {S A} (r : result A) (Q : result A → S → Prop) s :
  Q r s → wp (lift r) Q s.
Proof. done. Qed.

Lemma wp_deref p (Q : result json → state → Prop) s :
  match get_at p (resources s) with
  | Some v => Q (Ok v) s
  | None => Q (Raise (builtin KeyError)) s
  end →
  wp (deref p) Q s.
Proof. unfold wp, deref. by destruct (get_at p (resources s)). Qed.

Lemma wp_setitem_at p k v (Q : result unit → state → Prop) s d :
  get_at p (resources s) = Some (JDict d) →
  Q (Ok tt) (set_resources (alter_at (dict_setitem k v) p) s) →
  wp (setitem_at p k v) Q s.
Proof. intros Hget HQ. unfold wp, setitem_at, bind, deref. by rewrite Hget. Qed.

Lemma wp_pop_at p k dflt (Q : result json → state → Prop) s d :
  get_at p (resources s) = Some (JDict d) →
  match dict_lookup k d with
  | Some v => Q (Ok v) (set_resources (alter_at (dict_delitem k) p) s)
  | None => match dflt with
            | Some v => Q (Ok v) s
            | None => Q (Raise (builtin KeyError)) s
            end
  end →
  wp (pop_at p k dflt) Q s.
Proof.
  intros Hget HQ. unfold wp, pop_at, bind, deref. rewrite Hget.
  destruct (dict_lookup k d); [done|]. by destruct dflt.
Qed.

Lemma wp_secret_variables_append e (Q : result unit → state → Prop) s :
  Q (Ok tt) (mk_state (resources s) (secret_map s) (secret_variables s ++ [e])
               (not_stripped_secrets s)) →
  wp (secret_variables_append e) Q s.
Proof. done. Qed.

Lemma wp_not_stripped_append e (Q : result unit → state → Prop) s :
  Q (Ok tt) (mk_state (resources s) (secret_map s) (secret_variables s)
               (not_stripped_secrets s ++ [e])) →
  wp (not_stripped_append e) Q s.
Proof. done. Qed.

Lemma wp_secret_map_set name v (Q : result unit → state → Prop) s :
  match to_key name with
  | Ok k => Q (Ok tt) (mk_state (resources s) (dict_set k v (secret_map s))
                         (secret_variables s) (not_stripped_secrets s))
  | Raise e => Q (Raise e) s
  end →
  wp (secret_map_set name v) Q s.
Proof. unfold wp, secret_map_set, bind, lift. by destruct (to_key name). Qed.

Ltac wp_step :=
  lazymatch goal with
  | |- wp (bind _ _) _ _ => apply wp_bind
  | |- wp (ret _) _ _ => apply wp_ret
  | |- wp (raise _) _ _ => apply wp_raise
  | |- wp (lift _) _ _ => apply wp_lift
  | |- wp (deref _) _ _ => apply wp_deref
  | |- wp (secret_variables_append _) _ _ => apply wp_secret_variables_append
  | |- wp (not_stripped_append _) _ _ => apply wp_not_stripped_append
  | |- wp (secret_map_set _ _) _ _ => apply wp_secret_map_set
  end; cbv beta iota.

Lemma is_secret_modified_dict fd name value k :
  to_key name = Ok k →
  is_secret_modified (JDict fd) name value
  = Ok (match dict_lookup k fd with
        | Some old => negb (py_eqb old value)
        | None => true
        end).
Proof.
  intros Hk. unfold is_secret_modified, py_contains, py_getitem, dict_mem.
  rewrite Hk. simpl. destruct (dict_lookup k fd) as [old|]; simpl; [|done].
  by destruct (py_eqb old value).
Qed.

Definition recorded_unchanged (fd : dict) (k : key) (value : json) : bool :=
  match dict_lookup k fd with
  | Some old => py_eqb old value
  | None => false
  end.

Definition kept_state (s : state) (vpath : list key) (value : json) : state :=
  mk_state (resources s) (secret_map s) (secret_variables s)
    (not_stripped_secrets s ++ (if truthy value then [(vpath, value)] else [])).

Definition detached_state (s : state) (vptr : loc) (vpath : list key)
    (value name : json) : state :=
  mk_state
    (alter_at (dict_setitem "attrs" attrs_value) vptr
       (alter_at (dict_delitem "value") vptr (resources s)))
    (secret_map s)
    (secret_variables s ++ [(vpath, value, name)])
    (not_stripped_secrets s).

Lemma state_eta s : mk_state (resources s) (secret_map s) (secret_variables s) (not_stripped_secrets s) = s.
Proof. by destruct s. Qed.

Lemma wp_eq {S A} (m : MS S A) s r s' :
  wp m (λ r0 s0, r0 = r ∧ s0 = s') s → m s = (r, s').
Proof. unfold wp. destruct (m s). simpl. by intros [-> ->]. Qed.

(** C2 (amended). Strip only when modified: a SECRET-typed variable that
    holds a value is detached (its value popped into [secret_variables]
    with its path and name, its attrs replaced by the placeholder) exactly
    when its name is not recorded in the secrets of its context or the
    recorded value differs from its value.  Otherwise it is left in place,
    and its path and value are appended to [not_stripped_secrets] when the
    value is truthy; a kept secret whose value is empty or [None] is not
    recorded anywhere. *)
Theorem strip_secret_value_spec fd path_list ptr f i s d ty value k :
  let vptr := ptr ++ [KStr f; KInt i] in
  let vpath := path_list ++ [KStr f; KInt i] in
  let name := default JNone (dict_lookup "name" d) in
  get_at vptr (resources s) = Some (JDict d) →
  dict_lookup "type" d = Some ty →
  py_eqb ty (JStr "SECRET") = true →
  dict_lookup "value" d = Some value →
  to_key name = Ok k →
  strip_secret_value (JDict fd) path_list ptr f i s
  = (Ok tt,
     if recorded_unchanged fd k value
     then kept_state s vpath value
     else detached_state s vptr vpath value name).
Proof.
  intros vptr vpath name Hget Hty Hsecret Hvalue Hk.
  apply wp_eq. unfold strip_secret_value. fold vptr vpath.
  do 2 wp_step. rewrite Hget. do 2 wp_step.
  cbn [py_getitem_key]. rewrite Hty. cbv iota. rewrite Hsecret.
  do 2 wp_step. cbn [py_get]. do 2 wp_step. rewrite Hvalue. fold name.
  cbn [default from_option id]. do 2 wp_step. rewrite (is_secret_modified_dict _ _ _ k Hk).
  cbv iota. unfold recorded_unchanged.
  assert (Hdet : wp
    (bind (pop_at vptr "value" None) (λ popped,
     bind (deref vptr) (λ variable',
     bind (lift (py_get variable' "name" JNone)) (λ name',
     bind (secret_variables_append (vpath, popped, name')) (λ _,
     setitem_at vptr "attrs" attrs_value)))))
    (λ r0 s0, r0 = Ok tt ∧ s0 = detached_state s vptr vpath value name) s).
  { wp_step. eapply wp_pop_at; [done|]. rewrite Hvalue.
    do 2 wp_step. cbn [set_resources resources].
    rewrite get_at_alter_at, Hget. cbn [fmap option_fmap option_map dict_delitem].
    do 2 wp_step. cbn [py_get]. rewrite dict_lookup_remove_ne by done.
    fold name. do 2 wp_step.
    eapply wp_setitem_at.
    { cbn [resources set_resources]. rewrite get_at_alter_at, Hget. done. }
    done. }
  destruct (dict_lookup k fd) as [old|] eqn:Hrec.
  - destruct (py_eqb old value) eqn:Heq; cbn [negb]; [|exact Hdet].
    do 2 wp_step. unfold kept_state.
    destruct (truthy value).
    + do 2 wp_step. by wp_step.
    + wp_step. by rewrite app_nil_r, state_eta.
  - exact Hdet.
Qed.

Definition example_variable : dict :=
  [(KStr "name", JStr "token"); (KStr "type", JStr "SECRET");
   (KStr "value", JStr "s3cret")].

Definition example_variable_state : state :=
  mk_state (JDict [(KStr "variable_list", JList [JDict example_variable])])
    [] [] [].

Lemma strip_secret_value_spec_witness :
  strip_secret_value (JDict [(KStr "token", JStr "old")])
    [KStr "service_definition_list"; KInt 0] [] "variable_list" 0
    example_variable_state
  = (Ok tt,
     detached_state example_variable_state [KStr "variable_list"; KInt 0]
       [KStr "service_definition_list"; KInt 0; KStr "variable_list"; KInt 0]
       (JStr "s3cret") (JStr "token")).
Proof.
  exact (strip_secret_value_spec [(KStr "token", JStr "old")]
           [KStr "service_definition_list"; KInt 0] [] "variable_list" 0
           example_variable_state example_variable (JStr "SECRET")
           (JStr "s3cret") (KStr "token")
           eq_refl eq_refl eq_refl eq_refl eq_refl).
Defined.

(** A service whose secret variable holds the empty string, and the
    decompiled secrets that record the same empty value for it. *)
Definition empty_secret_resources : json :=
  JDict [(KStr "service_definition_list",
          JList [JDict [(KStr "name", JStr "svc");
                        (KStr "variable_list",
                         JList [JDict [(KStr "name", JStr "token");
                                       (KStr "type", JStr "SECRET");
                                       (KStr "value", JStr "")]])]])].

Definition empty_secret_decompiled : json :=
  JDict [(KStr "service_definition_list.svc.variable_list",
          JDict [(KStr "token", JStr "")])].

(** C2 as stated fails: the secret below has the recorded name and value,
    it is left in place, and nothing is appended to
    [not_stripped_secrets]. *)
Lemma strip_only_when_modified_counterexample :
  let s' := (strip_secrets empty_secret_decompiled
               ["service_definition_list"] []
               (mk_state empty_secret_resources [] [] [])).2 in
  is_secret_modified (JDict [(KStr "token", JStr "")]) (JStr "token") (JStr "")
  = Ok false
  ∧ get_at [KStr "service_definition_list"; KInt 0; KStr "variable_list";
            KInt 0; KStr "value"] (resources s') = Some (JStr "")
  ∧ secret_variables s' = []
  ∧ ¬ ([KStr "service_definition_list"; KInt 0; KStr "variable_list"; KInt 0],
       JStr "") ∈ not_stripped_secrets s'.
Proof.
  vm_compute. repeat split; try reflexivity. intros H. inversion H.
Qed.

(** ** Stale paths in [patch_secrets] *)



Lemma for_each_app {S A} (l1 l2 : list A) (body : A → MS S unit) s :
  for_each (l1 ++ l2) body s
  = bind (for_each l1 body) (λ _, for_each l2 body) s.
Proof.
  revert s. induction l1 as [|x l1 IH]; intros s; simpl; [done|].
  unfold bind. destruct (body x s) as [[[]|e] s']; [|done].
  by rewrite IH.
Qed.






(** ** [strip_patch_config_tasks] *)

Definition hashable (v : json) : bool :=
  match to_key v with Ok _ => true | Raise _ => false end.

(** The key an object's ["name"] hashes to ([None] when it has none). *)
Definition name_key (o : json) : key :=
  match o with
  | JDict d =>
      match to_key (default JNone (dict_lookup "name" d)) with
      | Ok k => k
      | Raise _ => KNone
      end
  | _ => KNone
  end.

(** The task list a patch config's runbook holds, [[]] when there is no
    runbook or no list in it. *)
Definition config_tasks (c : json) : json :=
  match c with
  | JDict cd =>
      match dict_lookup "runbook" cd with
      | Some (JDict rb) => default (JList []) (dict_lookup "task_definition_list" rb)
      | _ => JList []
      end
  | _ => JList []
  end.

Definition patch_configs (p : json) : list json :=
  match p with
  | JDict pd =>
      match dict_lookup "patch_list" pd with
      | Some (JList cl) => cl
      | _ => []
      end
  | _ => []
  end.

Definition app_profiles (r : json) : list json :=
  match r with
  | JDict rd =>
      match dict_lookup "app_profile_list" rd with
      | Some (JList pl) => pl
      | _ => []
      end
  | _ => []
  end.

Definition patch_config_ok (c : json) : bool :=
  match c with
  | JDict cd =>
      hashable (default JNone (dict_lookup "name" cd))
      && match dict_lookup "runbook" cd with
         | Some (JDict _) | None => true
         | Some _ => false
         end
  | _ => false
  end.

Definition profile_ok (p : json) : bool :=
  match p with
  | JDict pd =>
      hashable (default JNone (dict_lookup "name" pd))
      && match dict_lookup "patch_list" pd with
         | Some (JList cl) => forallb patch_config_ok cl
         | None => true
         | Some _ => false
         end
  | _ => false
  end.

(** A payload as the blueprint API gives it: [app_profile_list], when
    present, is a list of profiles, [patch_list] a list of patch configs,
    a runbook a dictionary, and names are strings, numbers or absent. *)
Definition payload_ok (r : json) : bool :=
  match r with
  | JDict rd =>
      match dict_lookup "app_profile_list" rd with
      | Some (JList pl) => forallb profile_ok pl
      | None => true
      | Some _ => false
      end
  | _ => false
  end.

(** [m[name] = tasks] for each patch config in turn. *)
Definition config_task_map (cl : list json) : dict :=
  foldl (λ acc c, dict_set (name_key c) (config_tasks c) acc) [] cl.

(** [m[name] = patch_config_task_list_map] for each profile in turn. *)
Definition profile_task_map (pl : list json) : dict :=
  foldl (λ acc p,
           dict_set (name_key p) (JDict (config_task_map (patch_configs p))) acc)
    [] pl.

Definition runbook_loc (i j : Z) : loc :=
  [KStr "app_profile_list"; KInt i; KStr "patch_list"; KInt j; KStr "runbook"].

Lemma wp_ok_ex {S A} (m : MS S A) s a (P : S → Prop) :
  wp m (λ r s', r = Ok a ∧ P s') s → ∃ s', m s = (Ok a, s') ∧ P s'.
Proof.
  unfold wp. destruct (m s) as [r s']. simpl. intros [-> HP]. by exists s'.
Qed.

Lemma for_fold_indices_inv {B} (n : nat) (body : Z → B → M B)
    (I : nat → B → state → Prop) acc0 s0 :
  I 0%nat acc0 s0 →
  (∀ m acc s, (m < n)%nat → I m acc s →
     ∃ acc' s', body (Z.of_nat m) acc s = (Ok acc', s') ∧ I (S m) acc' s') →
  ∃ acc s, for_fold (indices n) acc0 body s0 = (Ok acc, s) ∧ I n acc s.
Proof.
  intros H0 Hstep. unfold indices.
  cut (∀ k m acc s, (m + k = n)%nat → I m acc s →
         ∃ acc' s', for_fold (Z.of_nat <$> seq m k) acc body s = (Ok acc', s')
                    ∧ I n acc' s').
  { intros Hcut. apply (Hcut n 0%nat); [lia|done]. }
  induction k as [|k IH]; intros m acc s Hm HI; simpl.
  - replace n with m by lia. by exists acc, s.
  - destruct (Hstep m acc s) as (acc' & s' & Hb & HI'); [lia|done|].
    unfold bind. rewrite Hb. apply IH; [lia|done].
Qed.


Lemma alter_at_app f p q r :
  alter_at f (p ++ q) r = alter_at (alter_at f q) p r.
Proof.
  revert r. induction p as [|k p IH]; intros r; simpl; [done|].
  destruct r as [| | | |l|d]; try done.
  - destruct k as [|i|]; try done. destruct (decide (0 ≤ i)%Z); [|done].
    f_equal. apply list_alter_ext; auto.
  - destruct (dict_lookup k d); [|done]. by rewrite IH.
Qed.


(** [r'] still holds a dictionary wherever [r] holds one at [q], with the
    same entries under every key but [k]. *)
Definition same_but (q : loc) (k : key) (r r' : json) : Prop :=
  ∀ d, get_at q r = Some (JDict d) →
       ∃ d', get_at q r' = Some (JDict d')
             ∧ ∀ k', k ≠ k' → dict_lookup k' d' = dict_lookup k' d.

Lemma same_but_refl q k r : same_but q k r r.
Proof. intros d ?. by exists d. Qed.

Lemma same_but_trans q k r1 r2 r3 :
  same_but q k r1 r2 → same_but q k r2 r3 → same_but q k r1 r3.
Proof.
  intros H12 H23 d Hd. destruct (H12 d Hd) as (d2 & Hd2 & E2).
  destruct (H23 d2 Hd2) as (d3 & Hd3 & E3). exists d3. split; [done|].
  intros k' Hk. rewrite E3, E2; done.
Qed.

Lemma same_but_alter g q k t r : same_but q k r (alter_at g (q ++ k :: t) r).
Proof.
  intros d Hd. rewrite alter_at_app, get_at_alter_at, Hd. simpl.
  destruct (dict_lookup k d); [|by exists d].
  eexists. split; [done|]. intros. by apply dict_lookup_set_ne.
Qed.

Lemma strip_patch_config_step cptr acc s cd :
  get_at cptr (resources s) = Some (JDict cd) →
  patch_config_ok (JDict cd) = true →
  ∃ s',
    strip_patch_config cptr acc s
    = (Ok (dict_set (name_key (JDict cd)) (config_tasks (JDict cd)) acc), s')
    ∧ get_at (cptr ++ [KStr "runbook"]) (resources s') = None
    ∧ (∀ p, diverge (cptr ++ [KStr "runbook"]) p →
            get_at p (resources s') = get_at p (resources s))
    ∧ (∀ q k t, cptr = q ++ k :: t →
                same_but q k (resources s) (resources s')).
Proof.
  intros Hget Hok. simpl in Hok. apply andb_prop in Hok as [Hname Hrb].
  unfold hashable in Hname.
  destruct (to_key (default JNone (dict_lookup "name" cd))) as [k|] eqn:Hk;
    [|done].
  set (Post := λ s' : state,
    get_at (cptr ++ [KStr "runbook"]) (resources s') = None
    ∧ (∀ p, diverge (cptr ++ [KStr "runbook"]) p →
            get_at p (resources s') = get_at p (resources s))
    ∧ (∀ q k t, cptr = q ++ k :: t →
                same_but q k (resources s) (resources s'))).
  assert (Hend : ∀ s1 tasks,
    get_at cptr (resources s1) = get_at cptr (resources s) ∨
    (∃ rb, dict_lookup "runbook" cd = Some (JDict rb) ∧
       resources s1 = alter_at (dict_delitem "task_definition_list")
                        (cptr ++ [KStr "runbook"]) (resources s)) →
    (∀ p, diverge (cptr ++ [KStr "runbook"]) p →
          get_at p (resources s1) = get_at p (resources s)) →
    (∀ q k t, cptr = q ++ k :: t →
              same_but q k (resources s) (resources s1)) →
    wp (patch_config <- deref cptr ;;
        name <- lift (rbind (py_get patch_config "name" JNone) to_key) ;;
        _ <- pop_at cptr "runbook" (Some (JStr "")) ;;
        ret (dict_set name tasks acc))%M
      (λ r s', r = Ok (dict_set k tasks acc) ∧ Post s') s1).
  { intros s1 tasks Hs1 Hframe Hsame.
    assert (∃ cd1, get_at cptr (resources s1) = Some (JDict cd1)
                   ∧ dict_lookup "name" cd1 = dict_lookup "name" cd)
      as (cd1 & Hget1 & Hname1).
    { destruct Hs1 as [->|(rb & Hrbk & ->)]; [by exists cd|].
      rewrite alter_at_app, get_at_alter_at, Hget. simpl. rewrite Hrbk.
      eexists. split; [done|]. by rewrite dict_lookup_set_ne. }
    do 2 wp_step. rewrite Hget1. do 2 wp_step. cbn [py_get rbind].
    rewrite Hname1, Hk. wp_step. eapply wp_pop_at; [done|].
    assert (∀ s2, resources s2
                  = alter_at (dict_delitem "runbook") cptr (resources s1) →
                  Post s2) as Hdel.
    { intros s2 E2. unfold Post. rewrite E2. split; [|split].
      - rewrite get_at_alter_at_app, Hget1. simpl.
        by rewrite dict_lookup_remove_eq.
      - intros p Hp. rewrite (get_at_key_write _ cptr "runbook"); auto.
        intros. by apply child_dict_delitem_ne.
      - intros q k0 t ->. eapply same_but_trans; [by eapply Hsame|].
        apply same_but_alter. }
    destruct (dict_lookup "runbook" cd1) eqn:E.
    - wp_step. split; [done|]. by apply Hdel.
    - wp_step. split; [done|]. split; [|by split].
      rewrite get_at_app, Hget1. simpl. by rewrite E. }
  apply wp_ok_ex.
  unfold strip_patch_config. do 2 wp_step. rewrite Hget. wp_step.
  unfold name_key, config_tasks. rewrite Hk.
  destruct (dict_lookup "runbook" cd) as [rb|] eqn:Erb.
  - destruct rb as [| | | | |rb]; try done.
    eapply wp_pop_at.
    { rewrite get_at_app, Hget. simpl. by rewrite Erb. }
    destruct (dict_lookup "task_definition_list" rb) eqn:Et; simpl.
    + apply Hend.
      * right. eauto.
      * intros p Hp. cbn [resources set_resources].
        rewrite (get_at_key_write _ _ "task_definition_list"); auto.
        -- intros. by apply child_dict_delitem_ne.
        -- by apply diverge_app_l.
      * intros q k0 t ->. cbn [resources set_resources].
        rewrite <-app_assoc. simpl. apply same_but_alter.
    + apply Hend; auto using same_but_refl.
  - wp_step. apply Hend; auto using same_but_refl.
Qed.

Lemma config_task_map_snoc cl c :
  config_task_map (cl ++ [c])
  = dict_set (name_key c) (config_tasks c) (config_task_map cl).
Proof. unfold config_task_map. by rewrite foldl_app. Qed.

Lemma profile_task_map_snoc pl p :
  profile_task_map (pl ++ [p])
  = dict_set (name_key p) (JDict (config_task_map (patch_configs p)))
      (profile_task_map pl).
Proof. unfold profile_task_map. by rewrite foldl_app. Qed.

Lemma diverge_runbook_loc i j i' j' :
  (i, j) ≠ (i', j') → diverge (runbook_loc i j) (runbook_loc i' j').
Proof.
  intros Hne. unfold runbook_loc. simpl. right. split; [done|].
  destruct (decide (i = i')) as [->|]; [|left; congruence].
  right. split; [done|]. right. split; [done|]. left. congruence.
Qed.

Lemma strip_profile_patch_configs_step i acc s pd :
  (0 ≤ i)%Z →
  get_at [KStr "app_profile_list"; KInt i] (resources s) = Some (JDict pd) →
  profile_ok (JDict pd) = true →
  ∃ s',
    strip_profile_patch_configs i acc s
    = (Ok (dict_set (name_key (JDict pd))
             (JDict (config_task_map (patch_configs (JDict pd)))) acc), s')
    ∧ (∀ j, get_at (runbook_loc i j) (resources s') = None)
    ∧ (∀ p, (∀ j, diverge (runbook_loc i j) p) →
            get_at p (resources s') = get_at p (resources s)).
Proof.
  intros Hi Hget Hok. simpl in Hok. apply andb_prop in Hok as [Hname Hpl].
  unfold hashable in Hname.
  destruct (to_key (default JNone (dict_lookup "name" pd))) as [k|] eqn:Hk;
    [|done].
  set (pptr := [KStr "app_profile_list"; KInt i]) in *.
  set (cl := patch_configs (JDict pd)).
  assert (py_get (JDict pd) "patch_list" (JList []) = Ok (JList cl)
                ∧ forallb patch_config_ok cl = true
                ∧ ∀ j c, cl !! j = Some c →
                    get_at (pptr ++ [KStr "patch_list"; KInt (Z.of_nat j)])
                      (resources s) = Some c)
    as (Hpget & Hcok & Hcget).
  { unfold cl, patch_configs, py_get.
    destruct (dict_lookup "patch_list" pd) as [[| | | |l|]|] eqn:E; try done.
    split; [done|]. split; [done|]. intros j c Hc.
    rewrite get_at_app, Hget. cbn [get_at child]. rewrite E.
    cbn [get_at child]. rewrite decide_True by lia. by rewrite Nat2Z.id, Hc. }
  destruct (for_fold_indices_inv (length cl)
              (λ j, strip_patch_config (pptr ++ [KStr "patch_list"; KInt j]))
              (λ m acc1 s1,
                 acc1 = config_task_map (take m cl)
                 ∧ (∀ j, (0 ≤ j < Z.of_nat m)%Z →
                         get_at (runbook_loc i j) (resources s1) = None)
                 ∧ (∀ p, (∀ j, (0 ≤ j < Z.of_nat m)%Z →
                               diverge (runbook_loc i j) p) →
                         get_at p (resources s1) = get_at p (resources s))
                 ∧ same_but pptr "patch_list" (resources s) (resources s1))
              [] s) as (acc1 & s1 & Hloop & -> & Hnone & Hframe & Hsame).
  { split; [done|]. split; [intros; lia|]. split; [done|].
    apply same_but_refl. }
  { intros m acc1 s1 Hm (-> & Hnone & Hframe & Hsame).
    destruct (lookup_lt_is_Some_2 cl m Hm) as [c Hc].
    assert (Hcm : get_at (pptr ++ [KStr "patch_list"; KInt (Z.of_nat m)])
                    (resources s1) = Some c).
    { rewrite Hframe; [by apply Hcget|]. intros j Hj.
      unfold runbook_loc, pptr. simpl. right. split; [done|].
      right. split; [done|]. right. split; [done|]. left. intros [=]. lia. }
    assert (patch_config_ok c = true) as Hcok'.
    { rewrite forallb_forall in Hcok. apply Hcok.
      apply list_elem_of_In. by eapply list_elem_of_lookup_2. }
    destruct c as [| | | | |cd]; try done.
    destruct (strip_patch_config_step _ (config_task_map (take m cl)) s1 cd
                Hcm Hcok') as (s2 & Hrun & Hgone & Hfr & Hsb).
    exists (dict_set (name_key (JDict cd)) (config_tasks (JDict cd))
              (config_task_map (take m cl))), s2.
    split; [done|]. split; [|split; [|split]].
    - erewrite take_S_r by done. by rewrite config_task_map_snoc.
    - intros j Hj. destruct (decide (j = Z.of_nat m)) as [->|Hne].
      + exact Hgone.
      + rewrite Hfr; [apply Hnone; lia|].
        apply (diverge_runbook_loc i (Z.of_nat m) i j). congruence.
    - intros p Hp. rewrite Hfr; [apply Hframe; intros; apply Hp; lia|].
      apply (Hp (Z.of_nat m)). lia.
    - eapply same_but_trans; [done|].
      apply (Hsb pptr "patch_list" [KInt (Z.of_nat m)]). done. }
  apply wp_ok_ex. unfold strip_profile_patch_configs. fold pptr.
  do 2 wp_step. rewrite Hget. do 2 wp_step. rewrite Hpget. do 2 wp_step.
  cbn [iter_len]. wp_step. unfold wp at 1. rewrite Hloop. cbn [fst snd].
  destruct (Hsame pd Hget) as (pd' & Hget' & Hpd').
  do 2 wp_step. rewrite Hget'. do 2 wp_step. cbn [py_get rbind].
  rewrite Hpd' by done. rewrite Hk. wp_step.
  rewrite firstn_all. unfold name_key. rewrite Hk. split; [done|]. split.
  - intros j. destruct (decide (0 ≤ j < Z.of_nat (length cl))%Z) as [Hj|Hj].
    { by apply Hnone. }
    rewrite Hframe.
    + unfold runbook_loc.
      change [KStr "app_profile_list"; KInt i; KStr "patch_list"; KInt j;
              KStr "runbook"]
        with (pptr ++ [KStr "patch_list"; KInt j; KStr "runbook"]).
      rewrite get_at_app, Hget. unfold cl in Hj. simpl in *.
      destruct (dict_lookup "patch_list" pd) as [[| | | |l|]|]; try done.
      simpl. destruct (decide (0 ≤ j)%Z); [|done].
      rewrite lookup_ge_None_2; [done|]. lia.
    + intros j' Hj'. apply diverge_runbook_loc. intros [=]. lia.
  - intros p Hp. apply Hframe. intros. apply Hp.
Qed.

Lemma dict_fold_lookup_last {A} (f : A → key) (g : A → json) (l : list A) i x :
  l !! i = Some x →
  (∀ i' x', (i < i')%nat → l !! i' = Some x' → f x' ≠ f x) →
  dict_lookup (f x) (foldl (λ acc y, dict_set (f y) (g y) acc) [] l)
  = Some (g x).
Proof.
  revert i x. induction l as [|y l IH] using rev_ind; intros i x Hi Hlast.
  - done.
  - rewrite foldl_app. simpl.
    destruct (decide (i = length l)) as [->|Hne].
    + rewrite lookup_app_r, Nat.sub_diag in Hi by lia. simpl in Hi.
      simplify_eq. apply dict_lookup_set_eq.
    + assert (i < length l)%nat as Hlt.
      { apply lookup_lt_Some in Hi. rewrite length_app in Hi. simpl in Hi.
        lia. }
      rewrite lookup_app_l in Hi by done.
      rewrite dict_lookup_set_ne.
      * apply (IH i); [done|]. intros i' x' Hi' Hx'. apply (Hlast i'); [done|].
        rewrite lookup_app_l; [done|]. by eapply lookup_lt_Some.
      * apply (Hlast (length l)); [done|].
        rewrite lookup_app_r, Nat.sub_diag by lia. done.
Qed.

(** C9 (amended). [strip_patch_config_tasks] on a payload of the expected
    shape returns, and afterwards no patch config of any profile has a
    ["runbook"] key, every location of the payload outside those runbooks
    holds what it held before, and the returned dictionary is the one built
    by assigning, profile after profile and patch config after patch
    config, the config's task list ([[]] when it has no runbook or the
    runbook no list) to the config's name.  So a profile name maps to the
    map of the last profile of that name, and in it a patch-config name
    maps to the tasks of the last config of that name: when two configs of
    a profile share a name, the tasks of the earlier one are not
    returned. *)
Theorem strip_patch_config_tasks_spec s :
  payload_ok (resources s) = true →
  ∃ result s',
    strip_patch_config_tasks s = (Ok (JDict result), s')
    ∧ result = profile_task_map (app_profiles (resources s))
    ∧ (∀ i j, get_at (runbook_loc i j) (resources s') = None)
    ∧ (∀ p, (∀ i j, diverge (runbook_loc i j) p) →
            get_at p (resources s') = get_at p (resources s))
    ∧ (∀ i p,
         app_profiles (resources s) !! i = Some p →
         (∀ i' p', (i < i')%nat → app_profiles (resources s) !! i' = Some p' →
                   name_key p' ≠ name_key p) →
         ∃ m, dict_lookup (name_key p) result = Some (JDict m)
              ∧ ∀ j c,
                  patch_configs p !! j = Some c →
                  (∀ j' c', (j < j')%nat → patch_configs p !! j' = Some c' →
                            name_key c' ≠ name_key c) →
                  dict_lookup (name_key c) m = Some (config_tasks c)).
Proof.
  intros Hok. set (pl := app_profiles (resources s)).
  exists (profile_task_map pl).
  cut (∃ s', strip_patch_config_tasks s = (Ok (JDict (profile_task_map pl)), s')
             ∧ (∀ i j, get_at (runbook_loc i j) (resources s') = None)
             ∧ (∀ p, (∀ i j, diverge (runbook_loc i j) p) →
                     get_at p (resources s') = get_at p (resources s))).
  { intros (s' & Hrun & Hnone & Hframe). exists s'.
    split; [done|]. split; [done|]. split; [done|]. split; [done|].
    intros i p Hp Hlast. eexists. split.
    - by apply (dict_fold_lookup_last name_key
                  (λ p, JDict (config_task_map (patch_configs p))) pl i p).
    - intros j c Hc Hclast.
      by apply (dict_fold_lookup_last name_key config_tasks _ j c). }
  destruct (resources s) as [| | | | |rd] eqn:Hres; try done.
  assert (py_get (JDict rd) "app_profile_list" (JList []) = Ok (JList pl)
          ∧ forallb profile_ok pl = true
          ∧ (∀ i p, pl !! i = Some p →
               get_at [KStr "app_profile_list"; KInt (Z.of_nat i)] (resources s)
               = Some p)
          ∧ (dict_lookup "app_profile_list" rd = None
             ∨ dict_lookup "app_profile_list" rd = Some (JList pl)))
    as (Hpget & Hpok & Hpi & Hshape).
  { unfold pl, app_profiles, py_get. simpl in Hok.
    destruct (dict_lookup "app_profile_list" rd) as [[| | | |l|]|] eqn:E;
      try done.
    2:{ split; [done|]. split; [done|]. split; [|by left].
        intros i p Hp. by rewrite lookup_nil in Hp. }
    split; [done|]. split; [done|]. split; [|by right]. intros i p Hp.
    rewrite Hres. cbn [get_at child]. rewrite E. cbn [get_at child].
    rewrite decide_True by lia. by rewrite Nat2Z.id, Hp. }
  destruct (for_fold_indices_inv (length pl) strip_profile_patch_configs
              (λ m acc1 s1,
                 acc1 = profile_task_map (take m pl)
                 ∧ (∀ i j, (0 ≤ i < Z.of_nat m)%Z →
                           get_at (runbook_loc i j) (resources s1) = None)
                 ∧ (∀ p, (∀ i j, (0 ≤ i < Z.of_nat m)%Z →
                                 diverge (runbook_loc i j) p) →
                         get_at p (resources s1) = get_at p (resources s)))
              [] s) as (acc1 & s1 & Hloop & -> & Hnone & Hframe).
  { split; [done|]. split; [intros; lia|done]. }
  { intros m acc1 s1 Hm (-> & Hnone & Hframe).
    destruct (lookup_lt_is_Some_2 pl m Hm) as [p Hp].
    assert (Hpm : get_at [KStr "app_profile_list"; KInt (Z.of_nat m)]
                    (resources s1) = Some p).
    { rewrite Hframe; [by apply Hpi|]. intros i j Hi.
      unfold runbook_loc. simpl. right. split; [done|]. left.
      intros [=]. lia. }
    assert (profile_ok p = true) as Hpok'.
    { rewrite forallb_forall in Hpok. apply Hpok.
      apply list_elem_of_In. by eapply list_elem_of_lookup_2. }
    destruct p as [| | | | |pd]; try done.
    destruct (strip_profile_patch_configs_step (Z.of_nat m)
                (profile_task_map (take m pl)) s1 pd) as (s2 & Hrun & Hg & Hf);
      [lia|done|done|].
    eexists _, s2. split; [done|]. split; [|split].
    - erewrite take_S_r by done. by rewrite profile_task_map_snoc.
    - intros i j Hi. destruct (decide (i = Z.of_nat m)) as [->|Hne].
      + apply Hg.
      + rewrite Hf; [apply Hnone; lia|]. intros j'.
        apply diverge_runbook_loc. congruence.
    - intros q Hq. rewrite Hf; [apply Hframe; intros; apply Hq; lia|].
      intros j. apply Hq. lia. }
  apply wp_ok_ex. unfold strip_patch_config_tasks.
  do 2 wp_step. rewrite Hres. cbn [get_at]. do 2 wp_step. rewrite Hpget.
  do 2 wp_step. cbn [iter_len]. wp_step. unfold wp at 1. rewrite Hloop.
  cbn [fst snd]. wp_step. rewrite firstn_all. split; [done|]. split.
  - intros i j. destruct (decide (0 ≤ i < Z.of_nat (length pl))%Z) as [Hi|Hi].
    { by apply Hnone. }
    rewrite Hframe.
    + rewrite Hres. unfold runbook_loc. cbn [get_at child].
      destruct Hshape as [E|E].
      * by rewrite E.
      * rewrite E. cbn [get_at child]. destruct (decide (0 ≤ i)%Z); [|done].
        rewrite lookup_ge_None_2; [done|]. lia.
    + intros i' j' Hi'. apply diverge_runbook_loc. intros [=]. lia.
  - intros q Hq. rewrite <-Hres. apply Hframe. intros. apply Hq.
Qed.

(** A profile with one well-behaved patch config. *)
Definition patch_resources : json :=
  JDict [(KStr "app_profile_list",
          JList [JDict [
            (KStr "name", JStr "Profile1");
            (KStr "patch_list",
             JList [JDict [(KStr "name", JStr "patch_config1");
                           (KStr "runbook",
                            JDict [(KStr "task_definition_list",
                                    JList [JStr "Task1"; JStr "Task2"])])]])]])].

Lemma strip_patch_config_tasks_spec_witness :
  payload_ok patch_resources = true
  ∧ ∃ result s',
      strip_patch_config_tasks (mk_state patch_resources [] [] [])
      = (Ok (JDict result), s')
      ∧ result = [(KStr "Profile1",
                   JDict [(KStr "patch_config1",
                           JList [JStr "Task1"; JStr "Task2"])])]
      ∧ get_at (runbook_loc 0 0) (resources s') = None.
Proof.
  split; [reflexivity|].
  destruct (strip_patch_config_tasks_spec
              (mk_state patch_resources [] [] []) eq_refl)
    as (result & s' & Hrun & Hres & Hnone & _).
  exists result, s'. split; [exact Hrun|]. split; [exact Hres|]. apply Hnone.
Defined.

(** A profile whose two patch configs share the name ["cfg"]. *)
Definition duplicate_patch_resources : json :=
  JDict [(KStr "app_profile_list",
          JList [JDict [
            (KStr "name", JStr "Profile1");
            (KStr "patch_list",
             JList [JDict [(KStr "name", JStr "cfg");
                           (KStr "runbook",
                            JDict [(KStr "task_definition_list",
                                    JList [JStr "Task1"])])];
                    JDict [(KStr "name", JStr "cfg");
                           (KStr "runbook",
                            JDict [(KStr "task_definition_list",
                                    JList [JStr "Task2"])])]])]])].

(** C9 as stated fails: the first patch config is named ["cfg"] and its
    runbook held [[Task1]], yet the returned dictionary maps ["cfg"] of its
    profile to [[Task2]]. *)
Lemma strip_patch_config_tasks_counterexample :
  get_at [KStr "app_profile_list"; KInt 0; KStr "patch_list"; KInt 0;
          KStr "runbook"; KStr "task_definition_list"]
    duplicate_patch_resources = Some (JList [JStr "Task1"])
  ∧ get_at [KStr "app_profile_list"; KInt 0; KStr "patch_list"; KInt 0;
            KStr "name"] duplicate_patch_resources = Some (JStr "cfg")
  ∧ (strip_patch_config_tasks (mk_state duplicate_patch_resources [] [] [])).1
    = Ok (JDict [(KStr "Profile1",
                  JDict [(KStr "cfg", JList [JStr "Task2"])])]).
Proof. vm_compute. done. Qed.

(** ** [update_vm_image_config] *)

(** [pkg["options"]["resources"]["image_type"]] of [img_cls.compile()]. *)
Definition image_type_of (img : img_cls) : result json :=
  rbind (img_compile img) (λ pkg,
    rbind (rbind (py_getitem_key pkg "options")
             (λ o, py_getitem_key o "resources"))
      (λ r, py_getitem_key r "image_type")).

(** [IMAGE_TYPES[disk["device_properties"]["device_type"]]] *)
Definition disk_image_type (IMAGE_TYPES disk : json) : result json :=
  rbind (rbind (py_getitem_key disk "device_properties")
           (λ p, py_getitem_key p "device_type"))
    (py_getitem IMAGE_TYPES).

(** A disk of the expected shape: a dictionary whose device type has an
    image type in [IMAGE_TYPES]. *)
Definition disk_ok (IMAGE_TYPES disk : json) : Prop :=
  is_dict disk = true ∧ ∃ t, disk_image_type IMAGE_TYPES disk = Ok t.

(** An image class whose package and reference compile. *)
Definition img_ok (img : img_cls) : Prop :=
  (∃ t, image_type_of img = Ok t) ∧ ∃ r, img_ref_compile img = Ok r.

Definition has_disks (s : state) (disks : list json) : Prop :=
  get_at disk_list_loc (resources s) = Some (JList disks).

Definition data_source_reference_loc (disk_ind : Z) : loc :=
  disk_list_loc ++ [KInt (disk_ind - 1); KStr "data_source_reference"].

Lemma read_disk_list_has_disks s disks :
  has_disks s disks → read_disk_list s = (Ok (JList disks), s).
Proof.
  unfold has_disks, disk_list_loc, read_disk_list, bind, deref, lift.
  simpl. destruct (resources s) as [| | | | |sd]; simpl; try done.
  destruct (dict_lookup "resources" sd) as [rv|]; [|done]. simpl.
  destruct rv as [| | | | |rd]; simpl; try done.
  destruct (dict_lookup "disk_list" rd); [|done]. by intros [= ->].
Qed.

Section update_vm_image_config_properties.

Variable IMAGE_TYPES : json.

Lemma disk_ok_set_reference dd r :
  disk_ok IMAGE_TYPES (JDict dd) →
  disk_ok IMAGE_TYPES (JDict (dict_set "data_source_reference" r dd)).
Proof.
  intros [_ [t Ht]]. split; [done|]. exists t. revert Ht.
  unfold disk_image_type. simpl. by rewrite dict_lookup_set_ne.
Qed.

Definition invalid_address (disk_ind : Z) : exn :=
  raised ValueError ("invalid disk address (" +:+ pretty disk_ind +:+ ")").
Definition no_reference (disk_ind : Z) : exn :=
  raised ValueError
    ("unable to set downloadable image in disk " +:+ pretty disk_ind).
Definition type_mismatch (disk_ind : Z) : exn :=
  raised TypeError ("image type mismatch in disk " +:+ pretty disk_ind).

Lemma update_vm_image_cases s disks disk_ind img vm_type reference :
  has_disks s disks →
  Forall (disk_ok IMAGE_TYPES) disks →
  (1 ≤ disk_ind)%Z →
  image_type_of img = Ok vm_type →
  img_ref_compile img = Ok reference →
  (* the index exceeds the length *)
  ((Z.of_nat (length disks) < disk_ind)%Z
   ∧ update_vm_image IMAGE_TYPES (disk_ind, img) s
     = (Raise (invalid_address disk_ind), s))
  ∨ ∃ dd disk_type,
      disks !! Z.to_nat (disk_ind - 1) = Some (JDict dd)
      ∧ disk_image_type IMAGE_TYPES (JDict dd) = Ok disk_type
      ∧ ((* the addressed disk lacks the key *)
         (dict_lookup "data_source_reference" dd = None
          ∧ update_vm_image IMAGE_TYPES (disk_ind, img) s
            = (Raise (no_reference disk_ind), s))
         ∨ (* the image types differ *)
         (is_Some (dict_lookup "data_source_reference" dd)
          ∧ py_eqb vm_type disk_type = false
          ∧ update_vm_image IMAGE_TYPES (disk_ind, img) s
            = (Raise (type_mismatch disk_ind), s))
         ∨ (* the reference is replaced *)
         (is_Some (dict_lookup "data_source_reference" dd)
          ∧ py_eqb vm_type disk_type = true
          ∧ update_vm_image IMAGE_TYPES (disk_ind, img) s
            = (Ok tt,
               set_resources
                 (alter_at (dict_setitem "data_source_reference" reference)
                    (disk_list_loc ++ [KInt (disk_ind - 1)])) s))).
Proof.
  intros Hdisks Hok Hind Hvt Href.
  destruct (decide (Z.of_nat (length disks) < disk_ind)%Z) as [Hlen|Hlen].
  { left. split; [done|]. apply wp_eq. unfold update_vm_image.
    cbn [fst snd]. wp_step. unfold wp at 1.
    rewrite (read_disk_list_has_disks _ _ Hdisks). cbn [fst snd].
    do 2 wp_step. cbn [py_len].
    rewrite (proj2 (Z.ltb_lt _ _) Hlen). by wp_step. }
  right.
  destruct (lookup_lt_is_Some_2 disks (Z.to_nat (disk_ind - 1))) as [disk Hd];
    [lia|].
  assert (disk_ok IMAGE_TYPES disk) as [Hdict [dt Hdt]].
  { eapply Forall_lookup_1; done. }
  destruct disk as [| | | | |dd]; try done.
  exists dd, dt. split; [done|]. split; [done|].
  assert (Hnorm : norm_index (length disks) (disk_ind - 1)
                  = Some (Z.to_nat (disk_ind - 1))).
  { unfold norm_index. by rewrite decide_True by lia. }
  assert (Hstart : ∀ Q,
    wp (if negb (dict_mem "data_source_reference" dd)
            then raise (no_reference disk_ind)
            else
              (pkg <- lift (img_compile img) ;;
               vm_image_type <-
                 lift (rbind (rbind (py_getitem_key pkg "options")
                                (λ o, py_getitem_key o "resources"))
                         (λ r, py_getitem_key r "image_type")) ;;
               device_type <-
                 lift (rbind (py_getitem_key (JDict dd) "device_properties")
                         (λ p, py_getitem_key p "device_type")) ;;
               disk_img_type <- lift (py_getitem IMAGE_TYPES device_type) ;;
               if negb (py_eqb vm_image_type disk_img_type) then
                 raise (type_mismatch disk_ind)
               else
                 reference <- lift (img_ref_compile img) ;;
                 setitem_reached (disk_list_loc ++ [KInt (disk_ind - 1)])
                   (JDict dd) "data_source_reference" reference)%M) Q s →
    wp (update_vm_image IMAGE_TYPES (disk_ind, img)) Q s).
  { intros Q HQ. unfold update_vm_image. cbn [fst snd].
    wp_step. unfold wp at 1.
    rewrite (read_disk_list_has_disks _ _ Hdisks). cbn [fst snd].
    do 2 wp_step. cbn [py_len].
    rewrite (proj2 (Z.ltb_ge _ _)) by lia.
    do 2 wp_step. cbn [py_getitem_key canon_key]. rewrite Hnorm, Hd.
    rewrite Z2Nat.id by lia.
    do 2 wp_step. cbn [py_contains to_key rbind]. done. }
  assert (Hdisk : get_at (disk_list_loc ++ [KInt (disk_ind - 1)])
                    (resources s) = Some (JDict dd)).
  { rewrite get_at_app, Hdisks. cbn [get_at child].
    rewrite decide_True by lia. by rewrite Hd. }
  unfold disk_image_type in Hdt. unfold image_type_of in Hvt.
  destruct (img_compile img) as [pkg|] eqn:Hpkg; [|done]. cbn [rbind] in Hvt.
  destruct (rbind (py_getitem_key (JDict dd) "device_properties")
              (λ p, py_getitem_key p "device_type")) as [device_type|] eqn:Hty;
    [|done].
  cbn [rbind] in Hdt.
  destruct (dict_lookup "data_source_reference" dd) as [old|] eqn:Hdsr.
  - right. destruct (py_eqb vm_type dt) eqn:Heq; [right|left];
      (split; [by eexists|]); split; try done.
    + apply wp_eq, Hstart. unfold dict_mem. rewrite Hdsr. cbn [negb].
      do 4 wp_step. rewrite Hvt. do 4 wp_step. rewrite Hdt, Heq.
      cbn [negb]. do 2 wp_step. rewrite Href. cbn [setitem_reached].
      by eapply wp_setitem_at.
    + apply wp_eq, Hstart. unfold dict_mem. rewrite Hdsr. cbn [negb].
      do 4 wp_step. rewrite Hvt. do 4 wp_step. rewrite Hdt, Heq.
      cbn [negb]. by wp_step.
  - left. split; [done|]. apply wp_eq, Hstart. unfold dict_mem.
    rewrite Hdsr. cbn [negb]. by wp_step.
Qed.

Lemma has_disks_set_reference s disks disk_ind reference :
  has_disks s disks → (1 ≤ disk_ind)%Z →
  has_disks
    (set_resources
       (alter_at (dict_setitem "data_source_reference" reference)
          (disk_list_loc ++ [KInt (disk_ind - 1)])) s)
    (alter (dict_setitem "data_source_reference" reference)
       (Z.to_nat (disk_ind - 1)) disks).
Proof.
  unfold has_disks. intros Hd Hind. cbn [resources set_resources].
  rewrite alter_at_app, get_at_alter_at, Hd. cbn [fmap option_fmap option_map].
  cbn [alter_at]. by rewrite decide_True by lia.
Qed.

Lemma update_vm_image_config_has_disks s disks pkgs :
  has_disks s disks →
  update_vm_image_config IMAGE_TYPES pkgs s
  = for_each pkgs (update_vm_image IMAGE_TYPES) s.
Proof.
  intros Hd. unfold update_vm_image_config, bind.
  by rewrite (read_disk_list_has_disks _ _ Hd).
Qed.

(** C10 (amended). [update_vm_image_config] takes the entries of
    [disk_packages] in order.  On a spec whose disks are dictionaries with
    a device type known to [IMAGE_TYPES], for a first entry with index at
    least 1 and an image class that compiles, exactly one of four things
    happens: the index exceeds the length of the disk list and
    [ValueError] is raised; the addressed disk lacks
    ["data_source_reference"] and [ValueError] is raised; the disk has the
    key, the image types differ and [TypeError] is raised; or the disk has
    the key, the types agree, the disk's reference is replaced by the
    compiled reference of the image class, every other disk is left as it
    was, and the call goes on with the remaining entries on the updated
    spec.  An entry that raises leaves the spec as the entries before it
    made it. *)
Theorem update_vm_image_config_spec s disks disk_ind img rest vm_type
    reference :
  has_disks s disks →
  Forall (disk_ok IMAGE_TYPES) disks →
  (1 ≤ disk_ind)%Z →
  image_type_of img = Ok vm_type →
  img_ref_compile img = Ok reference →
  ((Z.of_nat (length disks) < disk_ind)%Z
   ∧ update_vm_image_config IMAGE_TYPES ((disk_ind, img) :: rest) s
     = (Raise (invalid_address disk_ind), s))
  ∨ ∃ dd disk_type,
      disks !! Z.to_nat (disk_ind - 1) = Some (JDict dd)
      ∧ disk_image_type IMAGE_TYPES (JDict dd) = Ok disk_type
      ∧ ((dict_lookup "data_source_reference" dd = None
          ∧ update_vm_image_config IMAGE_TYPES ((disk_ind, img) :: rest) s
            = (Raise (no_reference disk_ind), s))
         ∨ (is_Some (dict_lookup "data_source_reference" dd)
            ∧ py_eqb vm_type disk_type = false
            ∧ update_vm_image_config IMAGE_TYPES ((disk_ind, img) :: rest) s
              = (Raise (type_mismatch disk_ind), s))
         ∨ (is_Some (dict_lookup "data_source_reference" dd)
            ∧ py_eqb vm_type disk_type = true
            ∧ ∃ s' disks',
                update_vm_image_config IMAGE_TYPES ((disk_ind, img) :: rest) s
                = update_vm_image_config IMAGE_TYPES rest s'
                ∧ has_disks s' disks'
                ∧ Forall (disk_ok IMAGE_TYPES) disks'
                ∧ length disks' = length disks
                ∧ disks' !! Z.to_nat (disk_ind - 1)
                  = Some (JDict (dict_set "data_source_reference" reference
                                   dd))
                ∧ ∀ j, j ≠ Z.to_nat (disk_ind - 1) →
                       disks' !! j = disks !! j)).
Proof.
  intros Hdisks Hok Hind Hvt Href.
  assert (Hhead : ∀ r s',
    update_vm_image IMAGE_TYPES (disk_ind, img) s = (Raise r, s') →
    update_vm_image_config IMAGE_TYPES ((disk_ind, img) :: rest) s
    = (Raise r, s')).
  { intros r s' E. rewrite (update_vm_image_config_has_disks _ _ _ Hdisks).
    cbn [for_each]. unfold bind. by rewrite E. }
  destruct (update_vm_image_cases s disks disk_ind img vm_type reference
              Hdisks Hok Hind Hvt Href)
    as [[Hlen E]|(dd & dt & Hd & Hdt & [[Hno E]|[(Hhas & Hne & E)|(Hhas & Heq & E)]])].
  - left. auto.
  - right. exists dd, dt. split; [done|]. split; [done|]. left. auto.
  - right. exists dd, dt. split; [done|]. split; [done|]. right. left. auto.
  - right. exists dd, dt. split; [done|]. split; [done|]. right. right.
    split; [done|]. split; [done|].
    eexists _, (alter (dict_setitem "data_source_reference" reference)
                  (Z.to_nat (disk_ind - 1)) disks).
    pose proof (has_disks_set_reference s disks disk_ind reference Hdisks Hind)
      as Hdisks'.
    split; [|split; [exact Hdisks'|split; [|split; [|split]]]].
    + rewrite (update_vm_image_config_has_disks _ _ _ Hdisks),
        (update_vm_image_config_has_disks _ _ _ Hdisks').
      cbn [for_each]. unfold bind at 1. by rewrite E.
    + apply Forall_alter; [done|]. intros disk Hdisk.
      rewrite Hd in Hdisk. injection Hdisk as <-. intros Hdk.
      by apply (disk_ok_set_reference dd reference).
    + apply length_alter.
    + by rewrite list_lookup_alter_eq, Hd.
    + intros j Hj. by rewrite list_lookup_alter_ne.
Qed.

End update_vm_image_config_properties.

Definition ahv_image_types : json :=
  JDict [(KStr "DISK", JStr "DISK_IMAGE"); (KStr "CDROM", JStr "ISO_IMAGE")].

Definition example_disk (device_type : string) : json :=
  JDict [(KStr "data_source_reference",
          JDict [(KStr "kind", JStr "image"); (KStr "uuid", JStr "u0")]);
         (KStr "device_properties",
          JDict [(KStr "device_type", JStr device_type)])].

Definition example_spec (disks : list json) : json :=
  JDict [(KStr "resources", JDict [(KStr "disk_list", JList disks)])].

Definition example_image (image_type : string) (name : string) : img_cls :=
  mk_img_cls
    (Ok (JDict [(KStr "options",
                 JDict [(KStr "resources",
                         JDict [(KStr "image_type", JStr image_type)])])]))
    (Ok (JDict [(KStr "kind", JStr "app_package"); (KStr "name", JStr name)])).

Lemma update_vm_image_config_spec_witness :
  (update_vm_image_config ahv_image_types
     [(1%Z, example_image "DISK_IMAGE" "centos_disk")]
     (mk_state (example_spec [example_disk "DISK"]) [] [] [])).1 = Ok tt.
Proof.
  destruct (update_vm_image_config_spec ahv_image_types
              (mk_state (example_spec [example_disk "DISK"]) [] [] [])
              [example_disk "DISK"] 1 (example_image "DISK_IMAGE" "centos_disk")
              [] (JStr "DISK_IMAGE")
              (JDict [(KStr "kind", JStr "app_package");
                      (KStr "name", JStr "centos_disk")]))
    as [[Hlen _]|_].
  - reflexivity.
  - repeat constructor. by exists (JStr "DISK_IMAGE").
  - lia.
  - reflexivity.
  - reflexivity.
  - simpl in Hlen. lia.
  - reflexivity.
Defined.

(** C10 as stated fails: the disk list has one disk and index 2 is
    requested, so "a requested disk index exceeds the length", yet the call
    raises [TypeError], for the entry that comes first. *)
Lemma update_vm_image_config_counterexample :
  let spec := example_spec [example_disk "DISK"] in
  let disk_packages :=
    [(1%Z, example_image "ISO_IMAGE" "iso"); (2%Z, example_image "DISK_IMAGE" "centos_disk")] in
  (Z.of_nat (length [example_disk "DISK"]) < 2)%Z
  ∧ (update_vm_image_config ahv_image_types disk_packages
       (mk_state spec [] [] [])).1
    = Raise (raised TypeError "image type mismatch in disk 1").
Proof. split; [simpl; lia|]. vm_compute. done. Qed.

(** ** [get_provider_spec_string] *)

Section get_provider_spec_string_spec.

Variable pdb_set_trace : M unit.
Variable AhvVmType_decompile : M unit.
Variable get_valid_identifier : json → result string.

(** The identifier of the image a disk is created from, when its
    [data_source_reference] has kind ["app_package"]. *)
Definition app_package_ident (disk : json) : option string :=
  match disk with
  | JDict dd =>
      match default (JDict []) (dict_lookup "data_source_reference" dd) with
      | JDict rd =>
          if truthy (JDict rd)
             && py_eqb (default JNone (dict_lookup "kind" rd))
                  (JStr "app_package")
          then match get_valid_identifier
                       (default JNone (dict_lookup "name" rd)) with
               | Ok ident => Some ident
               | Raise _ => None
               end
          else None
      | _ => None
      end
  | _ => None
  end.

(** A disk of the expected shape: a dictionary whose
    [data_source_reference], when it is not empty or [None], is a
    dictionary, with a name that [get_valid_identifier] accepts when its
    kind is ["app_package"]. *)
Definition ahv_disk_ok (disk : json) : Prop :=
  ∃ dd, disk = JDict dd ∧
    let ref := default (JDict []) (dict_lookup "data_source_reference" dd) in
    truthy ref = false
    ∨ ∃ rd, ref = JDict rd ∧
        (py_eqb (default JNone (dict_lookup "kind" rd)) (JStr "app_package")
         = true →
         ∃ ident, get_valid_identifier (default JNone (dict_lookup "name" rd))
                  = Ok ident).

(** One entry [(position, identifier)] for each disk created from an app
    package, the first disk having position [i + 1]. *)
Fixpoint disk_packages_from (i : nat) (disks : list json) : list (Z * string) :=
  match disks with
  | [] => []
  | disk :: disks' =>
      match app_package_ident disk with
      | Some ident => (Z.of_nat i + 1, ident)%Z :: disk_packages_from (S i) disks'
      | None => disk_packages_from (S i) disks'
      end
  end.

Definition disk_package_text (kv : Z * string) : string :=
  pretty kv.1 +:+ ": " +:+ kv.2.

(** The string the AHV branch is to return. *)
Definition ahv_spec_string (filename : string) (packages : list (Z * string))
    : string :=
  "read_ahv_spec('" +:+ filename +:+ "', disk_packages = {"
    +:+ String.concat "," (disk_package_text <$> packages) +:+ "})".

Lemma disk_packages_from_snoc i disks disk :
  disk_packages_from i (disks ++ [disk])
  = disk_packages_from i disks
    ++ match app_package_ident disk with
       | Some ident => [(Z.of_nat (i + length disks) + 1, ident)%Z]
       | None => []
       end.
Proof.
  revert i. induction disks as [|d disks IH]; intros i; simpl.
  - rewrite Nat.add_0_r. by destruct (app_package_ident disk).
  - rewrite IH. replace (S i + length disks)%nat with (i + S (length disks))%nat
      by lia. by destruct (app_package_ident d).
Qed.

Lemma disk_packages_from_bound i disks kv :
  kv ∈ disk_packages_from i disks →
  (Z.of_nat i < kv.1 ≤ Z.of_nat (i + length disks))%Z.
Proof.
  revert i. induction disks as [|d disks IH]; intros i; simpl.
  - by intros ?%elem_of_nil.
  - destruct (app_package_ident d).
    + intros [->|H%IH]%elem_of_cons; simpl; lia.
    + intros H%IH. lia.
Qed.

Lemma img_map_set_fresh k v m :
  (∀ kv, kv ∈ m → kv.1 ≠ k) → img_map_set k v m = m ++ [(k, v)].
Proof.
  induction m as [|[k' v'] m IH]; intros Hfresh; simpl; [done|].
  rewrite decide_False.
  - rewrite IH; [done|]. intros kv Hkv. apply Hfresh. by right.
  - intros ->. by apply (Hfresh (k', v')); [left|].
Qed.

Lemma string_app_assoc (a b c : string) : (a +:+ b) +:+ c = a +:+ b +:+ c.
Proof.
  induction a as [|x a IH]; [done|].
  change (String x ((a +:+ b) +:+ c) = String x (a +:+ b +:+ c)). by f_equal.
Qed.

Lemma string_app_nil_r (a : string) : a +:+ "" = a.
Proof.
  induction a as [|x a IH]; [done|].
  change (String x (a +:+ "") = String x a). by f_equal.
Qed.

Lemma strip_leading_comma_cons x : strip_leading_comma ("" +:+ "," +:+ x) = x.
Proof. unfold strip_leading_comma. cbv [String.append]. by destruct x. Qed.

Lemma disk_pkg_items_concat m :
  strip_leading_comma (disk_pkg_items m)
  = String.concat "," (disk_package_text <$> m).
Proof.
  unfold disk_pkg_items.
  assert (Hfold : ∀ acc,
    foldl (λ acc kv, acc +:+ "," +:+ pretty kv.1 +:+ ": " +:+ kv.2) acc m
    = acc +:+ match m with
              | [] => ""
              | _ => "," +:+ String.concat "," (disk_package_text <$> m)
              end).
  { induction m as [|kv m IH]; intros acc.
    - simpl. by rewrite string_app_nil_r.
    - cbn [foldl]. rewrite IH, !string_app_assoc.
      destruct m as [|kv' m].
      + change (String.concat "," (disk_package_text <$> [kv]))
          with (disk_package_text kv).
        unfold disk_package_text. by rewrite string_app_nil_r.
      + change (String.concat "," (disk_package_text <$> kv :: kv' :: m))
          with (disk_package_text kv +:+ ","
                +:+ String.concat "," (disk_package_text <$> kv' :: m)).
        unfold disk_package_text at 2. by rewrite !string_app_assoc. }
  rewrite Hfold. destruct m as [|kv m]; [done|].
  apply strip_leading_comma_cons.
Qed.

Lemma collect_disk_package_step ind acc s disk :
  get_at (disk_list_loc ++ [KInt ind]) (resources s) = Some disk →
  ahv_disk_ok disk →
  ∃ s',
    collect_disk_package get_valid_identifier ind acc s
    = (Ok match app_package_ident disk with
          | Some ident => img_map_set (ind + 1) ident acc
          | None => acc
          end, s')
    ∧ ∀ p, diverge (disk_list_loc
                      ++ [KInt ind; KStr "data_source_reference"; KStr "uuid"])
             p →
           get_at p (resources s') = get_at p (resources s).
Proof.
  intros Hget (dd & -> & Hok). apply wp_ok_ex.
  unfold collect_disk_package, app_package_ident.
  do 2 wp_step. rewrite Hget. do 2 wp_step. cbn [py_get].
  destruct Hok as [Hfalsy|(rd & Href & Hident)].
  - rewrite Hfalsy.
    destruct (default (JDict []) (dict_lookup "data_source_reference" dd))
      as [| | | | |rd]; try by wp_step.
    rewrite Hfalsy. cbn [andb]. by wp_step.
  - rewrite Href.
    destruct (truthy (JDict rd)) eqn:Htruthy; cbn [andb]; [|by wp_step].
    do 2 wp_step. cbn [py_get].
    destruct (py_eqb (default JNone (dict_lookup "kind" rd))
                (JStr "app_package")) eqn:Hkind; [|by wp_step].
    destruct (Hident eq_refl) as [ident Hid].
    do 4 wp_step. rewrite Hid. wp_step.
    assert (dict_lookup "data_source_reference" dd = Some (JDict rd)) as Hdsr.
    { destruct (dict_lookup "data_source_reference" dd); simpl in Href;
        [by subst|]. injection Href as <-. done. }
    eapply wp_pop_at.
    { rewrite get_at_app, Hget. cbn [get_at child]. by rewrite Hdsr. }
    destruct (dict_lookup "uuid" rd).
    + wp_step. split; [done|]. intros p Hp. cbn [resources set_resources].
      rewrite (get_at_key_write _ _ "uuid").
      * done.
      * intros. by apply child_dict_delitem_ne.
      * by rewrite <-app_assoc.
    + by wp_step.
Qed.

(** C7 (amended). The AHV branch of [get_provider_spec_string]: when the
    debugger session opened on entry is resumed and [AhvVmType.decompile]
    returns, and the spec then holds a list of well-shaped disks at
    [resources.disk_list], the call returns
    [read_ahv_spec('<filename>', disk_packages = {...})] with one
    [position: identifier] entry, in disk order, for each disk whose
    [data_source_reference] has kind ["app_package"], counted from 1. *)
Theorem get_provider_spec_string_ahv filename vm_images s s0 s1 disks :
  pdb_set_trace s = (Ok (), s0) →
  AhvVmType_decompile s0 = (Ok (), s1) →
  has_disks s1 disks →
  Forall ahv_disk_ok disks →
  (get_provider_spec_string pdb_set_trace AhvVmType_decompile
     get_valid_identifier filename "AHV_VM" vm_images s).1
  = Ok (ahv_spec_string filename (disk_packages_from 0 disks)).
Proof.
  intros Hpdb Hdecompile Hdisks Hok.
  pose (I := λ (m : nat) (acc : list (Z * string)) (t : state),
    acc = disk_packages_from 0 (take m disks)
    ∧ ∀ j, (m ≤ j)%nat →
        get_at (disk_list_loc ++ [KInt (Z.of_nat j)]) (resources t)
        = disks !! j).
  destruct (for_fold_indices_inv (length disks)
              (collect_disk_package get_valid_identifier) I [] s1)
    as (acc & s2 & Hloop & -> & _).
  { split; [done|]. intros j _. rewrite get_at_app, Hdisks. simpl.
    destruct (decide _); [|lia]. rewrite Nat2Z.id. by destruct (disks !! j). }
  { intros m acc t Hm [-> Hlater].
    destruct (lookup_lt_is_Some_2 disks m Hm) as [disk Hdisk].
    destruct (collect_disk_package_step (Z.of_nat m)
                (disk_packages_from 0 (take m disks)) t disk)
      as (t' & Hstep & Hframe).
    { rewrite Hlater by done. done. }
    { by eapply Forall_lookup_1. }
    eexists _, t'. split; [exact Hstep|]. split.
    - rewrite (take_S_r _ _ _ Hdisk), disk_packages_from_snoc.
      rewrite length_take_le by lia.
      destruct (app_package_ident disk) as [ident|];
        [|by rewrite app_nil_r].
      apply img_map_set_fresh. intros kv Hkv%disk_packages_from_bound.
      rewrite length_take_le in Hkv by lia. simpl. lia.
    - intros j Hj. rewrite Hframe; [apply Hlater; lia|].
      apply diverge_app_same. simpl. left. intros [= ?]. lia. }
  change (wp (get_provider_spec_string pdb_set_trace AhvVmType_decompile
                get_valid_identifier filename "AHV_VM" vm_images)
            (λ r _, r = Ok (ahv_spec_string filename
                              (disk_packages_from 0 disks))) s).
  unfold get_provider_spec_string.
  change (String.eqb "AHV_VM" "AHV_VM") with true. cbv iota.
  wp_step. unfold wp at 1. rewrite Hpdb. cbn [fst snd].
  wp_step. unfold wp at 1. rewrite Hdecompile. cbn [fst snd].
  do 2 wp_step.
  pose proof Hdisks as Hshape. unfold has_disks, disk_list_loc in Hshape.
  cbn [get_at] in Hshape |- *.
  destruct (resources s1) as [| | | | |sd]; try done.
  cbn [child py_getitem_key rbind] in Hshape |- *.
  destruct (dict_lookup "resources" sd) as [[| | | | |rd]|]; try done.
  cbn [child py_getitem_key rbind] in Hshape |- *.
  destruct (dict_lookup "disk_list" rd) as [dl|]; [|done].
  injection Hshape as ->.
  do 4 wp_step. cbn [iter_len]. wp_step. unfold wp at 1. rewrite Hloop. cbn [fst snd].
  wp_step. f_equal. rewrite firstn_all, disk_pkg_items_concat.
  unfold ahv_spec_string. by rewrite !string_app_assoc.
Qed.

End get_provider_spec_string_spec.

(** A stand-in for [get_valid_identifier] on names that are identifiers
    already. *)
Definition identifier_of_name (name : json) : result string :=
  match name with
  | JStr s => Ok s
  | _ => Raise (builtin TypeError)
  end.

Definition ahv_spec : json :=
  JDict [(KStr "name", JStr "vm-1");
         (KStr "resources", JDict [
            (KStr "disk_list", JList [
               JDict [(KStr "data_source_reference", JDict [
                         (KStr "kind", JStr "image");
                         (KStr "name", JStr "centos");
                         (KStr "uuid", JStr "1f0a")])];
               JDict [(KStr "data_source_reference", JNone)];
               JDict [(KStr "data_source_reference", JDict [
                         (KStr "kind", JStr "app_package");
                         (KStr "name", JStr "centos_pkg");
                         (KStr "uuid", JStr "77c2")])]])])].

Definition ahv_spec_without_disks : json :=
  JDict [(KStr "name", JStr "vm-1"); (KStr "resources", JDict [])].

Definition spec_state (spec : json) : state := mk_state spec [] [] [].

Lemma get_provider_spec_string_ahv_witness :
  (get_provider_spec_string (ret ()) (ret ()) identifier_of_name
     "specs/vm_1.yaml" "AHV_VM" (JList []) (spec_state ahv_spec)).1
  = Ok "read_ahv_spec('specs/vm_1.yaml', disk_packages = {3: centos_pkg})".
Proof.
  apply (get_provider_spec_string_ahv (ret ()) (ret ()) identifier_of_name
           "specs/vm_1.yaml" (JList []) (spec_state ahv_spec)
           (spec_state ahv_spec) (spec_state ahv_spec)
           [JDict [(KStr "data_source_reference", JDict [
                      (KStr "kind", JStr "image");
                      (KStr "name", JStr "centos");
                      (KStr "uuid", JStr "1f0a")])];
            JDict [(KStr "data_source_reference", JNone)];
            JDict [(KStr "data_source_reference", JDict [
                      (KStr "kind", JStr "app_package");
                      (KStr "name", JStr "centos_pkg");
                      (KStr "uuid", JStr "77c2")])]]).
  - reflexivity.
  - reflexivity.
  - reflexivity.
  - repeat constructor.
    + eexists. split; [reflexivity|]. right. eexists. split; [reflexivity|].
      simpl. discriminate.
    + eexists. split; [reflexivity|]. by left.
    + eexists. split; [reflexivity|]. right. eexists. split; [reflexivity|].
      intros _. by eexists.
Defined.

(** C7 as stated fails on a spec without [resources.disk_list]: the lookup
    raises [KeyError], also when the debugger session is resumed at once. *)
Lemma get_provider_spec_string_counterexample :
  (get_provider_spec_string (ret ()) (ret ()) identifier_of_name
     "specs/vm_1.yaml" "AHV_VM" (JList [])
     (spec_state ahv_spec_without_disks)).1
  = Raise (builtin KeyError).
Proof. reflexivity. Qed.

(** ** Errors in the command handlers *)

Section cli_spec.

Variable world : Type.
Variable acp_list : json → world → response * world.
Variable acp_get_name_uuid_map : json → world → json * world.
Variable acp_delete : json → world → response * world.
Variable acp_read : json → world → response * world.
Variable projects_internal_read : json → world → response * world.
Variable project_update : json → json → world → response * world.
Variable app_family_list : json → world → response * world.
Variable get_name_query : list string → string.
Variable highlight_text : json → string.
Variable py_format : json → string.
Variable pc_ip : string.

Definition name_uuid_params : json := JDict [(KStr "length", JInt 1000)].

(** The text of [Exception("[{}] - {}".format(err["code"], err["error"]))]. *)
Definition api_error (code error : json) : exn :=
  raised Exception ("[" +:+ py_format code +:+ "] - " +:+ py_format error).

Lemma hfor_each_app {A} (l1 l2 : list A) (body : A → H world unit) w ev w' :
  hfor_each world l1 body w = (ev, Returned (), w') →
  hfor_each world (l1 ++ l2) body w
  = match hfor_each world l2 body w' with
    | (ev', r, w'') => (ev ++ ev', r, w'')
    end.
Proof.
  revert w ev. induction l1 as [|x l1 IH]; intros w ev; simpl.
  - unfold hret. intros [= <- <-]. by destruct (hfor_each world l2 body w)
      as [[??]?].
  - unfold hbind. destruct (body x w) as [[ev1 [[]|c|e]] w1]; try done.
    destruct (hfor_each world l1 body w1) as [[ev2 r2] w2] eqn:Hrest.
    intros [= <- -> ->]. rewrite (IH _ _ Hrest).
    destruct (hfor_each world l2 body w') as [[ev3 r3] w3].
    by rewrite app_assoc.
Qed.

Lemma hbind_call {A B} (f : world → A * world) (k : A → H world B) w :
  hbind world (call world f) k w = k (f w).1 (f w).2.
Proof.
  unfold hbind, call. destruct (f w) as [a w1]. simpl.
  by destruct (k a w1) as [[??]?].
Qed.

Lemma hbind_hret {A B} (a : A) (k : A → H world B) w :
  hbind world (hret world a) k w = k a w.
Proof. unfold hbind, hret. by destruct (k a w) as [[??]?]. Qed.

Lemma hbind_exited {A B} (m : H world A) (k : A → H world B) w ev c w' :
  m w = (ev, Exited c, w') → hbind world m k w = (ev, Exited c, w').
Proof. unfold hbind. by intros ->. Qed.

Lemma hbind_raised {A B} (m : H world A) (k : A → H world B) w ev e w' :
  m w = (ev, Raised e, w') → hbind world m k w = (ev, Raised e, w').
Proof. unfold hbind. by intros ->. Qed.

(** [get_acps], when the list call fails: one call, a warning in the log,
    and a normal return. *)
Lemma get_acps_failed name filter_by limit offset quiet out w :
  let r := acp_list (get_acps_params get_name_query name filter_by limit offset)
             w in
  truthy (err r.1) = true →
  get_acps world acp_list get_name_query highlight_text pc_ip
    name filter_by limit offset quiet out w
  = ([LogWarning ("Cannot fetch acps from " +:+ pc_ip)], Returned (), r.2).
Proof.
  intros r. subst r. unfold get_acps, hbind at 1, call.
  destruct (acp_list _ w) as [r w1]. simpl. by intros ->.
Qed.

(** [delete_acp], at the first name that the name-to-uuid map does not
    hold: an error in the log and exit status -1; the names after it are
    not looked at. *)
Lemma delete_acp_unknown seen (acp : string) rest w ev w' uuid :
  delete_acp world acp_get_name_uuid_map acp_read projects_internal_read
    project_update py_format seen w = (ev, Returned (), w') →
  py_get (acp_get_name_uuid_map name_uuid_params w).1 acp (JStr "") = Ok uuid →
  truthy uuid = false →
  delete_acp world acp_get_name_uuid_map acp_read projects_internal_read
    project_update py_format (seen ++ acp :: rest) w
  = (ev ++ [LogError ("ACP " +:+ acp +:+ " not found.")], Exited (-1), w').
Proof.
  unfold delete_acp, name_uuid_params. rewrite !hbind_call.
  intros Hseen Hget Hfalsy. rewrite (hfor_each_app _ _ _ _ _ _ Hseen).
  cbn [hfor_each].
  rewrite (hbind_exited _ _ w' [LogError ("ACP " +:+ acp +:+ " not found.")]
             (-1) w'); [done|].
  rewrite Hget. cbn [hlift]. rewrite hbind_hret, Hfalsy. cbn [negb].
  by apply hbind_exited.
Qed.

(** The definition of [delete_acp] that the later one replaces does the
    same at an unknown name, with another message. *)
Lemma delete_acp_shadowed_unknown seen (acp : string) rest w ev w' uuid :
  delete_acp_shadowed world acp_get_name_uuid_map acp_delete py_format seen w
  = (ev, Returned (), w') →
  py_get (acp_get_name_uuid_map name_uuid_params w).1 acp (JStr "") = Ok uuid →
  truthy uuid = false →
  delete_acp_shadowed world acp_get_name_uuid_map acp_delete py_format
    (seen ++ acp :: rest) w
  = (ev ++ [LogError ("ACP " +:+ acp +:+ " doesn't exists")], Exited (-1), w').
Proof.
  unfold delete_acp_shadowed, name_uuid_params. rewrite !hbind_call.
  intros Hseen Hget Hfalsy. rewrite (hfor_each_app _ _ _ _ _ _ Hseen).
  cbn [hfor_each].
  rewrite (hbind_exited _ _ w'
             [LogError ("ACP " +:+ acp +:+ " doesn't exists")] (-1) w');
    [done|].
  by rewrite Hget; cbn [hlift]; rewrite hbind_hret, Hfalsy.
Qed.

(** ... and raises when the delete call fails. *)
Lemma delete_acp_shadowed_failed seen (acp : string) rest w ev w' uuid code error :
  delete_acp_shadowed world acp_get_name_uuid_map acp_delete py_format seen w
  = (ev, Returned (), w') →
  py_get (acp_get_name_uuid_map name_uuid_params w).1 acp (JStr "") = Ok uuid →
  truthy uuid = true →
  let r := acp_delete uuid w' in
  truthy (err r.1) = true →
  py_getitem_key (err r.1) "code" = Ok code →
  py_getitem_key (err r.1) "error" = Ok error →
  delete_acp_shadowed world acp_get_name_uuid_map acp_delete py_format
    (seen ++ acp :: rest) w
  = (ev, Raised (api_error code error), r.2).
Proof.
  unfold delete_acp_shadowed, name_uuid_params. rewrite !hbind_call.
  intros Hseen Hget Htruthy Herr Hcode Herror.
  rewrite (hfor_each_app _ _ _ _ _ _ Hseen).
  cbn [hfor_each].
  rewrite (hbind_raised _ _ w' [] (api_error code error)
             (acp_delete uuid w').2); [by rewrite app_nil_r|].
  rewrite Hget. cbn [hlift]. rewrite hbind_hret, Htruthy. cbn [negb].
  rewrite hbind_call, Herr, Hcode. cbn [hlift]. rewrite hbind_hret, Herror.
  cbn [hlift]. by rewrite hbind_hret.
Qed.

(** [get_app_family_list], when the list call fails: no message, an
    exception with the code and the error of the response. *)
Lemma get_app_family_list_failed w code error :
  let r := app_family_list (JDict []) w in
  truthy (err r.1) = true →
  py_getitem_key (err r.1) "code" = Ok code →
  py_getitem_key (err r.1) "error" = Ok error →
  get_app_family_list world app_family_list py_format w
  = ([], Raised (api_error code error), r.2).
Proof.
  intros r. subst r. unfold get_app_family_list, hbind at 1, call.
  destruct (app_family_list _ w) as [r w1]. simpl. intros -> Hcode Herror.
  unfold hbind at 1. rewrite Hcode. simpl.
  unfold hbind at 1. by rewrite Herror.
Qed.

(** [delete_acp_using_projects_internal_api], when the project of the
    policy cannot be read: the error in the log and exit status -1. *)
Lemma project_read_failed acp_uuid w res metadata project_ref project_uuid :
  let r := acp_read acp_uuid w in
  response_json r.1 = Ok res →
  py_getitem_key res "metadata" = Ok metadata →
  py_get metadata "project_reference" (JDict []) = Ok project_ref →
  py_get project_ref "uuid" JNone = Ok project_uuid →
  truthy project_uuid = true →
  let r' := projects_internal_read project_uuid r.2 in
  truthy (err r'.1) = true →
  delete_acp_using_projects_internal_api world acp_read
    projects_internal_read project_update py_format acp_uuid w
  = ([LogErrorValue (err r'.1)], Exited (-1), r'.2).
Proof.
  intros r Hres Hmeta Hpref Huuid Htruthy r' Herr. subst r r'.
  unfold delete_acp_using_projects_internal_api.
  rewrite hbind_call, Hres. cbn [hlift]. rewrite hbind_hret, Hmeta.
  cbn [hlift]. rewrite hbind_hret, Hpref. cbn [hlift].
  rewrite hbind_hret, Huuid. cbn [hlift]. rewrite hbind_hret, Htruthy.
  cbn [negb]. rewrite hbind_call, Herr. reflexivity.
Qed.

(** C5 (amended). How the handlers surface an error they detect, each
    after a single call to the server: [get_acps] logs a warning and
    returns; [delete_acp] (either definition) logs an error and exits with
    status -1 at a name it does not know, and so does
    [delete_acp_using_projects_internal_api] when the project cannot be
    read; the first definition of [delete_acp] and [get_app_family_list]
    raise an exception that carries the code and the error of the failed
    call. *)
Theorem cli_error_surfacing :
  (∀ name filter_by limit offset quiet out w,
     let r := acp_list
                (get_acps_params get_name_query name filter_by limit offset)
                w in
     truthy (err r.1) = true →
     get_acps world acp_list get_name_query highlight_text pc_ip
       name filter_by limit offset quiet out w
     = ([LogWarning ("Cannot fetch acps from " +:+ pc_ip)], Returned (), r.2))
  ∧ (∀ seen (acp : string) rest w ev w' uuid,
       delete_acp world acp_get_name_uuid_map acp_read projects_internal_read
         project_update py_format seen w = (ev, Returned (), w') →
       py_get (acp_get_name_uuid_map name_uuid_params w).1 acp (JStr "")
       = Ok uuid →
       truthy uuid = false →
       delete_acp world acp_get_name_uuid_map acp_read projects_internal_read
         project_update py_format (seen ++ acp :: rest) w
       = (ev ++ [LogError ("ACP " +:+ acp +:+ " not found.")],
          Exited (-1), w'))
  ∧ (∀ acp_uuid w res metadata project_ref project_uuid,
       let r := acp_read acp_uuid w in
       response_json r.1 = Ok res →
       py_getitem_key res "metadata" = Ok metadata →
       py_get metadata "project_reference" (JDict []) = Ok project_ref →
       py_get project_ref "uuid" JNone = Ok project_uuid →
       truthy project_uuid = true →
       let r' := projects_internal_read project_uuid r.2 in
       truthy (err r'.1) = true →
       delete_acp_using_projects_internal_api world acp_read
         projects_internal_read project_update py_format acp_uuid w
       = ([LogErrorValue (err r'.1)], Exited (-1), r'.2))
  ∧ (∀ seen (acp : string) rest w ev w' uuid,
       delete_acp_shadowed world acp_get_name_uuid_map acp_delete py_format
         seen w = (ev, Returned (), w') →
       py_get (acp_get_name_uuid_map name_uuid_params w).1 acp (JStr "")
       = Ok uuid →
       (truthy uuid = false →
        delete_acp_shadowed world acp_get_name_uuid_map acp_delete py_format
          (seen ++ acp :: rest) w
        = (ev ++ [LogError ("ACP " +:+ acp +:+ " doesn't exists")],
           Exited (-1), w'))
       ∧ (∀ code error,
            truthy uuid = true →
            let r := acp_delete uuid w' in
            truthy (err r.1) = true →
            py_getitem_key (err r.1) "code" = Ok code →
            py_getitem_key (err r.1) "error" = Ok error →
            delete_acp_shadowed world acp_get_name_uuid_map acp_delete
              py_format (seen ++ acp :: rest) w
            = (ev, Raised (api_error code error), r.2)))
  ∧ (∀ w code error,
       let r := app_family_list (JDict []) w in
       truthy (err r.1) = true →
       py_getitem_key (err r.1) "code" = Ok code →
       py_getitem_key (err r.1) "error" = Ok error →
       get_app_family_list world app_family_list py_format w
       = ([], Raised (api_error code error), r.2)).
Proof.
  split; [intros; by apply get_acps_failed|].
  split; [intros; by eapply delete_acp_unknown|].
  split; [intros; by eapply project_read_failed|].
  split; [|intros; by apply get_app_family_list_failed].
  intros seen acp rest w ev w' uuid Hseen Hget. split.
  - intros. by eapply delete_acp_shadowed_unknown.
  - intros. by eapply delete_acp_shadowed_failed.
Qed.

End cli_spec.

(** A server that fails every call with the same error, and counts the
    calls made to it. *)
Definition server_error : json :=
  JDict [(KStr "code", JStr "503"); (KStr "error", JStr "unavailable")].

Definition failing_call (_ : json) (calls : nat) : response * nat :=
  (mk_response None server_error, S calls).

Definition name_of_value (v : json) : string :=
  match v with
  | JStr s => s
  | _ => ""
  end.

Definition name_equals (names : list string) : string :=
  "name==" +:+ String.concat "," names.

Lemma cli_error_surfacing_witness :
  get_acps nat failing_call name_equals name_of_value "10.0.0.8"
    "" "" (JInt 20) (JInt 0) false "text" 0%nat
  = ([LogWarning "Cannot fetch acps from 10.0.0.8"], Returned (), 1%nat)
  ∧ get_app_family_list nat failing_call name_of_value 0%nat
    = ([], Raised (raised Exception "[503] - unavailable"), 1%nat).
Proof.
  destruct (cli_error_surfacing nat failing_call
              (λ _ calls, (JDict [], S calls)) failing_call failing_call
              failing_call (λ _, failing_call) failing_call
              name_equals name_of_value name_of_value "10.0.0.8")
    as (Hacps & _ & _ & _ & Hfamily).
  split.
  - apply (Hacps "" "" (JInt 20) (JInt 0) false "text" 0%nat). reflexivity.
  - apply (Hfamily 0%nat (JStr "503") (JStr "unavailable")); reflexivity.
Defined.

(** C5 as stated fails for [get_acps]: the list call fails, the handler
    logs a warning and returns to its caller; the process does not exit. *)
Lemma get_acps_counterexample :
  get_acps nat failing_call name_equals name_of_value "10.0.0.8"
    "" "" (JInt 20) (JInt 0) false "text" 0%nat
  = ([LogWarning "Cannot fetch acps from 10.0.0.8"], Returned (), 1%nat).
Proof. reflexivity. Qed.

(** ** Default arguments of [strip_vmware_secrets] *)

(** A VMware spec whose guest customization holds an administrator
    password. *)
Definition windows_spec (name : string) (value : json) : json :=
  JDict [(KStr "create_spec", JDict [
     (KStr "resources", JDict [
        (KStr "guest_customization", JDict [
           (KStr "windows_data", JDict [
              (KStr "password", JDict [
                 (KStr "name", JStr name);
                 (KStr "value", value)])])])])])].

Definition windows_password_path : list key :=
  [KStr "create_spec"; KStr "resources"; KStr "guest_customization";
   KStr "windows_data"; KStr "password"].

(** C6. A call of [strip_vmware_secrets(path_list, obj)] that leaves
    [secret_variables] out appends the password it detaches to the default
    list, which the next such call starts from: the secrets a call collects
    are those of all the calls before it, followed by its own. *)
Theorem strip_vmware_secrets_defaults_accumulate name value d :
  let out := strip_vmware_secrets_defaults [] (windows_spec name value) d in
  call_result out.1 = Ok ()
  ∧ call_secret_variables out.1
    = dflt_secret_variables d ++ [(windows_password_path, value, JStr name)]
  ∧ dflt_secret_variables out.2 = call_secret_variables out.1.
Proof. done. Qed.

(** Two calls in a row on equal arguments, from the defaults as they are
    when the module is loaded. *)
Lemma strip_vmware_secrets_defaults_twice :
  let spec := windows_spec "administrator" (JStr "s3cret") in
  let e := (windows_password_path, JStr "s3cret", JStr "administrator") in
  let first := strip_vmware_secrets_defaults [] spec vmware_defaults_at_import in
  let second := strip_vmware_secrets_defaults [] spec first.2 in
  call_secret_variables first.1 = [e]
  ∧ call_secret_variables second.1 = [e; e].
Proof. done. Qed.

(** ** Placeholders left by the secret walk *)





Section settles.

Variable P : loc.
Variable r0 : json.




















End settles.


Ltac solve_here H :=
  rewrite <- ?app_assoc; simpl; exact H.


Section strip_secrets_settles.

Variable P : loc.
Variable r0 : json.













End strip_secrets_settles.

(** ** The secret-bearing locations do not overlap *)













(** ** The round trip of [strip_secrets] and [patch_secrets] *)

(** List positions as the walk records them: counted from the start. *)
Definition from_start (k : key) : Prop :=
  match k with
  | KInt i => (0 ≤ i)%Z
  | _ => True
  end.




(** A walk that enters a string stays in strings. *)
Lemma walk_path_string path str ptr q o :
  walk_path path (JStr str) ptr = Ok (Some (q, o)) → is_dict o = false.
Proof.
  revert str ptr. induction path as [|k path IH]; intros str ptr; simpl.
  - by intros [= _ <-].
  - destruct k as [|i|]; try done.
    destruct (norm_index _ i); [|done]. simpl.
    destruct (String.get _ _); [|done]. simpl. apply IH.
Qed.

(** When the walk ends on a dictionary, that dictionary is at the path. *)
Lemma walk_path_reached path r ptr q d :
  Forall from_start path → walk_path path r ptr = Ok (Some (q, JDict d)) →
  q = ptr ++ path ∧ get_at path r = Some (JDict d).
Proof.
  intros Hpath. revert r ptr.
  induction Hpath as [|k path Hk _ IH]; intros r ptr; simpl.
  - intros [= <- <-]. by rewrite app_nil_r.
  - destruct r as [| | |str|l|dd]; simpl; try done.
    + destruct k as [|i|]; try done.
      destruct (norm_index _ i); [|done]. simpl.
      destruct (String.get _ _); [|done]. simpl.
      by intros ?%walk_path_string.
    + destruct k as [|i|]; try done. simpl in Hk.
      unfold norm_index. destruct (decide (0 ≤ i < Z.of_nat (length l))%Z);
        [|by rewrite decide_False by lia].
      rewrite decide_True by done.
      destruct (l !! Z.to_nat i) as [c|] eqn:E; [|done]. simpl.
      rewrite Z2Nat.id by done. intros [-> ?]%IH. by rewrite <- app_assoc.
    + unfold dict_mem. destruct (dict_lookup k dd) as [c|] eqn:E; [|done].
      simpl. intros [-> ?]%IH. by rewrite <- app_assoc.
Qed.


Section round_trip.

(** The location of a variable and the payload before the walk. *)
Variable V : loc.
Variable r0 : json.





























End round_trip.







Section strip_secrets_keeps.

Variable V : loc.
Variable r0 : json.













End strip_secrets_keeps.

(** *** Patching the recorded entries *)

Section patch_round_trip.

Variable V : loc.
Variable r0 : json.
Hypothesis V_from_start : Forall from_start V.







End patch_round_trip.










(** *** The variables whose entries are recorded at their location *)














(** The payload of the example after [strip_secrets], and after
    [patch_secrets] with what the walk collected. *)
Definition example_stripped : state :=
  (strip_secrets (JList []) ["service_definition_list"] [] example_state).2.

Definition example_patched : state :=
  (patch_secrets (secret_map example_stripped)
     (secret_variables example_stripped) [] example_stripped).2.



(** * Further functions of the modules *)

(** ** [calm/dsl/cli/mpis.py]: [trunc_string] and [get_group_data_value] *)

(** The number of characters [s[:k]] keeps of a sequence of length [n]: a
    negative [k] counts from the end. *)
Definition slice_stop (n : nat) (k : Z) : nat :=
  if (k <? 0)%Z then Z.to_nat (Z.max 0 (Z.of_nat n + k))
  else Nat.min (Z.to_nat k) n.

(** [s[:k]] on a string. *)
Definition py_str_prefix (s : string) (k : Z) : string :=
  String.substring 0 (slice_stop (String.length s) k) s.

(** [trunc_string(data, max_length)].  Only a string can be cut: a list
    cannot be joined to ["..."] and a dictionary cannot be sliced. *)
Definition trunc_string (data : json) (max_length : Z) : result json :=
  if negb (truthy data) then Ok (JStr "-")
  else
    rbind (py_len data) (λ n,
      if (max_length <? n)%Z then
        match data with
        | JStr s => Ok (JStr (py_str_prefix s (max_length - 1) +:+ "..."))
        | _ => Raise (builtin TypeError)
        end
      else Ok data).

(** The body of [for entity in data_list] in [get_group_data_value], and
    the [return None] after the loop. *)
Fixpoint get_group_data_value_from (entities : list json) (field : json)
    (value_list : bool) : result json :=
  match entities with
  | [] => Ok JNone
  | entity :: rest =>
      rbind (py_getitem_key entity "name") (λ name,
        if py_eqb name field then
          rbind (py_getitem_key entity "values") (λ entity_value,
            if negb (truthy entity_value) then Ok JNone
            else
              rbind (rbind (py_getitem entity_value (JInt 0))
                       (λ first, py_getitem_key first "values")) (λ values,
                if value_list then Ok values
                else py_getitem values (JInt 0)))
        else get_group_data_value_from rest field value_list)
  end.

(** [get_group_data_value(data_list, field, value_list)] *)
Definition get_group_data_value (data_list field : json) (value_list : bool)
    : result json :=
  rbind (py_iter data_list) (λ entities,
    get_group_data_value_from entities field value_list).

(** *** Properties of [trunc_string] *)

Lemma substring_length n s :
  String.length (String.substring 0 n s) = Nat.min n (String.length s).
Proof.
  revert n. induction s as [|c s IH]; intros [|n]; simpl; auto.
Qed.

Lemma string_length_app (a b : string) :
  String.length (a +:+ b) = (String.length a + String.length b)%nat.
Proof.
  induction a as [|c a IH]; [done|].
  change (S (String.length (a +:+ b)) = S (String.length a + String.length b)).
  by rewrite IH.
Qed.

Lemma substring_app_exact n (a b : string) :
  String.length a = n → String.substring 0 n (a +:+ b) = a.
Proof.
  revert n. induction a as [|c a IH]; intros n Hn; simpl in Hn; subst n.
  - by destruct b.
  - change (String c (String.substring 0 (String.length a) (a +:+ b))
            = String c a). by rewrite IH.
Qed.

Lemma truthy_str s : truthy (JStr s) = negb (String.eqb s "").
Proof. done. Qed.

Lemma truthy_str_app (a : string) : truthy (JStr (a +:+ "...")) = true.
Proof. by destruct a. Qed.

(** The string a cut leaves: [max_length - 1] characters and the dots. *)
Lemma trunc_string_cut s max_length :
  (1 ≤ max_length < Z.of_nat (String.length s))%Z →
  trunc_string (JStr s) max_length
  = Ok (JStr (String.substring 0 (Z.to_nat (max_length - 1)) s +:+ "...")).
Proof.
  intros Hm. unfold trunc_string.
  assert (truthy (JStr s) = true) as ->.
  { destruct s; [simpl in Hm; lia|done]. }
  simpl. assert ((max_length <? Z.of_nat (String.length s))%Z = true) as ->
    by (apply Z.ltb_lt; lia).
  unfold py_str_prefix, slice_stop.
  assert ((max_length - 1 <? 0)%Z = false) as -> by (apply Z.ltb_ge; lia).
  by rewrite Nat.min_l by lia.
Qed.

(** X1. [trunc_string] is idempotent for a limit of at least one
    character: what it returns, it returns unchanged when given it again
    with the same limit. *)
Theorem trunc_string_idempotent data max_length r :
  (1 ≤ max_length)%Z →
  trunc_string data max_length = Ok r →
  trunc_string r max_length = Ok r.
Proof.
  intros Hm. unfold trunc_string at 1.
  destruct (truthy data) eqn:Htruthy; simpl.
  - destruct (py_len data) as [n|] eqn:Hlen; simpl; [|done].
    destruct (max_length <? n)%Z eqn:Hcut.
    + destruct data as [| | |s| |]; try done. intros [= <-].
      simpl in Hlen. injection Hlen as <-. apply Z.ltb_lt in Hcut.
      unfold py_str_prefix, slice_stop.
      assert ((max_length - 1 <? 0)%Z = false) as -> by (apply Z.ltb_ge; lia).
      rewrite Nat.min_l by lia.
      set (p := String.substring 0 (Z.to_nat (max_length - 1)) s).
      assert (String.length p = Z.to_nat (max_length - 1)) as Hp.
      { unfold p. rewrite substring_length. lia. }
      rewrite trunc_string_cut.
      * by rewrite substring_app_exact.
      * rewrite string_length_app, Hp. simpl. lia.
    + intros [= <-]. unfold trunc_string. rewrite Htruthy, Hlen. simpl.
      by rewrite Hcut.
  - intros [= <-]. unfold trunc_string.
    change (truthy (JStr "-")) with true. cbn [negb py_len rbind].
    change (Z.of_nat (String.length "-")) with 1%Z.
    assert ((max_length <? 1)%Z = false) as -> by (apply Z.ltb_ge; lia).
    done.
Qed.

Lemma trunc_string_idempotent_witness :
  trunc_string (JStr "marketplace item") 8 = Ok (JStr "marketp...")
  ∧ trunc_string (JStr "marketp...") 8 = Ok (JStr "marketp...").
Proof.
  split; [reflexivity|].
  apply (trunc_string_idempotent (JStr "marketplace item") 8); [lia|reflexivity].
Defined.

(** X2. A cut string is longer than the limit: when [data] is a string of
    more than [max_length] characters, [max_length] at least one, the
    result is its first [max_length - 1] characters followed by three
    dots, [max_length + 2] characters in all. *)
Theorem trunc_string_length s max_length :
  (1 ≤ max_length < Z.of_nat (String.length s))%Z →
  ∃ t, trunc_string (JStr s) max_length = Ok (JStr t)
       ∧ t = String.substring 0 (Z.to_nat (max_length - 1)) s +:+ "..."
       ∧ Z.of_nat (String.length t) = (max_length + 2)%Z.
Proof.
  intros Hm. eexists. split; [by apply trunc_string_cut|]. split; [done|].
  rewrite string_length_app, substring_length. simpl. lia.
Qed.

Lemma trunc_string_length_witness :
  ∃ t, trunc_string (JStr "marketplace item") 8 = Ok (JStr t)
       ∧ t = String.substring 0 (Z.to_nat (8 - 1)) "marketplace item" +:+ "..."
       ∧ Z.of_nat (String.length t) = (8 + 2)%Z.
Proof. apply (trunc_string_length "marketplace item" 8). simpl. lia. Defined.

(** *** Properties of [get_group_data_value] *)

(** An entry of a group result that has a name, equal to [field] or not. *)
Definition named (field : json) (b : bool) (entity : json) : Prop :=
  ∃ name, py_getitem_key entity "name" = Ok name ∧ py_eqb name field = b.

Lemma get_group_data_value_from_skip pre rest field value_list :
  Forall (named field false) pre →
  get_group_data_value_from (pre ++ rest) field value_list
  = get_group_data_value_from rest field value_list.
Proof.
  induction 1 as [|x pre (name & Hname & Hne) _ IH]; simpl; [done|].
  by rewrite Hname; simpl; rewrite Hne.
Qed.

(** X3. The first entry named [field] decides the result of
    [get_group_data_value]: the entries after it are not looked at, also
    when the first one has no values and the result is [None]. *)
Theorem get_group_data_value_first_match pre entity post field value_list :
  Forall (named field false) pre →
  named field true entity →
  get_group_data_value (JList (pre ++ entity :: post)) field value_list
  = get_group_data_value (JList [entity]) field value_list.
Proof.
  intros Hpre (name & Hname & Heq). unfold get_group_data_value. simpl.
  rewrite (get_group_data_value_from_skip pre) by done. simpl.
  rewrite Hname. simpl. rewrite Heq.
  destruct (py_getitem_key entity "values") as [entity_value|]; simpl; [|done].
  destruct (truthy entity_value); simpl; [|done].
  by destruct (rbind (py_getitem entity_value (JInt 0))
                 (λ first, py_getitem_key first "values")).
Qed.

Definition group_entry (name : string) (values : list json) : json :=
  JDict [(KStr "name", JStr name);
         (KStr "values", JList [JDict [(KStr "values", JList values)]])].

Lemma get_group_data_value_first_match_witness :
  get_group_data_value
    (JList [group_entry "app_state" [JStr "PUBLISHED"];
            JDict [(KStr "name", JStr "version"); (KStr "values", JList [])];
            group_entry "version" [JStr "1.0.0"]])
    (JStr "version") false
  = Ok JNone.
Proof.
  rewrite (get_group_data_value_first_match
             [group_entry "app_state" [JStr "PUBLISHED"]]
             (JDict [(KStr "name", JStr "version"); (KStr "values", JList [])])
             [group_entry "version" [JStr "1.0.0"]]).
  - reflexivity.
  - repeat constructor. by eexists.
  - by eexists.
Defined.

(** X4. When every entry has a name and none is named [field],
    [get_group_data_value] returns [None]; it raises nothing. *)
Theorem get_group_data_value_absent entities field value_list :
  Forall (named field false) entities →
  get_group_data_value (JList entities) field value_list = Ok JNone.
Proof.
  intros Hall. unfold get_group_data_value. simpl.
  rewrite <- (app_nil_r entities).
  by rewrite (get_group_data_value_from_skip entities []).
Qed.

Lemma get_group_data_value_absent_witness :
  get_group_data_value
    (JList [group_entry "app_state" [JStr "PUBLISHED"];
            group_entry "version" [JStr "1.0.0"]])
    (JStr "app_source") true
  = Ok JNone.
Proof.
  apply get_group_data_value_absent. repeat constructor; by eexists.
Defined.

(** ** [calm/dsl/api/util.py]: [strip_vmware_secrets] *)

(** A computation that leaves the caller's [path_list] as it is. *)
Definition path_steady {A} (m : MS vm_state A) : Prop :=
  ∀ s, vm_path_list (m s).2 = vm_path_list s.

Lemma path_steady_ret {A} (a : A) : path_steady (ret a).
Proof. done. Qed.

Lemma path_steady_lift {A} (r : result A) : path_steady (lift r).
Proof. done. Qed.

Lemma path_steady_in_store {A} (m : M A) : path_steady (in_store m).
Proof. intros s. unfold in_store. by destruct (m (vm_store s)). Qed.

Lemma path_steady_read : path_steady read_path_list.
Proof. done. Qed.

Lemma path_steady_bind {A B} (m : MS vm_state A) (f : A → MS vm_state B) :
  path_steady m → (∀ a, path_steady (f a)) → path_steady (bind m f).
Proof.
  intros Hm Hf s. unfold bind. specialize (Hm s).
  destruct (m s) as [[a|e] s1]; simpl in *; [|done].
  by rewrite Hf.
Qed.

Ltac path_steady_step :=
  lazymatch goal with
  | |- path_steady (ret _) => apply path_steady_ret
  | |- path_steady (lift _) => apply path_steady_lift
  | |- path_steady (in_store _) => apply path_steady_in_store
  | |- path_steady read_path_list => apply path_steady_read
  | |- path_steady (bind _ _) => apply path_steady_bind; [|intros ?]
  | |- path_steady (if ?b then _ else _) => destruct b
  end.

Lemma bind_path_list_extend {A} ks (f : unit → MS vm_state A) s :
  bind (path_list_extend ks) f s
  = f () (mk_vm_state (vm_path_list s ++ ks) (vm_store s)).
Proof. done. Qed.

Lemma bind_lift {S A B} (r : result A) (f : A → MS S B) s :
  bind (lift r) f s
  = match r with Ok a => f a s | Raise e => (Raise e, s) end.
Proof. by destruct r. Qed.

Lemma bind_in_store_deref_root {A} (f : json → MS vm_state A) s :
  bind (in_store (deref [])) f s = f (resources (vm_store s)) s.
Proof. by destruct s. Qed.

(** X5. [strip_vmware_secrets] extends the caller's [path_list] in place
    before it reads [obj]: whatever the payload holds, and whether the call
    returns or raises, the list ends up three components longer
    ([create_spec], [resources], [guest_customization]), or four when
    [windows_data] is non-empty. *)
Theorem strip_vmware_secrets_path_list ds s :
  let out := strip_vmware_secrets ds s in
  vm_path_list out.2 = vm_path_list s ++ guest_customization_loc
  ∨ vm_path_list out.2
    = vm_path_list s ++ guest_customization_loc ++ [KStr "windows_data"].
Proof.
  cbv zeta. unfold strip_vmware_secrets.
  rewrite bind_path_list_extend, bind_in_store_deref_root, bind_lift.
  destruct (rbind _ _) as [obj|e]; [|by left].
  rewrite bind_lift.
  destruct (py_get obj _ _) as [wd|e]; [|by left].
  destruct (truthy wd); [|by left].
  right. rewrite bind_path_list_extend.
  match goal with
  | |- vm_path_list (?m ?s0).2 = _ =>
      assert (path_steady m) as ->;
        [|cbn [vm_path_list]; by rewrite <- (assoc_L (++))]
  end.
  repeat path_steady_step.
Qed.

Lemma child_getitem (k : string) v c :
  child k v = Some c → py_getitem_key v k = Ok c.
Proof. destruct v; try done. simpl. by intros ->. Qed.

Lemma guest_customization_getitem root gc :
  get_at guest_customization_loc root = Some gc →
  rbind (rbind (py_getitem_key root "create_spec")
           (λ o, py_getitem_key o "resources"))
    (λ o, py_getitem_key o "guest_customization") = Ok gc.
Proof.
  unfold guest_customization_loc. cbn [get_at].
  destruct (child "create_spec" root) as [a|] eqn:Ha; [|done].
  destruct (child "resources" a) as [b|] eqn:Hb; [|done].
  destruct (child "guest_customization" b) as [c|] eqn:Hc; [|done].
  intros [= <-].
  rewrite (child_getitem _ _ _ Ha). cbn [rbind].
  rewrite (child_getitem _ _ _ Hb). cbn [rbind].
  by rewrite (child_getitem _ _ _ Hc).
Qed.

(** X6. A non-empty [windows_data] without a [password] entry makes
    [strip_vmware_secrets] raise [KeyError]: [obj["password"]] is read for
    the context string before [obj.get("password", {})] is tested.  The
    payload and the collected secrets are as before the call; [path_list]
    has grown by four components. *)
Theorem strip_vmware_secrets_password_required ds path_list st gc wd :
  get_at guest_customization_loc (resources st) = Some (JDict gc) →
  dict_lookup "windows_data" gc = Some (JDict wd) →
  wd ≠ [] →
  dict_lookup "password" wd = None →
  strip_vmware_secrets ds (mk_vm_state path_list st)
  = (Raise (builtin KeyError),
     mk_vm_state
       (path_list ++ guest_customization_loc ++ [KStr "windows_data"]) st).
Proof.
  intros Hgc Hwd Hne Hpw. unfold strip_vmware_secrets.
  rewrite bind_path_list_extend, bind_in_store_deref_root, bind_lift.
  cbn [vm_store]. rewrite (guest_customization_getitem _ _ Hgc).
  rewrite bind_lift. cbn [py_get]. rewrite Hwd. cbn [from_option id].
  destruct wd as [|e wd]; [done|]. cbn [truthy].
  rewrite bind_path_list_extend, bind_lift.
  cbn [py_getitem_key]. rewrite Hwd. cbn [truthy negb].
  rewrite bind_lift. cbn [py_getitem_key]. rewrite Hpw. cbn [rbind vm_path_list vm_store].
  by rewrite <- (assoc_L (++)).
Qed.

Definition domain_only_spec : json :=
  JDict [(KStr "create_spec", JDict [
     (KStr "resources", JDict [
        (KStr "guest_customization", JDict [
           (KStr "windows_data", JDict [
              (KStr "is_domain", JBool true);
              (KStr "domain_password", JDict [
                 (KStr "name", JStr "join");
                 (KStr "value", JStr "s3cret")])])])])])].

Lemma strip_vmware_secrets_password_required_witness :
  strip_vmware_secrets (JList [])
    (mk_vm_state [] (mk_state domain_only_spec [] [] []))
  = (Raise (builtin KeyError),
     mk_vm_state
       ([] ++ guest_customization_loc ++ [KStr "windows_data"])
       (mk_state domain_only_spec [] [] [])).
Proof.
  eapply strip_vmware_secrets_password_required; [reflexivity|reflexivity|done|reflexivity].
Defined.

(** The locations [strip_vmware_secrets] may write to: the value and the
    attrs of the two passwords of [windows_data]. *)
Definition windows_data_loc : loc :=
  guest_customization_loc ++ [KStr "windows_data"].

Inductive vmware_secret_site : loc → Prop :=
  | vss_password_value :
      vmware_secret_site (windows_data_loc ++ [KStr "password"; KStr "value"])
  | vss_password_attrs :
      vmware_secret_site (windows_data_loc ++ [KStr "password"; KStr "attrs"])
  | vss_domain_password_value :
      vmware_secret_site
        (windows_data_loc ++ [KStr "domain_password"; KStr "value"])
  | vss_domain_password_attrs :
      vmware_secret_site
        (windows_data_loc ++ [KStr "domain_password"; KStr "attrs"]).

Definition vm_preserves (P : loc → Prop) (r0 : json) {A}
    (m : MS vm_state A) : Prop :=
  ∀ s, agree_outside P r0 (resources (vm_store s)) →
       agree_outside P r0 (resources (vm_store (m s).2)).

Lemma vm_preserves_ret P r0 {A} (a : A) : vm_preserves P r0 (ret a).
Proof. by intros s. Qed.

Lemma vm_preserves_lift P r0 {A} (r : result A) : vm_preserves P r0 (lift r).
Proof. by intros s. Qed.

Lemma vm_preserves_read P r0 : vm_preserves P r0 read_path_list.
Proof. by intros s. Qed.

Lemma vm_preserves_extend P r0 ks : vm_preserves P r0 (path_list_extend ks).
Proof. by intros s. Qed.

Lemma vm_preserves_in_store P r0 {A} (m : M A) :
  preserves P r0 m → vm_preserves P r0 (in_store m).
Proof.
  intros Hm s Hs. unfold in_store. specialize (Hm (vm_store s) Hs).
  by destruct (m (vm_store s)).
Qed.

Lemma vm_preserves_bind P r0 {A B} (m : MS vm_state A)
    (k : A → MS vm_state B) :
  vm_preserves P r0 m → (∀ a, vm_preserves P r0 (k a)) →
  vm_preserves P r0 (bind m k).
Proof.
  intros Hm Hk s Hs. unfold bind. specialize (Hm s Hs).
  destruct (m s) as [[a|e] s']; simpl in *; [by apply Hk|done].
Qed.

Ltac vm_preserves_step :=
  lazymatch goal with
  | |- vm_preserves _ _ (bind _ _) => apply vm_preserves_bind; [|intros ?]
  | |- vm_preserves _ _ (ret _) => apply vm_preserves_ret
  | |- vm_preserves _ _ (lift _) => apply vm_preserves_lift
  | |- vm_preserves _ _ read_path_list => apply vm_preserves_read
  | |- vm_preserves _ _ (path_list_extend _) => apply vm_preserves_extend
  | |- vm_preserves _ _ (in_store _) =>
      apply vm_preserves_in_store; preserves_step
  | |- vm_preserves _ _ (if ?b then _ else _) => destruct b
  end.

Lemma strip_vmware_secrets_preserves ds r0 :
  vm_preserves vmware_secret_site r0 (strip_vmware_secrets ds).
Proof.
  unfold strip_vmware_secrets. cbv zeta.
  repeat vm_preserves_step.
  all: apply covered_here; rewrite <- (assoc_L (++)); constructor.
Qed.

(** X7. Frame property of [strip_vmware_secrets]: every location of the
    payload that overlaps none of the value and attrs of
    [windows_data.password] and [windows_data.domain_password] holds after
    the call what it held before, whether the call returns or raises. *)
Theorem strip_vmware_secrets_frame ds s p :
  outside vmware_secret_site p →
  get_at p (resources (vm_store (strip_vmware_secrets ds s).2))
  = get_at p (resources (vm_store s)).
Proof.
  intros Hout.
  by apply (strip_vmware_secrets_preserves ds (resources (vm_store s)) s).
Qed.

Lemma strip_vmware_secrets_frame_witness :
  outside vmware_secret_site (windows_data_loc ++ [KStr "password"; KStr "name"])
  ∧ get_at (windows_data_loc ++ [KStr "password"; KStr "name"])
      (resources (vm_store
         (strip_vmware_secrets (JList [])
            (mk_vm_state []
               (mk_state (windows_spec "administrator" (JStr "s3cret"))
                  [] [] []))).2))
    = get_at (windows_data_loc ++ [KStr "password"; KStr "name"])
        (windows_spec "administrator" (JStr "s3cret")).
Proof.
  assert (outside vmware_secret_site
            (windows_data_loc ++ [KStr "password"; KStr "name"])) as H.
  { intros q Hq. inversion Hq; solve_diverge. }
  split; [exact H|].
  exact (strip_vmware_secrets_frame (JList [])
           (mk_vm_state []
              (mk_state (windows_spec "administrator" (JStr "s3cret"))
                 [] [] [])) _ H).
Defined.

Lemma wp_in_store {A} (m : M A) (Q : result A → vm_state → Prop) s :
  wp m (λ r st, Q r (mk_vm_state (vm_path_list s) st)) (vm_store s) →
  wp (in_store m) Q s.
Proof. unfold wp, in_store. by destruct (m (vm_store s)). Qed.

Lemma wp_read_path_list (Q : result (list key) → vm_state → Prop) s :
  Q (Ok (vm_path_list s)) s → wp read_path_list Q s.
Proof. done. Qed.

Lemma wp_path_list_extend ks (Q : result unit → vm_state → Prop) s :
  Q (Ok tt) (mk_vm_state (vm_path_list s ++ ks) (vm_store s)) →
  wp (path_list_extend ks) Q s.
Proof. done. Qed.

(** A computation that is known to keep the payload outside [P] and the
    caller's [path_list]. *)
Lemma wp_framed P {A} (m : MS vm_state A) (Q : result A → vm_state → Prop) s :
  vm_preserves P (resources (vm_store s)) m →
  path_steady m →
  (∀ r s', agree_outside P (resources (vm_store s)) (resources (vm_store s')) →
           vm_path_list s' = vm_path_list s → Q r s') →
  wp m Q s.
Proof.
  intros Hm Hp HQ. unfold wp. apply HQ; [|apply Hp]. by apply Hm.
Qed.

Lemma get_at_dict_child p (k : string) r v :
  get_at (p ++ [KStr k]) r = Some v →
  ∃ d, get_at p r = Some (JDict d) ∧ dict_lookup k d = Some v.
Proof.
  rewrite get_at_app. destruct (get_at p r) as [o|]; [|done].
  cbn [get_at]. destruct (child k o) as [c|] eqn:Hc; [|done].
  intros [= <-]. destruct o; try done. by eexists.
Qed.

Lemma get_at_dict_child_2 p (k : key) r d :
  get_at p r = Some (JDict d) →
  get_at (p ++ [k]) r = dict_lookup k d.
Proof.
  intros Hp. rewrite get_at_app, Hp. cbn [get_at child].
  by destruct (dict_lookup k d).
Qed.

Ltac vm_wp_step :=
  lazymatch goal with
  | |- wp (bind _ _) _ _ => apply wp_bind
  | |- wp (ret _) _ _ => apply wp_ret
  | |- wp (lift _) _ _ => apply wp_lift
  | |- wp read_path_list _ _ => apply wp_read_path_list
  | |- wp (path_list_extend _) _ _ => apply wp_path_list_extend
  | |- wp (in_store (deref _)) _ _ => apply wp_in_store, wp_deref
  | |- wp (in_store (secret_variables_append _)) _ _ =>
      apply wp_in_store, wp_secret_variables_append
  | |- wp (in_store (not_stripped_append _)) _ _ =>
      apply wp_in_store, wp_not_stripped_append
  end; cbv beta iota.

(** X8. When [windows_data] has a truthy [is_domain] and a non-empty
    [domain_password], a call that returns has removed the [value] of the
    domain password from the payload, whether [is_secret_modified] held or
    not: the value is the last entry of [secret_variables] or, for an
    unmodified secret, the last entry of [not_stripped_secrets]. *)
Theorem strip_vmware_secrets_domain_password ds s s' wd d dp :
  get_at windows_data_loc (resources (vm_store s)) = Some (JDict wd) →
  dict_lookup "is_domain" wd = Some d → truthy d = true →
  dict_lookup "domain_password" wd = Some (JDict dp) → dp ≠ [] →
  strip_vmware_secrets ds s = (Ok tt, s') →
  get_at (windows_data_loc ++ [KStr "domain_password"; KStr "value"])
    (resources (vm_store s')) = None
  ∧ (let value := default (JStr "") (dict_lookup "value" dp) in
     let path := vm_path_list s ++ windows_data_loc ++ [KStr "domain_password"] in
     (∃ name, last (secret_variables (vm_store s')) = Some (path, value, name))
     ∨ last (not_stripped_secrets (vm_store s')) = Some (path, value)).
Proof.
  intros Hwd Hdom Hd Hdp Hne Hrun. cbv zeta.
  pattern s'. match goal with |- ?P _ => set (POST := P) end.
  enough (wp (strip_vmware_secrets ds) (λ r s1, r = Ok tt → POST s1) s) as Hwp.
  { unfold wp in Hwp. rewrite Hrun in Hwp. by apply Hwp. }
  clear Hrun. unfold strip_vmware_secrets.
  destruct (get_at_dict_child guest_customization_loc "windows_data" _ _ Hwd)
    as (gc & Hgc & Hgcwd).
  do 4 vm_wp_step. cbn [get_at vm_store].
  do 2 vm_wp_step. rewrite (guest_customization_getitem _ _ Hgc).
  do 2 vm_wp_step. cbn [py_get]. rewrite Hgcwd. cbn [from_option id].
  assert (truthy (JDict wd) = true) as Hwdt. { by destruct wd. }
  rewrite Hwdt.
  do 4 vm_wp_step.
  cbn [py_getitem_key]. rewrite Hgcwd, Hwdt. cbn [negb].
  do 2 vm_wp_step. destruct (rbind _ _) as [pname|e]; [|done].
  do 2 vm_wp_step. destruct (get_secrets_from_context _ _) as [filtered|e]; [|done].
  do 2 vm_wp_step. cbn [py_get]. vm_wp_step.
  apply (wp_framed (λ q, q = windows_data_loc ++ [KStr "password"])).
  { destruct (truthy _); repeat vm_preserves_step.
    all: apply covered_app, covered_here; reflexivity. }
  { destruct (truthy _); repeat path_steady_step. }
  cbn [vm_store vm_path_list]. intros [[]|e] s2 Hs2 Hpl; [|done].
  assert (Hout : ∀ k : string, k ≠ "password" →
            outside (λ q, q = windows_data_loc ++ [KStr "password"])
              (windows_data_loc ++ [KStr k])).
  { intros k Hk q ->. apply diverge_app_same. simpl. left. congruence. }
  pose proof (Hs2 _ (Hout "is_domain" ltac:(done))) as Hdom2.
  pose proof (Hs2 _ (Hout "domain_password" ltac:(done))) as Hdp2.
  rewrite (get_at_dict_child_2 _ _ _ _ Hwd) in Hdom2.
  rewrite (get_at_dict_child_2 _ _ _ _ Hwd) in Hdp2.
  rewrite Hdom in Hdom2. rewrite Hdp in Hdp2.
  destruct (get_at_dict_child _ _ _ _ Hdom2) as (wd2 & Hwd2 & Hdom3).
  pose proof Hdp2 as Hdp3. rewrite (get_at_dict_child_2 _ _ _ _ Hwd2) in Hdp3.
  do 2 vm_wp_step. fold windows_data_loc. rewrite Hwd2.
  do 2 vm_wp_step. cbn [py_get]. rewrite Hdom3. cbn [from_option id].
  rewrite Hd.
  do 2 vm_wp_step. rewrite Hdp3. cbn [from_option id].
  assert (truthy (JDict dp) = true) as ->. { by destruct dp. }
  do 2 vm_wp_step. destruct (rbind _ _) as [dname|e]; [|done].
  do 2 vm_wp_step. destruct (get_secrets_from_context _ _) as [filtered2|e]; [|done].
  do 2 vm_wp_step. cbn [py_get]. do 2 vm_wp_step. cbn [py_get].
  do 2 vm_wp_step. destruct (is_secret_modified _ _ _) as [modified|e]; [|done].
  do 2 vm_wp_step. rewrite Hpl.
  assert (Hval : windows_data_loc ++ [KStr "domain_password"; KStr "value"]
                      = (windows_data_loc ++ [KStr "domain_password"])
                          ++ [KStr "value"]).
  { by rewrite <- (assoc_L (++)). }
  assert (Hpath : (vm_path_list s ++ guest_customization_loc)
                    ++ [KStr "windows_data"]
                  = vm_path_list s ++ windows_data_loc).
  { by rewrite <- (assoc_L (++)). }
  rewrite Hpath.
  destruct modified.
  - vm_wp_step. apply wp_in_store. eapply wp_pop_at; [exact Hdp2|].
    cbn [vm_store vm_path_list].
    destruct (dict_lookup "value" dp) as [v|] eqn:Hv.
    + do 2 vm_wp_step. cbn [vm_store vm_path_list set_resources resources].
      destruct (get_at windows_data_loc (alter_at _ _ _)) as [obj'|]; [|done].
      do 2 vm_wp_step. destruct (rbind _ _) as [name'|e]; [|done].
      do 2 vm_wp_step. cbn [vm_store vm_path_list].
      apply wp_in_store. eapply wp_setitem_at.
      { cbn [vm_store resources set_resources]. rewrite get_at_alter_at, Hdp2. reflexivity. }
      intros _. subst POST. cbv beta.
      cbn [vm_store resources set_resources secret_variables
           not_stripped_secrets secret_map from_option id].
      split.
      * rewrite Hval, get_at_alter_at_app, get_at_alter_at, Hdp2.
        cbn [fmap option_fmap option_map dict_delitem dict_setitem get_at child].
        rewrite dict_lookup_set_ne by done.
        by rewrite dict_lookup_remove_eq.
      * left. exists name'. rewrite last_snoc. by rewrite <- !(assoc_L (++)).
    + do 2 vm_wp_step. cbn [vm_store vm_path_list]. rewrite Hwd2.
      do 2 vm_wp_step. destruct (rbind _ _) as [name'|e]; [|done].
      do 2 vm_wp_step. cbn [vm_store vm_path_list].
      apply wp_in_store. eapply wp_setitem_at.
      { cbn [vm_store resources]. exact Hdp2. }
      intros _. subst POST. cbv beta.
      cbn [vm_store resources set_resources secret_variables
           not_stripped_secrets secret_map from_option id].
      split.
      * rewrite Hval, get_at_alter_at_app, Hdp2.
        cbn [dict_setitem get_at child].
        rewrite dict_lookup_set_ne by done. by rewrite Hv.
      * left. exists name'. rewrite last_snoc. by rewrite <- !(assoc_L (++)).
  - vm_wp_step. apply wp_in_store. eapply wp_pop_at; [exact Hdp2|].
    cbn [vm_store vm_path_list].
    destruct (dict_lookup "value" dp) as [v|] eqn:Hv.
    + vm_wp_step. intros _. subst POST. cbv beta.
      cbn [vm_store resources set_resources secret_variables
           not_stripped_secrets secret_map from_option id].
      split.
      * rewrite Hval, get_at_alter_at_app, Hdp2.
        cbn [dict_delitem get_at child]. by rewrite dict_lookup_remove_eq.
      * right. rewrite last_snoc. by rewrite <- !(assoc_L (++)).
    + vm_wp_step. intros _. subst POST. cbv beta.
      cbn [vm_store resources set_resources secret_variables
           not_stripped_secrets secret_map from_option id].
      split.
      * rewrite Hval, (get_at_dict_child_2 _ _ _ _ Hdp2). exact Hv.
      * right. rewrite last_snoc. by rewrite <- !(assoc_L (++)).
Qed.

(** A guest customization that joins a domain. *)
Definition windows_domain_data (name : string) (value : json)
    (dname : string) (dvalue : json) : dict :=
  [(KStr "password", JDict [(KStr "name", JStr name); (KStr "value", value)]);
   (KStr "is_domain", JBool true);
   (KStr "domain_password",
    JDict [(KStr "name", JStr dname); (KStr "value", dvalue)])].

Definition windows_domain_spec (name : string) (value : json)
    (dname : string) (dvalue : json) : json :=
  JDict [(KStr "create_spec", JDict [
     (KStr "resources", JDict [
        (KStr "guest_customization", JDict [
           (KStr "windows_data",
            JDict (windows_domain_data name value dname dvalue))])])])].

(** The secrets of an earlier decompilation, recorded under the context
    strings that [strip_vmware_secrets] builds. *)
Definition windows_decompiled (name : string) (value : json)
    (dname : string) (dvalue : json) : json :=
  JDict [
    (KStr (vmware_secrets_context +:+ "windows_data" +:+ ".password." +:+ name),
     JDict [(KStr name, value)]);
    (KStr (vmware_secrets_context +:+ "windows_data" +:+ ".domain_password."
             +:+ dname),
     JDict [(KStr dname, dvalue)])].

Definition domain_example_spec : json :=
  windows_domain_spec "administrator" (JStr "s3cret") "join" (JStr "pa55").

Definition domain_example_decompiled : json :=
  windows_decompiled "administrator" (JStr "s3cret") "join" (JStr "pa55").

Definition domain_example_state : vm_state :=
  mk_vm_state [] (mk_state domain_example_spec [] [] []).

Lemma strip_vmware_secrets_domain_password_witness :
  get_at (windows_data_loc ++ [KStr "domain_password"; KStr "value"])
    (resources (vm_store
       (strip_vmware_secrets domain_example_decompiled
          domain_example_state).2)) = None
  ∧ ((∃ name,
        last (secret_variables (vm_store
                (strip_vmware_secrets domain_example_decompiled
                   domain_example_state).2))
        = Some ([] ++ windows_data_loc ++ [KStr "domain_password"],
                JStr "pa55", name))
     ∨ last (not_stripped_secrets (vm_store
               (strip_vmware_secrets domain_example_decompiled
                  domain_example_state).2))
       = Some ([] ++ windows_data_loc ++ [KStr "domain_password"],
               JStr "pa55")).
Proof.
  apply (strip_vmware_secrets_domain_password domain_example_decompiled
           domain_example_state _
           (windows_domain_data "administrator" (JStr "s3cret") "join"
              (JStr "pa55"))
           (JBool true)
           [(KStr "name", JStr "join"); (KStr "value", JStr "pa55")]);
    [reflexivity|reflexivity|reflexivity|reflexivity|done|reflexivity].
Defined.

(** The unmodified secrets of the example: the administrator password
    stays, the domain password is removed. *)
Lemma strip_vmware_secrets_domain_password_unmodified :
  let out := strip_vmware_secrets domain_example_decompiled
               domain_example_state in
  secret_variables (vm_store out.2) = []
  ∧ not_stripped_secrets (vm_store out.2)
    = [(windows_data_loc ++ [KStr "password"], JStr "s3cret");
       (windows_data_loc ++ [KStr "domain_password"], JStr "pa55")]
  ∧ get_at (windows_data_loc ++ [KStr "password"; KStr "value"])
      (resources (vm_store out.2)) = Some (JStr "s3cret")
  ∧ get_at (windows_data_loc ++ [KStr "domain_password"; KStr "value"])
      (resources (vm_store out.2)) = None.
Proof. done. Qed.

(** X9. An administrator password that [decompiled_secrets] records with
    an equal value, under the context
    [create_spec.resources.guest_customization.windows_datawindows_data.password.<name>],
    is left in the payload: for a guest customization that joins no domain
    the call returns, the payload, [secret_map] and [secret_variables] are
    unchanged, and the path and value of the password are appended to
    [not_stripped_secrets]. *)
Theorem strip_vmware_secrets_password_kept dsd path_list st wd p name f old :
  get_at windows_data_loc (resources st) = Some (JDict wd) →
  dict_lookup "password" wd = Some (JDict p) →
  dict_lookup "name" p = Some (JStr name) →
  dict_lookup
    (KStr (vmware_secrets_context +:+ "windows_data" +:+ ".password." +:+ name))
    dsd = Some (JDict f) →
  dict_lookup (KStr name) f = Some old →
  py_eqb old (default JNone (dict_lookup "value" p)) = true →
  truthy (default (JBool false) (dict_lookup "is_domain" wd)) = false →
  strip_vmware_secrets (JDict dsd) (mk_vm_state path_list st)
  = (Ok tt,
     mk_vm_state (path_list ++ windows_data_loc)
       (mk_state (resources st) (secret_map st) (secret_variables st)
          (not_stripped_secrets st
             ++ [(path_list ++ windows_data_loc ++ [KStr "password"],
                  default (JStr "") (dict_lookup "value" p))]))).
Proof.
  intros Hwd Hp Hname Hctx Hold Heq Hdom.
  destruct (get_at_dict_child guest_customization_loc "windows_data" _ _ Hwd)
    as (gc & Hgc & Hgcwd).
  assert (truthy (JDict wd) = true) as Hwdt. { by destruct wd. }
  assert (truthy (JDict p) = true) as Hpt. { by destruct p. }
  apply wp_eq. unfold strip_vmware_secrets.
  do 4 vm_wp_step. cbn [get_at vm_store].
  do 2 vm_wp_step. rewrite (guest_customization_getitem _ _ Hgc).
  do 2 vm_wp_step. cbn [py_get]. rewrite Hgcwd. cbn [from_option id].
  rewrite Hwdt.
  do 4 vm_wp_step.
  cbn [py_getitem_key]. rewrite Hgcwd, Hwdt. cbn [negb].
  do 2 vm_wp_step. cbn [py_getitem_key rbind py_get]. rewrite Hp.
  cbn [rbind py_get]. rewrite Hname. cbn [from_option id py_str].
  do 2 vm_wp_step.
  unfold get_secrets_from_context. cbn [py_contains to_key rbind].
  unfold dict_mem. rewrite Hctx. cbn [py_get]. rewrite Hctx.
  cbn [from_option id].
  do 2 vm_wp_step. rewrite Hpt.
  do 3 vm_wp_step.
  do 2 vm_wp_step. cbn [py_get]. rewrite Hname. cbn [from_option id].
  do 2 vm_wp_step. cbn [py_get].
  do 2 vm_wp_step.
  rewrite (is_secret_modified_dict f (JStr name) _ (KStr name)) by done.
  rewrite Hold, Heq. cbn [negb].
  do 2 vm_wp_step. do 2 vm_wp_step. cbn [py_get]. vm_wp_step.
  cbn [vm_store vm_path_list resources secret_map secret_variables
       not_stripped_secrets].
  do 2 vm_wp_step. cbn [vm_store resources]. fold windows_data_loc.
  rewrite Hwd.
  do 2 vm_wp_step. cbn [py_get]. rewrite Hdom.
  vm_wp_step. split; [done|]. cbn [vm_path_list].
  by rewrite <- !(assoc_L (++)).
Qed.

Lemma strip_vmware_secrets_password_kept_witness :
  strip_vmware_secrets
    (windows_decompiled "administrator" (JStr "s3cret") "" JNone)
    (mk_vm_state [KStr "substrate"]
       (mk_state (windows_spec "administrator" (JStr "s3cret")) [] [] []))
  = (Ok tt,
     mk_vm_state ([KStr "substrate"] ++ windows_data_loc)
       (mk_state (windows_spec "administrator" (JStr "s3cret")) [] []
          ([] ++ [([KStr "substrate"] ++ windows_data_loc ++ [KStr "password"],
                   JStr "s3cret")]))).
Proof.
  apply (strip_vmware_secrets_password_kept _ [KStr "substrate"]
           (mk_state (windows_spec "administrator" (JStr "s3cret")) [] [] [])
           [(KStr "password",
             JDict [(KStr "name", JStr "administrator");
                    (KStr "value", JStr "s3cret")])]
           [(KStr "name", JStr "administrator"); (KStr "value", JStr "s3cret")]
           "administrator" [(KStr "administrator", JStr "s3cret")]
           (JStr "s3cret")); reflexivity.
Defined.

(** ** [strip_secrets] without decompiled secrets *)

(** With a list for [decompiled_secrets], its default [[]] in particular,
    no context has recorded secrets: the lookup answers the empty dict, or
    raises at [decompiled_secrets.get] when the list holds the context. *)
Lemma get_secrets_from_context_list l context f :
  get_secrets_from_context (JList l) context = Ok f → f = JDict [].
Proof.
  unfold get_secrets_from_context. cbn [py_contains rbind].
  destruct (existsb _ l); cbn [py_get]; congruence.
Qed.

(** Against no recorded secrets every name counts as modified. *)
Lemma is_secret_modified_empty name value b :
  is_secret_modified (JDict []) name value = Ok b → b = true.
Proof.
  unfold is_secret_modified, py_contains.
  destruct (to_key name); cbn; congruence.
Qed.

(** A computation that appends nothing to [not_stripped_secrets]. *)
Definition strips_all {A} (m : M A) : Prop :=
  ∀ s, not_stripped_secrets (m s).2 = not_stripped_secrets s.

Lemma strips_all_ret {A} (x : A) : strips_all (ret x).
Proof. done. Qed.

Lemma strips_all_raise {A} e : strips_all (@raise state A e).
Proof. done. Qed.

Lemma strips_all_lift {A} (r : result A) : strips_all (lift r).
Proof. done. Qed.

Lemma strips_all_deref p : strips_all (deref p).
Proof. intros s. unfold deref. by destruct (get_at p (resources s)). Qed.

Lemma strips_all_bind {A B} (m : M A) (k : A → M B) :
  strips_all m → (∀ x, strips_all (k x)) → strips_all (bind m k).
Proof.
  intros Hm Hk s. unfold bind. specialize (Hm s).
  destruct (m s) as [[x|e] s1]; simpl in *; [|done]. by rewrite Hk.
Qed.

(** The continuation of a pure step only runs on the value it returned. *)
Lemma strips_all_bind_lift {A B} (r : result A) (k : A → M B) :
  (∀ x, r = Ok x → strips_all (k x)) → strips_all (bind (lift r) k).
Proof.
  intros Hk s. unfold bind, lift. destruct r as [x|e]; [|done]. by apply Hk.
Qed.

Lemma strips_all_for_each {A} (l : list A) (body : A → M unit) :
  (∀ x, strips_all (body x)) → strips_all (for_each l body).
Proof.
  intros Hb. induction l as [|x l IH]; simpl; [done|].
  by apply strips_all_bind.
Qed.

Lemma strips_all_for_each_until {A} (l : list A) (body : A → M bool) :
  (∀ x, strips_all (body x)) → strips_all (for_each_until l body).
Proof.
  intros Hb. induction l as [|x l IH]; simpl; [done|].
  apply strips_all_bind; [done|]. by intros [].
Qed.

Lemma strips_all_setitem_at p k v : strips_all (setitem_at p k v).
Proof.
  intros s. unfold setitem_at, bind, deref.
  by destruct (get_at p (resources s)) as [[]|].
Qed.

Lemma strips_all_pop_at p k dflt : strips_all (pop_at p k dflt).
Proof.
  intros s. unfold pop_at, bind, deref.
  destruct (get_at p (resources s)) as [[| | | | |d]|]; try done.
  destruct (dict_lookup k d); [done|]. by destruct dflt.
Qed.

Lemma strips_all_secret_map_set name v : strips_all (secret_map_set name v).
Proof.
  intros s. unfold secret_map_set, bind, lift. by destruct (to_key name).
Qed.

Lemma strips_all_secret_variables_append e :
  strips_all (secret_variables_append e).
Proof. done. Qed.

Ltac strips_all_step :=
  lazymatch goal with
  | |- strips_all (bind (lift (get_secrets_from_context (JList _) _)) _) =>
      let H := fresh in
      apply strips_all_bind_lift; intros ? H;
      apply get_secrets_from_context_list in H; subst
  | |- strips_all (bind (lift (is_secret_modified (JDict []) _ _)) _) =>
      let H := fresh in
      apply strips_all_bind_lift; intros ? H;
      apply is_secret_modified_empty in H; subst; cbv iota
  | |- strips_all (bind _ _) => apply strips_all_bind; [|intros ?]
  | |- strips_all (ret _) => apply strips_all_ret
  | |- strips_all (raise _) => apply strips_all_raise
  | |- strips_all (lift _) => apply strips_all_lift
  | |- strips_all (deref _) => apply strips_all_deref
  | |- strips_all (secret_map_set _ _) => apply strips_all_secret_map_set
  | |- strips_all (secret_variables_append _) =>
      apply strips_all_secret_variables_append
  | |- strips_all (for_each _ _) => apply strips_all_for_each; intros ?
  | |- strips_all (for_each_until _ _) =>
      apply strips_all_for_each_until; intros ?
  | |- strips_all (setitem_at _ _ _) => apply strips_all_setitem_at
  | |- strips_all (pop_at _ _ _) => apply strips_all_pop_at
  | |- strips_all (if ?b then _ else _) => destruct b
  | |- strips_all (match ?x with _ => _ end) => destruct x
  end.

Section strip_secrets_of_list.

Variable l : list json.

Lemma strip_variable_strips_all path_list ptr f i :
  strips_all (strip_variable (JDict []) path_list ptr f i).
Proof.
  unfold strip_variable, strip_secret_value, strip_options_auth. cbv zeta.
  repeat strips_all_step.
Qed.

Lemma strip_entity_secret_variables_strips_all path_list ptr f ctx :
  strips_all (strip_entity_secret_variables (JList l) path_list ptr f ctx).
Proof.
  unfold strip_entity_secret_variables.
  apply strips_all_bind; [apply strips_all_deref|intros obj].
  apply strips_all_bind; [repeat strips_all_step|intros context].
  repeat strips_all_step. apply strip_variable_strips_all.
Qed.

Lemma strip_action_task_strips_all tpath tptr ctx :
  strips_all (strip_action_task (JList l) tpath tptr ctx).
Proof.
  unfold strip_action_task. cbv zeta.
  repeat first [apply strip_entity_secret_variables_strips_all
               |strips_all_step].
Qed.

Lemma strip_action_strips_all path_list ptr ctx a :
  strips_all (strip_action (JList l) path_list ptr ctx a).
Proof.
  unfold strip_action. cbv zeta.
  repeat first [apply strip_entity_secret_variables_strips_all
               |apply strip_action_task_strips_all
               |strips_all_step].
Qed.

Lemma strip_authentication_secret_variables_strips_all path_list ptr obj ctx :
  strips_all
    (strip_authentication_secret_variables (JList l) path_list ptr obj ctx).
Proof.
  unfold strip_authentication_secret_variables. cbv zeta.
  repeat strips_all_step.
Qed.

Lemma strip_runbook_task_strips_all path_list ptr ctx t :
  strips_all (strip_runbook_task (JList l) path_list ptr ctx t).
Proof.
  unfold strip_runbook_task. cbv zeta.
  repeat first [apply strip_entity_secret_variables_strips_all
               |apply strip_authentication_secret_variables_strips_all
               |strips_all_step].
Qed.

Lemma strip_all_secret_variables_strips_all path_list ptr :
  strips_all (strip_all_secret_variables (JList l) path_list ptr).
Proof.
  unfold strip_all_secret_variables, strip_action_secret_variables,
    strip_runbook_secret_variables. cbv zeta.
  repeat first [apply strip_entity_secret_variables_strips_all
               |apply strip_authentication_secret_variables_strips_all
               |apply strip_action_strips_all
               |apply strip_runbook_task_strips_all
               |strips_all_step].
Qed.

Lemma strip_secrets_strips_all object_lists objects :
  strips_all (strip_secrets (JList l) object_lists objects).
Proof.
  unfold strip_secrets, strip_credentials, strip_credential,
    strip_endpoint_auth, strip_object_list, strip_object,
    strip_all_secret_variables_absent. cbv zeta.
  repeat first [apply strip_all_secret_variables_strips_all
               |strips_all_step].
Qed.

End strip_secrets_of_list.

(** X10. When [decompiled_secrets] is a list, as its default [[]] is,
    [strip_secrets] appends nothing to [not_stripped_secrets]: every secret
    it tests counts as modified, so the list is after the call what it was
    before, whatever the payload holds and whether the call returns or
    raises. *)
Theorem strip_secrets_list_strips_all l object_lists objects s :
  not_stripped_secrets (strip_secrets (JList l) object_lists objects s).2
  = not_stripped_secrets s.
Proof. apply strip_secrets_strips_all. Qed.

(** X11. A payload whose first credential has a [secret] without
    [value], as a credential that [strip_secrets] has stripped has, makes
    [strip_secrets] raise [KeyError] at [cred["secret"]["value"]] before
    anything is written: the payload and the three collections are as
    before the call.  A stripped payload cannot be stripped again. *)
Theorem strip_secrets_stripped_credential ds object_lists objects s d cred rest
    name sd f :
  resources s = JDict d →
  dict_lookup "credential_definition_list" d
  = Some (JList (JDict cred :: rest)) →
  dict_lookup "name" cred = Some name →
  dict_lookup "secret" cred = Some (JDict sd) →
  dict_lookup "value" sd = None →
  get_secrets_from_context ds "credential_definition_list" = Ok f →
  strip_secrets ds object_lists objects s = (Raise (builtin KeyError), s).
Proof.
  intros Hres Hcreds Hname Hsecret Hvalue Hf.
  apply wp_eq. unfold strip_secrets, strip_credentials.
  do 3 wp_step. cbn [get_at]. rewrite Hres.
  do 2 wp_step. cbn [py_get]. rewrite Hcreds. cbn [from_option id].
  do 2 wp_step. rewrite Hf.
  do 2 wp_step. cbn [py_or truthy iter_len length indices seq fmap list_fmap].
  cbn [for_each]. change (Z.of_nat 0) with 0%Z.
  unfold strip_credential. cbv zeta.
  do 3 wp_step. rewrite Hres. cbn [get_at child]. rewrite Hcreds.
  cbn [get_at child]. rewrite decide_True by done. change (Z.to_nat 0) with 0%nat. cbn [lookup list_lookup get_at].
  do 2 wp_step. cbn [py_getitem_key]. rewrite Hname.
  do 2 wp_step. rewrite Hsecret.
  do 2 wp_step. cbn [py_getitem_key]. rewrite Hvalue. done.
Qed.

Lemma strip_secrets_stripped_credential_witness :
  strip_secrets (JList []) ["service_definition_list"] [] example_stripped
  = (Raise (builtin KeyError), example_stripped).
Proof.
  eapply (strip_secrets_stripped_credential (JList [])
            ["service_definition_list"] [] example_stripped _
            [(KStr "name", JStr "cred1"); (KStr "secret", attrs_placeholder)]
            [] (JStr "cred1")); reflexivity.
Defined.

(** ** [update_vm_image_config]: disk indices below 1 *)

Section update_vm_image_config_indices.

Variable IMAGE_TYPES : json.

(** The bound check [disk_ind > len(disk_list)] lets every index below 1
    through; [disk_list[disk_ind - 1]] then counts from the end. *)
Lemma update_vm_image_below_one s disks disk_ind img Q :
  has_disks s disks → (disk_ind ≤ 0)%Z →
  wp (disk <- lift (py_getitem_key (JList disks) (KInt (disk_ind - 1))) ;;
      has_ref <- lift (py_contains (JStr "data_source_reference") disk) ;;
      if negb has_ref then
        raise (raised ValueError
                 ("unable to set downloadable image in disk "
                    +:+ pretty disk_ind))
      else
        pkg <- lift (img_compile img) ;;
        vm_image_type <-
          lift (rbind (rbind (py_getitem_key pkg "options")
                         (λ o, py_getitem_key o "resources"))
                  (λ r, py_getitem_key r "image_type")) ;;
        device_type <-
          lift (rbind (py_getitem_key disk "device_properties")
                  (λ p, py_getitem_key p "device_type")) ;;
        disk_img_type <- lift (py_getitem IMAGE_TYPES device_type) ;;
        if negb (py_eqb vm_image_type disk_img_type) then
          raise (raised TypeError
                   ("image type mismatch in disk " +:+ pretty disk_ind))
        else
          reference <- lift (img_ref_compile img) ;;
          setitem_reached
            (disk_list_loc ++ [canon_key (JList disks) (KInt (disk_ind - 1))])
            disk "data_source_reference" reference) Q s →
  wp (update_vm_image IMAGE_TYPES (disk_ind, img)) Q s.
Proof.
  intros Hdisks Hind HQ. unfold update_vm_image. cbn [fst snd].
  wp_step. unfold wp at 1.
  rewrite (read_disk_list_has_disks _ _ Hdisks). cbn [fst snd].
  do 2 wp_step. cbn [py_len].
  rewrite (proj2 (Z.ltb_ge _ _)) by lia. exact HQ.
Qed.

(** X12. A disk index of 0 or below passes the bound check of
    [update_vm_image_config] and addresses a disk counted from the end
    ([disk_list[disk_ind - 1]]): for [-len(disk_list) < disk_ind <= 0] the
    disk at position [len(disk_list) + disk_ind - 1] is the one tested
    and, when it has the key and the image types agree, the one whose
    [data_source_reference] is replaced; index 0 writes the last disk.
    The call goes on with the remaining entries. *)
Theorem update_vm_image_config_wraps s disks disk_ind img rest dd vm_type
    disk_type reference :
  has_disks s disks →
  (- Z.of_nat (length disks) < disk_ind ≤ 0)%Z →
  disks !! Z.to_nat (Z.of_nat (length disks) + disk_ind - 1)
  = Some (JDict dd) →
  is_Some (dict_lookup "data_source_reference" dd) →
  image_type_of img = Ok vm_type →
  disk_image_type IMAGE_TYPES (JDict dd) = Ok disk_type →
  py_eqb vm_type disk_type = true →
  img_ref_compile img = Ok reference →
  ∃ s',
    update_vm_image_config IMAGE_TYPES ((disk_ind, img) :: rest) s
    = update_vm_image_config IMAGE_TYPES rest s'
    ∧ has_disks s'
        (alter (dict_setitem "data_source_reference" reference)
           (Z.to_nat (Z.of_nat (length disks) + disk_ind - 1)) disks).
Proof.
  intros Hdisks Hind Hd [old Hdsr] Hvt Hdt Heq Href.
  set (pos := Z.to_nat (Z.of_nat (length disks) + disk_ind - 1)) in *.
  assert (Hnorm : norm_index (length disks) (disk_ind - 1) = Some pos).
  { unfold norm_index. rewrite decide_False by lia.
    rewrite decide_True by lia. unfold pos. do 2 f_equal. lia. }
  set (s' := set_resources
               (alter_at (dict_setitem "data_source_reference" reference)
                  (disk_list_loc ++ [KInt (Z.of_nat pos)])) s).
  assert (Hdisks' : has_disks s'
            (alter (dict_setitem "data_source_reference" reference) pos disks)).
  { unfold has_disks, s'. cbn [resources set_resources].
    rewrite alter_at_app, get_at_alter_at, Hdisks.
    cbn [fmap option_fmap option_map alter_at].
    rewrite decide_True by lia. by rewrite Nat2Z.id. }
  assert (Hstep : update_vm_image IMAGE_TYPES (disk_ind, img) s = (Ok (), s')).
  { apply wp_eq, update_vm_image_below_one with (disks := disks); [done|lia|].
    do 2 wp_step. cbn [py_getitem_key canon_key]. rewrite Hnorm, Hd.
    do 2 wp_step. cbn [py_contains to_key rbind]. unfold dict_mem.
    rewrite Hdsr. cbn [negb].
    unfold image_type_of in Hvt. unfold disk_image_type in Hdt.
    destruct (img_compile img) as [pkg|]; [|done]. cbn [rbind] in Hvt.
    destruct (rbind (py_getitem_key (JDict dd) "device_properties")
                (λ p, py_getitem_key p "device_type")) as [device_type|];
      [|done].
    cbn [rbind] in Hdt.
    do 4 wp_step. rewrite Hvt. do 4 wp_step. rewrite Hdt, Heq.
    cbn [negb]. do 2 wp_step. rewrite Href. cbn [setitem_reached].
    eapply wp_setitem_at; [|done].
    rewrite get_at_app, Hdisks. cbn [get_at child].
    rewrite decide_True by lia. by rewrite Nat2Z.id, Hd. }
  exists s'. split; [|done].
  rewrite (update_vm_image_config_has_disks _ _ _ _ Hdisks),
    (update_vm_image_config_has_disks _ _ _ _ Hdisks').
  cbn [for_each]. unfold bind at 1. by rewrite Hstep.
Qed.

(** X13. A disk index of [-len(disk_list)] or below makes
    [update_vm_image_config] raise [IndexError] at
    [disk_list[disk_ind - 1]], not the [ValueError] for an invalid disk
    address; the spec is left as it was. *)
Theorem update_vm_image_config_below_range s disks disk_ind img rest :
  has_disks s disks →
  (disk_ind ≤ - Z.of_nat (length disks))%Z →
  update_vm_image_config IMAGE_TYPES ((disk_ind, img) :: rest) s
  = (Raise (builtin IndexError), s).
Proof.
  intros Hdisks Hind.
  rewrite (update_vm_image_config_has_disks _ _ _ _ Hdisks).
  cbn [for_each].
  assert (update_vm_image IMAGE_TYPES (disk_ind, img) s
          = (Raise (builtin IndexError), s)) as Hstep.
  { apply wp_eq, update_vm_image_below_one with (disks := disks); [done|lia|].
    do 2 wp_step. cbn [py_getitem_key]. unfold norm_index.
    rewrite !decide_False by lia. done. }
  unfold bind. by rewrite Hstep.
Qed.

End update_vm_image_config_indices.

Lemma update_vm_image_config_wraps_witness :
  ∃ s',
    update_vm_image_config ahv_image_types
      [(0%Z, example_image "ISO_IMAGE" "installer")]
      (mk_state (example_spec [example_disk "DISK"; example_disk "CDROM"])
         [] [] [])
    = update_vm_image_config ahv_image_types [] s'
    ∧ has_disks s'
        (alter (dict_setitem "data_source_reference"
                  (JDict [(KStr "kind", JStr "app_package");
                          (KStr "name", JStr "installer")]))
           (Z.to_nat (Z.of_nat (length [example_disk "DISK";
                                         example_disk "CDROM"]) + 0 - 1))
           [example_disk "DISK"; example_disk "CDROM"]).
Proof.
  eapply (update_vm_image_config_wraps ahv_image_types
            (mk_state (example_spec [example_disk "DISK"; example_disk "CDROM"])
               [] [] [])
            [example_disk "DISK"; example_disk "CDROM"] 0
            (example_image "ISO_IMAGE" "installer") []
            _ (JStr "ISO_IMAGE") (JStr "ISO_IMAGE")).
  - reflexivity.
  - simpl. lia.
  - reflexivity.
  - by eexists.
  - reflexivity.
  - reflexivity.
  - reflexivity.
  - reflexivity.
Defined.

Lemma update_vm_image_config_below_range_witness :
  update_vm_image_config ahv_image_types
    [((-1)%Z, example_image "DISK_IMAGE" "centos_disk")]
    (mk_state (example_spec [example_disk "DISK"]) [] [] [])
  = (Raise (builtin IndexError),
     mk_state (example_spec [example_disk "DISK"]) [] [] []).
Proof.
  apply (update_vm_image_config_below_range ahv_image_types
           (mk_state (example_spec [example_disk "DISK"]) [] [] [])
           [example_disk "DISK"]); [reflexivity|simpl; lia].
Defined.

(** ** [get_provider_spec_string]: what the call does to the spec *)

Section get_provider_spec_string_frame.

Variable pdb_set_trace : M unit.
Variable AhvVmType_decompile : M unit.
Variable get_valid_identifier : json → result string.

(** The [uuid] of the image reference of a disk. *)
Definition disk_uuid_loc (i : Z) : loc :=
  disk_list_loc ++ [KInt i; KStr "data_source_reference"; KStr "uuid"].

Lemma collect_disk_package_preserves r0 ind acc :
  preserves (λ q, ∃ i, q = disk_uuid_loc i) r0
    (collect_disk_package get_valid_identifier ind acc).
Proof.
  unfold collect_disk_package. cbv zeta. repeat preserves_step.
  apply covered_here. exists ind. unfold disk_uuid_loc.
  by rewrite <- !(assoc_L (++)).
Qed.

(** X14. What the AHV branch of [get_provider_spec_string] does to the
    spec it is given: once the debugger session is resumed and
    [AhvVmType.decompile] has returned, the call only removes [uuid] from
    the [data_source_reference] of disks.  Every location that overlaps no
    [resources.disk_list[i].data_source_reference.uuid] holds after the
    call what it held after [decompile], whether the call returns or
    raises. *)
Theorem get_provider_spec_string_ahv_frame filename vm_images s s0 s1 p :
  pdb_set_trace s = (Ok (), s0) →
  AhvVmType_decompile s0 = (Ok (), s1) →
  (∀ i, diverge (disk_uuid_loc i) p) →
  get_at p
    (resources
       (get_provider_spec_string pdb_set_trace AhvVmType_decompile
          get_valid_identifier filename "AHV_VM" vm_images s).2)
  = get_at p (resources s1).
Proof.
  intros Hpdb Hdecompile Hp. unfold get_provider_spec_string.
  change (String.eqb "AHV_VM" "AHV_VM") with true. cbv iota.
  unfold bind at 1. rewrite Hpdb. unfold bind at 1. rewrite Hdecompile.
  match goal with
  | |- get_at p (resources (?m s1).2) = _ =>
      assert (preserves (λ q, ∃ i, q = disk_uuid_loc i) (resources s1) m)
        as Hm
  end.
  { repeat first [apply collect_disk_package_preserves | preserves_step]. }
  apply (Hm s1); [done|]. intros q [i ->]. apply Hp.
Qed.

End get_provider_spec_string_frame.

Lemma get_provider_spec_string_ahv_frame_witness :
  (∀ i, diverge (disk_uuid_loc i)
          (disk_list_loc ++ [KInt 2; KStr "data_source_reference";
                             KStr "name"]))
  ∧ get_at (disk_list_loc ++ [KInt 2; KStr "data_source_reference";
                              KStr "name"])
      (resources
         (get_provider_spec_string (ret ()) (ret ()) identifier_of_name
            "specs/vm_1.yaml" "AHV_VM" (JList []) (spec_state ahv_spec)).2)
    = get_at (disk_list_loc ++ [KInt 2; KStr "data_source_reference";
                                KStr "name"])
        (resources (spec_state ahv_spec)).
Proof.
  assert (∀ i, diverge (disk_uuid_loc i)
            (disk_list_loc ++ [KInt 2; KStr "data_source_reference";
                               KStr "name"])) as H.
  { intros i. unfold disk_uuid_loc. apply diverge_app_same. solve_diverge. }
  split; [exact H|].
  exact (get_provider_spec_string_ahv_frame (ret ()) (ret ())
           identifier_of_name "specs/vm_1.yaml" (JList [])
           (spec_state ahv_spec) (spec_state ahv_spec) (spec_state ahv_spec)
           _ eq_refl eq_refl H).
Defined.

(** The [uuid] of the disk created from an app package is gone after the
    call. *)
Lemma get_provider_spec_string_ahv_uuid_removed :
  get_at (disk_uuid_loc 2)
    (resources
       (get_provider_spec_string (ret ()) (ret ()) identifier_of_name
          "specs/vm_1.yaml" "AHV_VM" (JList []) (spec_state ahv_spec)).2)
  = None
  ∧ get_at (disk_uuid_loc 2) ahv_spec = Some (JStr "77c2").
Proof. done. Qed.

(** ** [calm/dsl/providers/plugins/ahv_vm/main.py]: [AhvNew.categories] *)

(** [AhvNew.CATEGORIES_PAYLOAD] as the class statement creates it. *)
Definition CATEGORIES_PAYLOAD_at_import : json :=
  JDict [
    (KStr "entity_type", JStr "category");
    (KStr "filter_criteria",
     JStr "name!=CalmApplication;name!=CalmDeployment;name!=CalmService;name!=CalmPackage;name!=CalmProject;name!=CalmUser;name!=CalmVmUniqueIdentifier;name!=CalmClusterUuid");
    (KStr "grouping_attribute", JStr "abac_category_key");
    (KStr "group_sort_attribute", JStr "name");
    (KStr "group_count", JInt 60);
    (KStr "group_attributes",
     JList [JDict [(KStr "attribute", JStr "name");
                   (KStr "ancestor_entity_type", JStr "abac_category_key")]]);
    (KStr "group_member_count", JInt 1000);
    (KStr "group_member_offset", JInt 0);
    (KStr "group_member_sort_attribute", JStr "value");
    (KStr "group_member_attributes",
     JList [JDict [(KStr "attribute", JStr "value")]]);
    (KStr "query_name", JStr "prism:CategoriesQueryModel")].

(** [v[k1][k2]...] *)
Definition py_getitems (v : json) (ks : list key) : result json :=
  foldl (λ r k, rbind r (λ o, py_getitem_key o k)) (Ok v) ks.

(** The inner loop of [categories]:
    [for entity in group["entity_results"]: ... categories.append(...)]. *)
Definition group_categories (group : json) : result (list json) :=
  rbind (py_getitems group
           [KStr "group_summaries"; KStr "sum:name"; KStr "values"; KInt 0;
            KStr "values"; KInt 0]) (λ key,
  rbind (rbind (py_getitem_key group "entity_results") py_iter) (λ entities,
    rmap (λ entity,
      rbind (py_getitems entity
               [KStr "data"; KInt 0; KStr "values"; KInt 0; KStr "values";
                KInt 0]) (λ value,
        Ok (JDict [(KStr "key", key); (KStr "value", value)]))) entities)).

Section ahv_new.

(** The server, with the two calls [categories] makes, and the text
    [str.format] gives a value. *)
Variable world : Type.
Variable groups_create : json → world → response * world.
Variable groups_list : json → world → response * world.
Variable py_format : json → string.

(** The dictionary that the class attribute [CATEGORIES_PAYLOAD] names,
    one object for all instances and all calls, and the server. *)
Record ahv_state : Type := mk_ahv_state {
  CATEGORIES_PAYLOAD : json;
  server : world;
}.

Definition read_payload : MS ahv_state json :=
  λ s, (Ok (CATEGORIES_PAYLOAD s), s).

(** [payload[k] = v] *)
Definition payload_setitem (k : key) (v : json) : MS ahv_state unit :=
  λ s, match CATEGORIES_PAYLOAD s with
       | JDict d => (Ok (), mk_ahv_state (JDict (dict_set k v d)) (server s))
       | _ => (Raise (builtin TypeError), s)
       end.

Definition server_call (f : world → response * world)
    : MS ahv_state response :=
  λ s, match f (server s) with
       | (r, w) => (Ok r, mk_ahv_state (CATEGORIES_PAYLOAD s) w)
       end.

(** [AhvNew.categories(host_pc=..., account_uuid=...)] *)
Definition categories (host_pc account_uuid : json) : MS ahv_state json :=
  payload <- read_payload ;;
  r <- (if truthy host_pc then server_call (groups_create payload)
        else
          (if truthy account_uuid then
             filter_criteria <- lift (py_getitem_key payload "filter_criteria") ;;
             filter_criteria <-
               lift (py_str_add filter_criteria
                       (JStr (";account_uuid==" +:+ py_format account_uuid))) ;;
             payload_setitem "filter_criteria" filter_criteria
           else ret ()) ;;
          payload <- read_payload ;;
          server_call (groups_list payload)) ;;
  if truthy (err r) then
    code <- lift (py_getitem_key (err r) "code") ;;
    error <- lift (py_getitem_key (err r) "error") ;;
    raise (raised Exception
             ("[" +:+ py_format code +:+ "] - " +:+ py_format error))
  else
    res <- lift (response_json r) ;;
    groups <- lift (rbind (py_getitem_key res "group_results") py_iter) ;;
    per_group <- lift (rmap group_categories groups) ;;
    ret (JList (concat per_group)).

(** The state after a series of calls, one for each account, whether they
    return or raise. *)
Definition after_categories_calls (account_uuids : list json) (s : ahv_state)
    : ahv_state :=
  foldl (λ s account_uuid, (categories (JBool false) account_uuid s).2) s
    account_uuids.

Definition account_filter (account_uuid : json) : string :=
  ";account_uuid==" +:+ py_format account_uuid.

End ahv_new.

Lemma dict_set_set k v w d : dict_set k w (dict_set k v d) = dict_set k w d.
Proof.
  induction d as [|[k' v'] d IH]; simpl.
  - by rewrite decide_True.
  - destruct (decide (k = k')) as [->|Hne]; simpl.
    + by rewrite decide_True.
    + rewrite decide_False by done. by rewrite IH.
Qed.

Lemma dict_set_same k v d : dict_lookup k d = Some v → dict_set k v d = d.
Proof.
  induction d as [|[k' v'] d IH]; simpl; [done|].
  destruct (decide (k = k')) as [->|Hne].
  - by intros [= ->].
  - intros Hd. by rewrite IH.
Qed.

Section categories_properties.

Variable world : Type.
Variable groups_create : json → world → response * world.
Variable groups_list : json → world → response * world.
Variable py_format : json → string.

Lemma wp_read_payload (Q : result json → ahv_state world → Prop) s :
  Q (Ok (CATEGORIES_PAYLOAD world s)) s → wp (read_payload world) Q s.
Proof. done. Qed.

Lemma wp_payload_setitem k v (Q : result () → ahv_state world → Prop) d w :
  Q (Ok ()) (mk_ahv_state world (JDict (dict_set k v d)) w) →
  wp (payload_setitem world k v) Q (mk_ahv_state world (JDict d) w).
Proof. done. Qed.

Lemma wp_server_call f (Q : result response → ahv_state world → Prop) s :
  Q (Ok (f (server world s)).1)
    (mk_ahv_state world (CATEGORIES_PAYLOAD world s) (f (server world s)).2) →
  wp (server_call world f) Q s.
Proof. unfold wp, server_call. by destruct (f (server world s)). Qed.

(** One call for an account: the filter of the shared payload has grown
    by the account's clause when the call ends, however it ends. *)
Lemma categories_account_filter account_uuid d f w :
  dict_lookup "filter_criteria" d = Some (JStr f) →
  truthy account_uuid = true →
  CATEGORIES_PAYLOAD world
    (categories world groups_create groups_list py_format (JBool false)
       account_uuid (mk_ahv_state world (JDict d) w)).2
  = JDict (dict_set "filter_criteria"
             (JStr (f +:+ account_filter py_format account_uuid)) d).
Proof.
  intros Hf Hu.
  change (wp (categories world groups_create groups_list py_format
                (JBool false) account_uuid)
            (λ _ s', CATEGORIES_PAYLOAD world s'
                     = JDict (dict_set "filter_criteria"
                                (JStr (f +:+ account_filter py_format
                                               account_uuid)) d))
            (mk_ahv_state world (JDict d) w)).
  unfold categories. wp_step. apply wp_read_payload.
  cbn [CATEGORIES_PAYLOAD truthy]. rewrite Hu.
  do 4 wp_step. cbn [py_getitem_key]. rewrite Hf.
  do 2 wp_step. cbn [py_str_add]. apply wp_payload_setitem.
  wp_step. apply wp_read_payload. apply wp_server_call.
  cbn [CATEGORIES_PAYLOAD server].
  destruct (groups_list _ w) as [r w']. cbn [fst snd].
  destruct (truthy (err r)).
  - do 2 wp_step. destruct (py_getitem_key (err r) "code"); [|done].
    do 2 wp_step. destruct (py_getitem_key (err r) "error"); [|done].
    by wp_step.
  - do 2 wp_step. destruct (response_json r); [|done].
    do 2 wp_step. destruct (rbind _ _); [|done].
    do 2 wp_step. destruct (rmap _ _); [|done]. by wp_step.
Qed.

(** X15. [AhvNew.categories] writes the account clause into the class
    attribute [CATEGORIES_PAYLOAD] itself, which every call starts from:
    after a series of calls with [account_uuid], whether they return or
    raise, the [filter_criteria] of the shared payload is the one it had
    before them followed by [;account_uuid==<uuid>] for each call, in
    order.  The filter a call sends carries the accounts of all the calls
    before it. *)
Theorem categories_filter_accumulates account_uuids d f w :
  dict_lookup "filter_criteria" d = Some (JStr f) →
  Forall (λ account_uuid, truthy account_uuid = true) account_uuids →
  CATEGORIES_PAYLOAD world
    (after_categories_calls world groups_create groups_list py_format
       account_uuids (mk_ahv_state world (JDict d) w))
  = JDict (dict_set "filter_criteria"
             (JStr (f +:+ String.concat ""
                            (account_filter py_format <$> account_uuids)))
             d).
Proof.
  intros Hf Hall. revert d f w Hf.
  induction Hall as [|u us Hu _ IH]; intros d f w Hf.
  - cbn [after_categories_calls foldl fmap list_fmap String.concat
         CATEGORIES_PAYLOAD].
    by rewrite string_app_nil_r, dict_set_same.
  - unfold after_categories_calls. cbn [foldl].
    pose proof (categories_account_filter u d f w Hf Hu) as Hstep.
    destruct (categories world groups_create groups_list py_format
                (JBool false) u (mk_ahv_state world (JDict d) w)).2
      as [p w'] eqn:Hrun.
    cbn [CATEGORIES_PAYLOAD] in Hstep. subst p.
    etransitivity;
      [apply (IH (dict_set "filter_criteria"
                    (JStr (f +:+ account_filter py_format u)) d)
                (f +:+ account_filter py_format u) w'), dict_lookup_set_eq|].
    rewrite dict_set_set. do 3 f_equal.
    rewrite fmap_cons.
    destruct us as [|u' us]; cbn [fmap list_fmap String.concat].
    + by rewrite string_app_nil_r.
    + rewrite string_app_assoc. reflexivity.
Qed.

End categories_properties.

(** A server that records the payloads it is sent and answers with no
    groups. *)
Definition no_groups (payload : json) (seen : list json)
    : response * list json :=
  (mk_response (Some (JDict [(KStr "group_results", JList [])])) JNone,
   seen ++ [payload]).

Definition categories_base_filter : string :=
  "name!=CalmApplication;name!=CalmDeployment;name!=CalmService;name!=CalmPackage;name!=CalmProject;name!=CalmUser;name!=CalmVmUniqueIdentifier;name!=CalmClusterUuid".

Lemma categories_filter_accumulates_witness :
  get_at [KStr "filter_criteria"]
    (CATEGORIES_PAYLOAD (list json)
       (after_categories_calls (list json) no_groups no_groups name_of_value
          [JStr "acc-1"; JStr "acc-2"]
          (mk_ahv_state (list json) CATEGORIES_PAYLOAD_at_import [])))
  = Some (JStr (categories_base_filter
                  +:+ ";account_uuid==acc-1;account_uuid==acc-2")).
Proof.
  unfold CATEGORIES_PAYLOAD_at_import.
  rewrite (categories_filter_accumulates (list json) no_groups no_groups
             name_of_value [JStr "acc-1"; JStr "acc-2"] _
             categories_base_filter []);
    [reflexivity|reflexivity|by repeat constructor].
Defined.

(** The second of two calls sends the clause of the first account too. *)
Lemma categories_second_request :
  let s1 := (categories (list json) no_groups no_groups name_of_value
               (JBool false) (JStr "acc-1")
               (mk_ahv_state (list json) CATEGORIES_PAYLOAD_at_import [])).2 in
  let s2 := (categories (list json) no_groups no_groups name_of_value
               (JBool false) (JStr "acc-2") s1).2 in
  (λ p, get_at [KStr "filter_criteria"] p) <$> server (list json) s2
  = [Some (JStr (categories_base_filter +:+ ";account_uuid==acc-1"));
     Some (JStr (categories_base_filter
                   +:+ ";account_uuid==acc-1;account_uuid==acc-2"))].
Proof. reflexivity. Qed.

(** ** [calm/dsl/providers/plugins/ahv_vm/main.py]: [find_schema] *)

(** [for optionDict in schema["anyOf"]:
      if optionDict["title"] == option[indOpt]: resDict = optionDict; break]
    with [resDict = None] before the loop. *)
Fixpoint find_title (anyOf option : list json) (indOpt : nat)
    : result json :=
  match anyOf with
  | [] => Ok JNone
  | optionDict :: rest =>
      rbind (py_getitem_key optionDict "title") (λ title,
        match option !! indOpt with
        | Some wanted =>
            if py_eqb title wanted then Ok optionDict
            else find_title rest option indOpt
        | None => Raise (builtin IndexError)
        end)
  end.

(** How a run of [find_schema] stands after a number of rounds of its
    [while] loop: it has ended, or it is still in the loop. *)
Inductive progress : Type :=
  | Ended (r : result json)
  | Running.

Definition printed (line : string) (run : list string * progress)
    : list string * progress :=
  (line :: run.1, run.2).

(** The [while] loop of [find_schema], for at most [rounds] rounds; the
    first component is what [print] has written. *)
Fixpoint find_schema_loop (rounds : nat) (schema : json)
    (path option : list json) (indPath indOpt : nat)
    : list string * progress :=
  if negb (indPath <? length path)%nat then ([], Ended (Ok schema))
  else
    match rounds with
    | O => ([], Running)
    | S rounds =>
        match py_get schema "anyOf" JNone with
        | Raise e => ([], Ended (Raise e))
        | Ok JNone =>
            match py_getitem_key schema "type" with
            | Raise e => ([], Ended (Raise e))
            | Ok ty =>
                if py_eqb ty (JStr "array") then
                  match py_getitem_key schema "items" with
                  | Raise e => ([], Ended (Raise e))
                  | Ok schema =>
                      find_schema_loop rounds schema path option indPath indOpt
                  end
                else
                  match rbind (py_getitem_key schema "properties") (λ schema,
                          py_getitem schema (default JNone (path !! indPath)))
                  with
                  | Raise e => ([], Ended (Raise e))
                  | Ok schema =>
                      find_schema_loop rounds schema path option (S indPath)
                        indOpt
                  end
            end
        | Ok _ =>
            match rbind (rbind (py_getitem_key schema "anyOf") py_iter)
                    (λ anyOf, find_title anyOf option indOpt) with
            | Raise e => ([], Ended (Raise e))
            | Ok resDict =>
                if negb (truthy resDict) then
                  printed "Not a valid key"
                    (find_schema_loop rounds schema path option indPath indOpt)
                else
                  find_schema_loop rounds resDict path option indPath
                    (S indOpt)
            end
        end
    end.

(** [find_schema(schema, path, option)] *)
Definition find_schema (rounds : nat) (schema : json) (path option : list json)
    : list string * progress :=
  if (length path =? 0)%nat then ([], Ended (Ok (JDict [])))
  else find_schema_loop rounds schema path option 0 0.

(** A round on an [anyOf] none of whose titles is the option looked for
    prints and changes nothing. *)
Lemma find_title_unmatched opts option indOpt wanted :
  option !! indOpt = Some wanted →
  Forall (λ o, ∃ t, py_getitem_key o "title" = Ok t
                    ∧ py_eqb t wanted = false) opts →
  find_title opts option indOpt = Ok JNone.
Proof.
  intros Hopt. induction 1 as [|o opts (t & Ht & Hne) _ IH]; [done|].
  cbn [find_title]. rewrite Ht. cbn [rbind]. by rewrite Hopt, Hne.
Qed.

Lemma find_schema_loop_unmatched rounds sd opts path option indPath indOpt
    wanted :
  dict_lookup "anyOf" sd = Some (JList opts) →
  (indPath < length path)%nat →
  option !! indOpt = Some wanted →
  Forall (λ o, ∃ t, py_getitem_key o "title" = Ok t
                    ∧ py_eqb t wanted = false) opts →
  find_schema_loop rounds (JDict sd) path option indPath indOpt
  = (replicate rounds "Not a valid key", Running).
Proof.
  intros Hany Hlt Hopt Hopts.
  induction rounds as [|rounds IH]; cbn [find_schema_loop].
  - by rewrite (proj2 (Nat.ltb_lt _ _) Hlt).
  - rewrite (proj2 (Nat.ltb_lt _ _) Hlt). cbn [negb py_get py_getitem_key].
    rewrite Hany. cbn [from_option id rbind py_iter].
    rewrite (find_title_unmatched _ _ _ _ Hopt Hopts).
    cbn [truthy negb]. by rewrite IH.
Qed.

(** X16. [find_schema] does not return on an option that is not among
    the titles of an [anyOf]: for a non-empty path, after any number of
    rounds of the loop the call is still in the loop, on the same schema,
    and has printed [Not a valid key] once for each round. *)
Theorem find_schema_unmatched_option rounds sd opts path option wanted :
  dict_lookup "anyOf" sd = Some (JList opts) →
  path ≠ [] →
  option !! 0%nat = Some wanted →
  Forall (λ o, ∃ t, py_getitem_key o "title" = Ok t
                    ∧ py_eqb t wanted = false) opts →
  find_schema rounds (JDict sd) path option
  = (replicate rounds "Not a valid key", Running).
Proof.
  intros Hany Hpath Hopt Hopts. unfold find_schema.
  destruct path as [|k path]; [done|]. cbn [length Nat.eqb].
  apply (find_schema_loop_unmatched _ _ opts _ _ _ _ wanted); try done.
  simpl. lia.
Qed.

(** An object schema without alternatives: no [anyOf], or [None] for it,
    and a [type] other than ["array"]. *)
Definition plain_object (schema : json) : Prop :=
  ∃ sd ty, schema = JDict sd
    ∧ default JNone (dict_lookup "anyOf" sd) = JNone
    ∧ dict_lookup "type" sd = Some ty
    ∧ py_eqb ty (JStr "array") = false.

(** [r] is [schema["properties"][k1]["properties"][k2]...] for the
    components of [path], through plain objects. *)
Fixpoint follows (schema : json) (path : list json) (r : json) : Prop :=
  match path with
  | [] => r = schema
  | k :: rest =>
      plain_object schema
      ∧ ∃ next,
          rbind (py_getitem_key schema "properties") (λ p, py_getitem p k)
          = Ok next
          ∧ follows next rest r
  end.

Lemma find_schema_loop_follows rounds schema path option indPath indOpt r :
  follows schema (drop indPath path) r →
  (length path - indPath ≤ rounds)%nat →
  find_schema_loop rounds schema path option indPath indOpt
  = ([], Ended (Ok r)).
Proof.
  revert schema indPath.
  induction rounds as [|rounds IH]; intros schema indPath Hf Hlen.
  - cbn [find_schema_loop]. rewrite (proj2 (Nat.ltb_ge _ _)) by lia.
    rewrite drop_ge in Hf by lia. cbn in Hf. by subst.
  - cbn [find_schema_loop].
    destruct (decide (indPath < length path)%nat) as [Hlt|Hge].
    + rewrite (proj2 (Nat.ltb_lt _ _) Hlt). cbn [negb].
      destruct (lookup_lt_is_Some_2 path indPath Hlt) as [k Hk].
      rewrite (drop_S _ _ _ Hk) in Hf.
      destruct Hf as [(sd & ty & -> & Hany & Hty & Harr) (next & Hnext & Hf)].
      cbn [py_get]. rewrite Hany. cbn [py_getitem_key]. rewrite Hty, Harr.
      rewrite Hk. cbn [from_option id]. cbn [py_getitem_key] in Hnext.
      rewrite Hnext. apply IH; [done|lia].
    + rewrite (proj2 (Nat.ltb_ge _ _)) by lia.
      rewrite drop_ge in Hf by lia. cbn in Hf. by subst.
Qed.

(** X17. Through object schemas that have no [anyOf] and are not arrays,
    [find_schema] follows the path: for a non-empty path it returns
    [schema["properties"][path[0]]["properties"][path[1]]...] after as
    many rounds as the path has components, prints nothing and does not
    look at [option]. *)
Theorem find_schema_properties rounds schema path option r :
  path ≠ [] →
  follows schema path r →
  (length path ≤ rounds)%nat →
  find_schema rounds schema path option = ([], Ended (Ok r)).
Proof.
  intros Hpath Hf Hlen. unfold find_schema.
  destruct path as [|k path]; [done|]. cbn [length Nat.eqb].
  apply find_schema_loop_follows; [done|]. simpl in *. lia.
Qed.

Definition boot_schema : json :=
  JDict [(KStr "anyOf",
          JList [JDict [(KStr "title", JStr "DISK");
                        (KStr "type", JStr "object")];
                 JDict [(KStr "title", JStr "CDROM");
                        (KStr "type", JStr "object")]])].

Lemma find_schema_unmatched_option_witness :
  find_schema 3 boot_schema [JStr "device_type"] [JStr "NIC"]
  = (replicate 3 "Not a valid key", Running).
Proof.
  apply (find_schema_unmatched_option 3 _
           [JDict [(KStr "title", JStr "DISK"); (KStr "type", JStr "object")];
            JDict [(KStr "title", JStr "CDROM"); (KStr "type", JStr "object")]]
           _ _ (JStr "NIC")); [reflexivity|done|reflexivity|].
  repeat constructor; by eexists.
Defined.

Definition nic_schema : json :=
  JDict [(KStr "type", JStr "object");
         (KStr "properties",
          JDict [(KStr "nic",
                  JDict [(KStr "type", JStr "object");
                         (KStr "properties",
                          JDict [(KStr "ip",
                                  JDict [(KStr "type", JStr "string")])])])])].

Lemma find_schema_properties_witness :
  find_schema 2 nic_schema [JStr "nic"; JStr "ip"] []
  = ([], Ended (Ok (JDict [(KStr "type", JStr "string")]))).
Proof.
  apply find_schema_properties; [done| |simpl; lia].
  split; [by eexists _, _|]. eexists. split; [reflexivity|].
  split; [by eexists _, _|]. eexists. split; [reflexivity|]. reflexivity.
Defined.

(** ** [calm/dsl/api/util.py]: [vm_power_action_target_map] *)

(** A loop that updates a local dictionary and may raise. *)
Fixpoint rfold {A B} (body : B → A → result B) (l : list A) (acc : B)
    : result B :=
  match l with
  | [] => Ok acc
  | x :: l' => rbind (body acc x) (rfold body l')
  end.

Section power_action_maps.

(** The text [str.format] gives a value. *)
Variable py_format : json → string.

(** ["{}_{}_{}".format(entity_name, action_name, task_name)] *)
Definition task_ref_name (entity_name holder_name task_name : json) : string :=
  py_format entity_name +:+ "_" +:+ py_format holder_name +:+ "_"
    +:+ py_format task_name.

(** [task.get("type", "") == "CALL_RUNBOOK" and task.get("attrs", {})],
    as a condition. *)
Definition calls_runbook (task : json) : result bool :=
  rbind (py_get task "type" (JStr "")) (λ ty,
    if py_eqb ty (JStr "CALL_RUNBOOK")
    then rbind (py_get task "attrs" (JDict [])) (λ attrs, Ok (truthy attrs))
    else Ok false).

(** [task["attrs"]["runbook_reference"].get(field, "")] *)
Definition runbook_reference_field (task : json) (field : string)
    : result json :=
  rbind (rbind (py_getitem_key task "attrs")
           (λ attrs, py_getitem_key attrs "runbook_reference"))
    (λ ref, py_get ref field (JStr "")).

(** The body of [for task in runbook.get("task_definition_list", [])] in
    [_create_task_name_substrate_map]; the same statements stand under
    [action_list] and under [patch_list]. *)
Definition map_task_name (vm_power_action_uuid_substrate_map : dict)
    (entity_name holder_name : json) (task_name_substrate_map : dict)
    (task : json) : result dict :=
  rbind (py_get task "name" JNone) (λ task_name,
  rbind (calls_runbook task) (λ is_call,
    if is_call : bool then
      rbind (runbook_reference_field task "uuid") (λ uuid,
        if negb (truthy uuid) then Ok task_name_substrate_map
        else
          rbind (to_key uuid) (λ k,
            Ok (dict_set
                  (KStr (task_ref_name entity_name holder_name task_name))
                  (default (JStr "")
                     (dict_lookup k vm_power_action_uuid_substrate_map))
                  task_name_substrate_map)))
    else Ok task_name_substrate_map)).

(** The body of [for action in entity.get("action_list", [])] and of
    [for config in entity.get("patch_list", [])]. *)
Definition map_runbook_tasks (body : json → json → dict → json → result dict)
    (entity_name : json) (acc : dict) (holder : json) : result dict :=
  rbind (py_get holder "name" JNone) (λ holder_name,
  rbind (py_get holder "runbook" (JDict [])) (λ runbook,
    if negb (truthy runbook) then Ok acc
    else
      rbind (rbind (py_get runbook "task_definition_list" (JList [])) py_iter)
        (λ tasks, rfold (body entity_name holder_name) tasks acc))).

(** The body of [for entity in entity_list]: the tasks of the actions,
    then those of the patch configs. *)
Definition map_entity
    (action_body config_body : json → json → dict → json → result dict)
    (acc : dict) (entity : json) : result dict :=
  rbind (py_get entity "name" JNone) (λ entity_name,
  rbind (rbind (py_get entity "action_list" (JList [])) py_iter) (λ actions,
  rbind (rfold (map_runbook_tasks action_body entity_name) actions acc)
    (λ acc,
  rbind (rbind (py_get entity "patch_list" (JList [])) py_iter) (λ configs,
    rfold (map_runbook_tasks config_body entity_name) configs acc)))).

(** [_create_task_name_substrate_map(bp_payload, entity_type, **kwargs)];
    the two dictionaries are the ones the caller passes in [kwargs], the
    result is [task_name_substrate_map] as the call leaves it. *)
Definition _create_task_name_substrate_map (bp_payload : json)
    (entity_type : string) (vm_power_action_uuid_substrate_map : dict)
    (task_name_substrate_map : dict) : result dict :=
  rbind (rbind (py_getitems bp_payload
                  [KStr "spec"; KStr "resources"; KStr entity_type]) py_iter)
    (λ entity_list,
      rfold (map_entity (map_task_name vm_power_action_uuid_substrate_map)
               (map_task_name vm_power_action_uuid_substrate_map))
        entity_list task_name_substrate_map).

(** The body of the task loops of
    [_create_reference_runbook_substrate_map]; only the loop under
    [patch_list] has [if not rb_name: continue]. *)
Definition map_reference_runbook (skip_unnamed : bool)
    (task_name_substrate_map : dict) (entity_name holder_name : json)
    (reference_runbook_to_substrate_map : dict) (task : json) : result dict :=
  rbind (py_get task "name" JNone) (λ task_name,
  rbind (calls_runbook task) (λ is_call,
    if is_call : bool then
      rbind (runbook_reference_field task "name") (λ rb_name,
        if skip_unnamed && negb (truthy rb_name)
        then Ok reference_runbook_to_substrate_map
        else
          let task_ref :=
            KStr (task_ref_name entity_name holder_name task_name) in
          match dict_lookup task_ref task_name_substrate_map with
          | Some substrate =>
              if truthy substrate then
                rbind (to_key rb_name) (λ k,
                  Ok (dict_set k substrate reference_runbook_to_substrate_map))
              else Ok reference_runbook_to_substrate_map
          | None => Ok reference_runbook_to_substrate_map
          end)
    else Ok reference_runbook_to_substrate_map)).

(** [_create_reference_runbook_substrate_map(exported_bp_payload,
    entity_type, **kwargs)] *)
Definition _create_reference_runbook_substrate_map (exported_bp_payload : json)
    (entity_type : string) (task_name_substrate_map : dict)
    (reference_runbook_to_substrate_map : dict) : result dict :=
  rbind (rbind (py_getitems exported_bp_payload
                  [KStr "spec"; KStr "resources"; KStr entity_type]) py_iter)
    (λ entity_list,
      rfold (map_entity (map_reference_runbook false task_name_substrate_map)
               (map_reference_runbook true task_name_substrate_map))
        entity_list reference_runbook_to_substrate_map).

(** The body of [for substrate in substrate_def_list]. *)
Definition map_power_actions (vm_power_action_uuid_substrate_map : dict)
    (substrate : json) : result dict :=
  rbind (py_get substrate "name" JNone) (λ substrate_name,
  rbind (rbind (py_get substrate "action_list" (JList [])) py_iter)
    (λ actions,
      rfold (λ acc action,
        rbind (rbind (py_get action "runbook" (JDict []))
                 (λ runbook, py_get runbook "uuid" (JStr ""))) (λ runbook_id,
        rbind (to_key runbook_id) (λ k,
          Ok (dict_set k substrate_name acc)))) actions
        vm_power_action_uuid_substrate_map)).

Definition entity_type_list : list string :=
  ["substrate_definition_list"; "service_definition_list";
   "app_profile_list"; "package_definition_list"].

(** [bp_payload["status"]["resources"]["substrate_definition_list"]], as
    the list the first loop goes through. *)
Definition substrate_def_list (bp_payload : json) : result (list json) :=
  rbind (py_getitems bp_payload
           [KStr "status"; KStr "resources";
            KStr "substrate_definition_list"]) py_iter.

(** [vm_power_action_target_map(bp_payload, exported_bp_payload)] *)
Definition vm_power_action_target_map (bp_payload exported_bp_payload : json)
    : result json :=
  rbind (substrate_def_list bp_payload) (λ substrates,
  rbind (rfold map_power_actions substrates [])
    (λ vm_power_action_uuid_substrate_map,
  rbind (rfold (λ task_name_substrate_map entity_type,
                  _create_task_name_substrate_map bp_payload entity_type
                    vm_power_action_uuid_substrate_map
                    task_name_substrate_map) entity_type_list [])
    (λ task_name_substrate_map,
  rbind (rfold (λ reference_runbook_to_substrate_map entity_type,
                  _create_reference_runbook_substrate_map exported_bp_payload
                    entity_type task_name_substrate_map
                    reference_runbook_to_substrate_map) entity_type_list [])
    (λ reference_runbook_to_substrate_map,
      Ok (JDict reference_runbook_to_substrate_map))))).

End power_action_maps.

Lemma rfold_inv {A B} (I : B → Prop) (body : B → A → result B) l acc r :
  (∀ b a b', a ∈ l → I b → body b a = Ok b' → I b') →
  I acc → rfold body l acc = Ok r → I r.
Proof.
  revert acc. induction l as [|x l IH]; intros acc Hbody Hacc; simpl.
  - by intros [= <-].
  - destruct (body acc x) as [b|] eqn:Hx; [|done]. simpl.
    apply IH.
    + intros b0 a b' Ha. apply Hbody. by right.
    + apply (Hbody acc x b); [left|done..].
Qed.

Lemma elem_of_cons_further {A} (x y : A) l : x ∈ l → x ∈ y :: l.
Proof. intros. by right. Qed.

(** Every value of a dictionary satisfies [P]. *)
Definition values_in (P : json → Prop) (d : dict) : Prop :=
  ∀ k v, (k, v) ∈ d → P v.

Lemma values_in_nil P : values_in P [].
Proof. intros k v Hin. inversion Hin. Qed.

Lemma values_in_set P k v d :
  P v → values_in P d → values_in P (dict_set k v d).
Proof.
  intros Hv Hd. induction d as [|[k0 v0] d IH]; simpl.
  - intros k' v' [[= -> ->]|Hin]%elem_of_cons; [done|inversion Hin].
  - destruct (decide (k = k0)) as [->|Hne].
    + intros k' v' [[= -> ->]|Hin]%elem_of_cons; [done|].
      apply (Hd k' v'). by right.
    + intros k' v' [[= -> ->]|Hin]%elem_of_cons.
      * apply (Hd k0 v0). left.
      * apply (IH (λ k1 v1 H1, Hd k1 v1 (elem_of_cons_further _ _ _ H1)) k' v' Hin).
Qed.

Lemma values_in_lookup P k d v :
  values_in P d → dict_lookup k d = Some v → P v.
Proof.
  intros Hd. induction d as [|[k0 v0] d IH]; simpl; [done|].
  destruct (decide (k = k0)) as [->|Hne].
  - intros [= ->]. apply (Hd k0 v). left.
  - apply IH. intros k1 v1 H1. apply (Hd k1 v1). by right.
Qed.

Section vm_power_action_target_map_properties.

Variable py_format : json → string.

Lemma map_runbook_tasks_inv (I : dict → Prop) body entity_name acc holder r :
  (∀ holder_name b task b',
     I b → body entity_name holder_name b task = Ok b' → I b') →
  I acc → map_runbook_tasks body entity_name acc holder = Ok r → I r.
Proof.
  intros Hbody Hacc. unfold map_runbook_tasks.
  destruct (py_get holder "name" JNone) as [holder_name|]; [|done].
  cbn [rbind]. destruct (py_get holder "runbook" _) as [runbook|]; [|done].
  cbn [rbind]. destruct (truthy runbook); cbn [negb]; [|by intros [= <-]].
  destruct (rbind _ py_iter) as [tasks|]; [|done]. cbn [rbind].
  apply rfold_inv; [|done]. intros b a b' _. apply Hbody.
Qed.

Lemma map_entity_inv (I : dict → Prop) action_body config_body acc entity r :
  (∀ entity_name holder_name b task b',
     I b → action_body entity_name holder_name b task = Ok b' → I b') →
  (∀ entity_name holder_name b task b',
     I b → config_body entity_name holder_name b task = Ok b' → I b') →
  I acc → map_entity action_body config_body acc entity = Ok r → I r.
Proof.
  intros Ha Hc Hacc. unfold map_entity.
  destruct (py_get entity "name" JNone) as [entity_name|]; [|done].
  cbn [rbind]. destruct (rbind _ py_iter) as [actions|]; [|done].
  cbn [rbind].
  destruct (rfold _ actions acc) as [acc1|] eqn:Hactions; [|done].
  cbn [rbind]. destruct (rbind _ py_iter) as [configs|]; [|done].
  cbn [rbind]. apply rfold_inv.
  - intros b a b' _. apply map_runbook_tasks_inv. apply Hc.
  - revert Hactions. apply rfold_inv; [|done].
    intros b a b' _. apply map_runbook_tasks_inv. apply Ha.
Qed.

(** The names of the substrates of a list. *)
Definition substrate_name_of (substrates : list json) (v : json) : Prop :=
  ∃ substrate, substrate ∈ substrates ∧ py_get substrate "name" JNone = Ok v.

Lemma map_power_actions_inv substrates acc substrate r :
  substrate ∈ substrates →
  values_in (substrate_name_of substrates) acc →
  map_power_actions acc substrate = Ok r →
  values_in (substrate_name_of substrates) r.
Proof.
  intros Hin Hacc. unfold map_power_actions.
  destruct (py_get substrate "name" JNone) as [name|] eqn:Hname; [|done].
  cbn [rbind]. destruct (rbind _ py_iter) as [actions|]; [|done].
  cbn [rbind]. apply rfold_inv; [|done].
  intros b a b' _ Hb. cbv beta.
  destruct (rbind (py_get a "runbook" (JDict [])) _) as [runbook_id|];
    [|done].
  cbn [rbind].
  destruct (to_key runbook_id) as [k|]; [|done]. cbn [rbind].
  intros [= <-]. apply values_in_set; [|done]. by exists substrate.
Qed.

Lemma map_task_name_inv substrates uuid_map entity_name holder_name acc task r :
  values_in (substrate_name_of substrates) uuid_map →
  values_in (λ v, v = JStr "" ∨ substrate_name_of substrates v) acc →
  map_task_name py_format uuid_map entity_name holder_name acc task = Ok r →
  values_in (λ v, v = JStr "" ∨ substrate_name_of substrates v) r.
Proof.
  intros Huuid Hacc. unfold map_task_name.
  destruct (py_get task "name" JNone) as [task_name|]; [|done].
  cbn [rbind]. destruct (calls_runbook task) as [[]|]; cbn [rbind];
    [|by intros [= <-]|done].
  destruct (runbook_reference_field task "uuid") as [uuid|]; [|done].
  cbn [rbind]. destruct (truthy uuid); cbn [negb]; [|by intros [= <-]].
  destruct (to_key uuid) as [k|]; [|done]. cbn [rbind].
  intros [= <-]. apply values_in_set; [|done].
  destruct (dict_lookup k uuid_map) as [v|] eqn:Hk; [|by left].
  right. by apply (values_in_lookup _ k uuid_map).
Qed.

Lemma map_reference_runbook_inv substrates skip task_map entity_name
    holder_name acc task r :
  values_in (λ v, v = JStr "" ∨ substrate_name_of substrates v) task_map →
  values_in (λ v, truthy v = true ∧ substrate_name_of substrates v) acc →
  map_reference_runbook py_format skip task_map entity_name holder_name acc
    task = Ok r →
  values_in (λ v, truthy v = true ∧ substrate_name_of substrates v) r.
Proof.
  intros Htask Hacc. unfold map_reference_runbook.
  destruct (py_get task "name" JNone) as [task_name|]; [|done].
  cbn [rbind]. destruct (calls_runbook task) as [[]|]; cbn [rbind];
    [|by intros [= <-]|done].
  destruct (runbook_reference_field task "name") as [rb_name|]; [|done].
  cbn [rbind]. destruct (skip && negb (truthy rb_name)); [by intros [= <-]|].
  cbv zeta.
  destruct (dict_lookup _ task_map) as [substrate|] eqn:Hk;
    [|by intros [= <-]].
  destruct (truthy substrate) eqn:Htruthy; [|by intros [= <-]].
  destruct (to_key rb_name) as [k|]; [|done]. cbn [rbind].
  intros [= <-]. apply values_in_set; [|done]. split; [done|].
  destruct (values_in_lookup _ _ _ _ Htask Hk) as [->|?]; done.
Qed.

(** X18. When [vm_power_action_target_map] returns, every value of the
    map it returns is truthy and is the name of a substrate of
    [bp_payload["status"]["resources"]["substrate_definition_list"]]: no
    runbook is mapped to an empty substrate name, nor to a name taken from
    anywhere else in the two payloads. *)
Theorem vm_power_action_target_map_values bp_payload exported_bp_payload m :
  vm_power_action_target_map py_format bp_payload exported_bp_payload
  = Ok (JDict m) →
  ∃ substrates,
    substrate_def_list bp_payload = Ok substrates
    ∧ ∀ k v, (k, v) ∈ m →
        truthy v = true
        ∧ ∃ substrate, substrate ∈ substrates
                       ∧ py_get substrate "name" JNone = Ok v.
Proof.
  unfold vm_power_action_target_map.
  destruct (substrate_def_list bp_payload) as [substrates|]; [|done].
  cbn [rbind]. destruct (rfold map_power_actions substrates [])
    as [uuid_map|] eqn:Huuid; [|done].
  cbn [rbind]. destruct (rfold _ entity_type_list [])
    as [task_map|] eqn:Htask; [|done].
  cbn [rbind].
  match goal with
  | |- rbind ?x _ = _ → _ => destruct x as [ref_map|] eqn:Href; [|done]
  end.
  cbn [rbind]. intros Hm. injection Hm as Hm. subst ref_map.
  exists substrates. split; [done|].
  assert (values_in (substrate_name_of substrates) uuid_map) as Huuid_ok.
  { revert Huuid. apply rfold_inv; [|apply values_in_nil].
    intros b a b' Ha. by apply map_power_actions_inv. }
  assert (values_in (λ v, v = JStr "" ∨ substrate_name_of substrates v)
            task_map) as Htask_ok.
  { revert Htask. apply rfold_inv; [|apply values_in_nil].
    intros b entity_type b' _ Hb. unfold _create_task_name_substrate_map.
    destruct (rbind _ py_iter) as [entity_list|]; [|done]. cbn [rbind].
    apply rfold_inv; [|done]. intros b0 entity b1 _.
    apply map_entity_inv; intros ? ? ? ? ?; by apply map_task_name_inv. }
  revert Href. apply (rfold_inv (values_in _)); [|apply values_in_nil].
  intros b entity_type b' _ Hb. unfold _create_reference_runbook_substrate_map.
  destruct (rbind _ py_iter) as [entity_list|]; [|done]. cbn [rbind].
  apply rfold_inv; [|done]. intros b0 entity b1 _.
  apply map_entity_inv; intros ? ? ? ? ?;
    by apply map_reference_runbook_inv.
Qed.

End vm_power_action_target_map_properties.

(** A blueprint with one substrate that has a power action, and a profile
    action whose task calls that runbook: as [client.blueprint.read]
    returns it, and as [client.blueprint.export_file] does. *)
Definition call_runbook_task (reference : dict) : json :=
  JDict [(KStr "name", JStr "restart");
         (KStr "type", JStr "CALL_RUNBOOK");
         (KStr "attrs", JDict [(KStr "runbook_reference", JDict reference)])].

Definition profile_with_task (task : json) : json :=
  JDict [(KStr "name", JStr "Default");
         (KStr "action_list",
          JList [JDict [(KStr "name", JStr "reboot");
                        (KStr "runbook",
                         JDict [(KStr "task_definition_list",
                                 JList [task])])]])].

Definition bp_resources (substrates profiles : list json) : json :=
  JDict [(KStr "substrate_definition_list", JList substrates);
         (KStr "service_definition_list", JList []);
         (KStr "app_profile_list", JList profiles);
         (KStr "package_definition_list", JList [])].

Definition power_substrate : json :=
  JDict [(KStr "name", JStr "VM1");
         (KStr "action_list",
          JList [JDict [(KStr "name", JStr "action_poweron");
                        (KStr "runbook",
                         JDict [(KStr "uuid", JStr "rb-1")])]])].

Definition read_bp_payload : json :=
  let profile :=
    profile_with_task (call_runbook_task [(KStr "uuid", JStr "rb-1")]) in
  JDict [(KStr "spec", JDict [(KStr "resources",
                               bp_resources [] [profile])]);
         (KStr "status", JDict [(KStr "resources",
                                 bp_resources [power_substrate] [profile])])].

Definition exported_payload : json :=
  let profile :=
    profile_with_task
      (call_runbook_task [(KStr "name", JStr "VM1_power_on")]) in
  JDict [(KStr "spec", JDict [(KStr "resources",
                               bp_resources [] [profile])])].

Lemma vm_power_action_target_map_values_witness :
  ∃ substrates,
    substrate_def_list read_bp_payload = Ok substrates
    ∧ ∀ k v, (k, v) ∈ [(KStr "VM1_power_on", JStr "VM1")] →
        truthy v = true
        ∧ ∃ substrate, substrate ∈ substrates
                       ∧ py_get substrate "name" JNone = Ok v.
Proof.
  apply (vm_power_action_target_map_values name_of_value read_bp_payload
           exported_payload).
  reflexivity.
Defined.

(** ** The round trip of the credentials *)

(** *** What the walk over the objects collects *)

(** An entry of [secret_variables] recorded under one of the names
    [ok]. *)
Definition rooted (ok : string → Prop) (e : list key * json * json) : Prop :=
  ∃ nm rest, e.1.1 = KStr nm :: rest ∧ ok nm.

(** A computation that leaves [secret_map] alone and records its secrets
    under the names [ok]. *)
Definition collects (ok : string → Prop) {A} (m : M A) : Prop :=
  ∀ s, secret_map (m s).2 = secret_map s
       ∧ (Forall (rooted ok) (secret_variables s) →
          Forall (rooted ok) (secret_variables (m s).2)).

Section collects_rules.

Variable ok : string → Prop.

Lemma collects_ret {A} (x : A) : collects ok (ret x).
Proof. by intros s. Qed.

Lemma collects_raise {A} e : collects ok (@raise state A e).
Proof. by intros s. Qed.

Lemma collects_lift {A} (r : result A) : collects ok (lift r).
Proof. by intros s. Qed.

Lemma collects_deref p : collects ok (deref p).
Proof. intros s. unfold deref. by destruct (get_at p (resources s)). Qed.

Lemma collects_bind {A B} (m : M A) (f : A → M B) :
  collects ok m → (∀ x, collects ok (f x)) → collects ok (bind m f).
Proof.
  intros Hm Hf s. unfold bind. destruct (Hm s) as [Hmap Hlog].
  destruct (m s) as [[x|e] s1]; simpl in *; [|done].
  destruct (Hf x s1) as [Hmap' Hlog']. split; [congruence|auto].
Qed.

Lemma collects_for_each {A} (l : list A) (body : A → M unit) :
  (∀ x, collects ok (body x)) → collects ok (for_each l body).
Proof.
  intros Hb. induction l as [|x l IH]; simpl; [apply collects_ret|].
  by apply collects_bind.
Qed.

Lemma collects_for_each_until {A} (l : list A) (body : A → M bool) :
  (∀ x, collects ok (body x)) → collects ok (for_each_until l body).
Proof.
  intros Hb. induction l as [|x l IH]; simpl; [apply collects_ret|].
  apply collects_bind; [done|]. intros []; [done|apply collects_ret].
Qed.

Lemma collects_setitem_at p k v : collects ok (setitem_at p k v).
Proof.
  intros s. unfold setitem_at, bind, deref.
  by destruct (get_at p (resources s)) as [[]|].
Qed.

Lemma collects_pop_at p k dflt : collects ok (pop_at p k dflt).
Proof.
  intros s. unfold pop_at, bind, deref.
  destruct (get_at p (resources s)) as [[| | | | |d]|]; try done.
  destruct (dict_lookup k d); [done|]. by destruct dflt.
Qed.

Lemma collects_not_stripped_append e : collects ok (not_stripped_append e).
Proof. by intros s. Qed.

Lemma collects_secret_variables_append e :
  rooted ok e → collects ok (secret_variables_append e).
Proof.
  intros He s. split; [done|]. intros Hs. simpl.
  apply Forall_app. split; [done|]. by constructor.
Qed.

End collects_rules.

Ltac collects_step :=
  lazymatch goal with
  | |- collects _ (bind _ _) => apply collects_bind; [|intros ?]
  | |- collects _ (ret _) => apply collects_ret
  | |- collects _ (raise _) => apply collects_raise
  | |- collects _ (lift _) => apply collects_lift
  | |- collects _ (deref _) => apply collects_deref
  | |- collects _ (secret_variables_append _) =>
      apply collects_secret_variables_append;
      eexists _, _; split; [simpl; reflexivity|assumption]
  | |- collects _ (not_stripped_append _) => apply collects_not_stripped_append
  | |- collects _ (for_each _ _) => apply collects_for_each; intros ?
  | |- collects _ (for_each_until _ _) =>
      apply collects_for_each_until; intros ?
  | |- collects _ (setitem_at _ _ _) => apply collects_setitem_at
  | |- collects _ (pop_at _ _ _) => apply collects_pop_at
  | |- collects _ (if ?b then _ else _) => destruct b
  | |- collects _ (match ?x with _ => _ end) => destruct x
  end.

Section strip_secrets_collects.

Variable ds : json.
Variable ok : string → Prop.
Variable nm : string.
Hypothesis nm_ok : ok nm.

Lemma strip_variable_collects filtered pl ptr f i :
  collects ok (strip_variable filtered (KStr nm :: pl) ptr f i).
Proof.
  unfold strip_variable, strip_secret_value, strip_options_auth. cbv zeta.
  repeat collects_step.
Qed.

Lemma strip_entity_secret_variables_collects pl ptr f ctx :
  collects ok (strip_entity_secret_variables ds (KStr nm :: pl) ptr f ctx).
Proof.
  unfold strip_entity_secret_variables.
  apply collects_bind; [apply collects_deref|intros obj].
  apply collects_bind; [repeat collects_step|intros context].
  repeat first [apply strip_variable_collects | collects_step].
Qed.

Lemma strip_action_task_collects pl tptr ctx :
  collects ok (strip_action_task ds (KStr nm :: pl) tptr ctx).
Proof.
  unfold strip_action_task. cbv zeta.
  repeat first [apply (strip_entity_secret_variables_collects (_ ++ _))
               |collects_step].
Qed.

Lemma strip_action_collects pl ptr ctx a :
  collects ok (strip_action ds (KStr nm :: pl) ptr ctx a).
Proof.
  unfold strip_action. cbv zeta.
  repeat first [apply (strip_entity_secret_variables_collects (_ ++ _))
               |apply (strip_action_task_collects (_ ++ _))
               |collects_step].
Qed.

Lemma strip_authentication_secret_variables_collects pl ptr obj ctx :
  collects ok
    (strip_authentication_secret_variables ds (KStr nm :: pl) ptr obj ctx).
Proof.
  unfold strip_authentication_secret_variables. cbv zeta.
  repeat collects_step.
Qed.

Lemma strip_runbook_task_collects pl ptr ctx t :
  collects ok (strip_runbook_task ds (KStr nm :: pl) ptr ctx t).
Proof.
  unfold strip_runbook_task. cbv zeta.
  repeat first
    [ match goal with
      | |- context [if py_eqb ?a ?b then _ ++ _ else _] =>
          destruct (py_eqb a b)
      end
    | apply (strip_entity_secret_variables_collects (_ ++ _))
    | apply (strip_authentication_secret_variables_collects (_ ++ _))
    | collects_step ].
Qed.

Lemma strip_all_secret_variables_collects pl ptr :
  collects ok (strip_all_secret_variables ds (KStr nm :: pl) ptr).
Proof.
  unfold strip_all_secret_variables, strip_action_secret_variables,
    strip_runbook_secret_variables. cbv zeta.
  repeat first [apply strip_entity_secret_variables_collects
               |apply strip_authentication_secret_variables_collects
               |apply strip_action_collects
               |apply strip_runbook_task_collects
               |collects_step].
Qed.

End strip_secrets_collects.

Lemma collects_for_each_in ok {A} (l : list A) (body : A → M unit) :
  (∀ x, x ∈ l → collects ok (body x)) → collects ok (for_each l body).
Proof.
  induction l as [|x l IH]; intros Hb; simpl; [apply collects_ret|].
  apply collects_bind; [apply Hb; left|].
  intros _. apply IH. intros y Hy. apply Hb. by right.
Qed.

(** The locations under the names [ok]. *)
Definition under (ok : string → Prop) (q : loc) : Prop :=
  ∃ nm rest, q = KStr nm :: rest ∧ ok nm.

(** The walk over [object_lists] and [objects], the second half of
    [strip_secrets]. *)
Definition strip_objects (ds : json) (object_lists objects : list string)
    : M unit :=
  for_each object_lists (strip_object_list ds) ;;
  for_each objects (strip_object ds).

Lemma strip_objects_collects ds (ok : string → Prop) object_lists objects :
  (∀ nm, nm ∈ object_lists → ok nm) → (∀ nm, nm ∈ objects → ok nm) →
  collects ok (strip_objects ds object_lists objects).
Proof.
  intros Hlists Hobjects. unfold strip_objects.
  apply collects_bind; [|intros _].
  - apply collects_for_each_in. intros nm Hnm. unfold strip_object_list.
    repeat collects_step.
    apply strip_all_secret_variables_collects. auto.
  - apply collects_for_each_in. intros nm Hnm.
    unfold strip_object, strip_all_secret_variables_absent.
    repeat first [apply strip_all_secret_variables_collects; auto
                 |collects_step].
Qed.

Lemma strip_objects_preserves ds (ok : string → Prop) object_lists objects r0 :
  (∀ nm, nm ∈ object_lists → ok nm) → (∀ nm, nm ∈ objects → ok nm) →
  preserves (under ok) r0 (strip_objects ds object_lists objects).
Proof.
  intros Hlists Hobjects. unfold strip_objects.
  apply preserves_bind; [|intros _].
  - apply preserves_for_each_in. intros nm Hnm. unfold strip_object_list.
    repeat preserves_step.
    apply strip_all_secret_variables_preserves. intros w Hw.
    apply covered_here. eexists _, _. split; [simpl; reflexivity|auto].
  - apply preserves_for_each_in. intros nm Hnm.
    unfold strip_object, strip_all_secret_variables_absent.
    repeat preserves_step.
    apply strip_all_secret_variables_preserves. intros w Hw.
    apply covered_here. eexists _, _. split; [simpl; reflexivity|auto].
Qed.

Lemma strip_secrets_strip_objects ds object_lists objects :
  strip_secrets ds object_lists objects
  = (strip_credentials ds ;; strip_endpoint_auth ds ;;
     strip_objects ds object_lists objects).
Proof. reflexivity. Qed.

(** *** The credential whose secret is followed *)

Definition cred_loc (i : Z) (field : string) : loc :=
  [KStr "credential_definition_list"; KInt i; KStr field].

Definition endpoint_username : loc :=
  [KStr "authentication"; KStr "username"].

Lemma for_each_inv {A} (I : state → Prop) (l : list A) (body : A → M unit)
    s s' :
  (∀ x t t', I t → body x t = (Ok (), t') → I t') →
  I s → for_each l body s = (Ok (), s') → I s'.
Proof.
  intros Hbody. revert s. induction l as [|x l IH]; intros s Hs; simpl.
  - by intros [= <-].
  - unfold bind. destruct (body x s) as [[[]|e] s1] eqn:Hx; [|done].
    apply IH. by apply (Hbody x s s1).
Qed.

Lemma wp_run {S A} (m : MS S A) (Q : S → Prop) s x s' :
  wp m (λ r t, r = Ok x → Q t) s → m s = (Ok x, s') → Q s'.
Proof. unfold wp. intros Hwp Hrun. rewrite Hrun in Hwp. by apply Hwp. Qed.

Section credential_round_trip.

(** The credential at position [i], the key [k] its name hashes to, and
    the secret it held before the walk. *)
Variable i : Z.
Variable name : json.
Variable k : key.
Hypothesis name_key : to_key name = Ok k.
Variable original : option json.

(** The secret is where it was and [secret_map] has nothing under the
    name, or it is in [secret_map] under the name and the credential holds
    the placeholder. *)
Definition secret_held (s : state) : Prop :=
  get_at (cred_loc i "name") (resources s) = Some name
  ∧ ((dict_lookup k (secret_map s) = None
      ∧ get_at (cred_loc i "secret") (resources s) = original)
     ∨ (∃ sec, original = Some sec
               ∧ dict_lookup k (secret_map s) = Some sec
               ∧ get_at (cred_loc i "secret") (resources s)
                 = Some attrs_placeholder)).

(** No other credential, and no endpoint user, has the name. *)
Definition name_unique (r : json) : Prop :=
  (∀ j name', j ≠ i → get_at (cred_loc j "name") r = Some name' →
              to_key name' ≠ Ok k)
  ∧ (∀ u, get_at endpoint_username r = Some u → to_key u ≠ Ok k).

Definition cred_inv (s : state) : Prop :=
  secret_held s ∧ name_unique (resources s) ∧ secret_variables s = [].

(** [r'] is [r] but for the object at [w]. *)
Definition written_at (w : loc) (r r' : json) : Prop :=
  ∀ q, diverge w q → get_at q r' = get_at q r.

Lemma written_at_key g p key r :
  (∀ k' o, key ≠ k' → child k' (g o) = child k' o) →
  written_at (p ++ [key]) r (alter_at g p r).
Proof. intros Hg q Hq. by apply (get_at_key_write g p key). Qed.

Lemma written_at_trans w r1 r2 r3 :
  written_at w r1 r2 → written_at w r2 r3 → written_at w r1 r3.
Proof. intros H12 H23 q Hq. by rewrite H23, H12. Qed.

Lemma name_unique_secret_written j r r' :
  written_at (cred_loc j "secret") r r' → name_unique r → name_unique r'.
Proof.
  intros Hw [Hnames Huser]. split.
  - intros j' name' Hj'. rewrite Hw; [by apply Hnames|].
    unfold cred_loc. solve_diverge.
  - intros u. rewrite Hw; [by apply Huser|]. unfold cred_loc. solve_diverge.
Qed.

Lemma name_unique_password_written r r' :
  written_at [KStr "authentication"; KStr "password"] r r' →
  name_unique r → name_unique r'.
Proof.
  intros Hw [Hnames Huser]. split.
  - intros j' name' Hj'. rewrite Hw; [by apply Hnames|].
    unfold cred_loc. solve_diverge.
  - intros u. rewrite Hw; [by apply Huser|]. solve_diverge.
Qed.

(** One round of [for cred in creds] in [strip_secrets]. *)
Lemma strip_credential_cred_inv filtered j s s' :
  cred_inv s → strip_credential filtered j s = (Ok (), s') → cred_inv s'.
Proof.
  intros ([Hname Hheld] & Huniq & Hlog). apply wp_run.
  unfold strip_credential. cbv zeta.
  set (p := [KStr "credential_definition_list"; KInt j]).
  do 2 wp_step.
  destruct (get_at p (resources s)) as [cred|] eqn:Hcred; [|done].
  do 2 wp_step.
  destruct cred as [| | | | |cd]; try done. cbn [py_getitem_key].
  destruct (dict_lookup "name" cd) as [nj|] eqn:Hnj; [|done].
  do 2 wp_step.
  destruct (dict_lookup "secret" cd) as [sec|] eqn:Hsec; [|done].
  do 2 wp_step.
  destruct (py_getitem_key sec "value") as [value|] eqn:Hvalue; [|done].
  do 2 wp_step.
  destruct (is_secret_modified filtered nj value) as [[]|]; [| |done].
  2: { by wp_step. }
  wp_step. eapply wp_pop_at; [exact Hcred|]. rewrite Hsec.
  wp_step. apply wp_secret_map_set.
  destruct (to_key nj) as [kj|] eqn:Hkj; [|done].
  eapply wp_setitem_at.
  { cbn [resources set_resources]. rewrite get_at_alter_at, Hcred.
    reflexivity. }
  intros _. unfold cred_inv, secret_held.
  cbn [resources set_resources secret_map secret_variables].
  set (r' := alter_at _ p (alter_at _ p (resources s))).
  assert (written_at (cred_loc j "secret") (resources s) r') as Hw.
  { eapply written_at_trans.
    - apply (written_at_key (dict_delitem "secret") p (KStr "secret")).
      intros. by apply child_dict_delitem_ne.
    - apply (written_at_key (dict_setitem "secret" attrs_placeholder) p
               (KStr "secret")).
      intros. by apply child_dict_setitem_ne. }
  assert (get_at (cred_loc j "name") (resources s) = Some nj) as Hnj'.
  { change (cred_loc j "name") with (p ++ [KStr "name"]).
    by rewrite (get_at_dict_child_2 _ _ _ _ Hcred). }
  assert (get_at (cred_loc j "secret") (resources s) = Some sec) as Hsec'.
  { change (cred_loc j "secret") with (p ++ [KStr "secret"]).
    by rewrite (get_at_dict_child_2 _ _ _ _ Hcred). }
  split; [|split; [by apply (name_unique_secret_written j (resources s))|done]].
  split.
  { rewrite Hw; [done|]. unfold cred_loc. solve_diverge. }
  destruct (decide (j = i)) as [->|Hne].
  - (* the credential itself *)
    rewrite Hname in Hnj'. injection Hnj' as <-.
    rewrite name_key in Hkj. injection Hkj as <-.
    destruct Hheld as [[Hmap Hloc]|(sec0 & _ & _ & Hloc)].
    + right. exists sec. rewrite <- Hloc, Hsec'. split; [done|].
      split; [by rewrite dict_lookup_set_eq|].
      unfold r'. change (cred_loc i "secret") with (p ++ [KStr "secret"]).
      rewrite get_at_alter_at_app, get_at_alter_at, Hcred.
      cbn [fmap option_fmap option_map dict_delitem dict_setitem get_at child].
      by rewrite dict_lookup_set_eq.
    + rewrite Hloc in Hsec'. injection Hsec' as <-. done.
  - (* another credential *)
    assert (kj ≠ k) as Hk.
    { intros ->. by apply (proj1 Huniq j nj). }
    assert (get_at (cred_loc i "secret") r'
            = get_at (cred_loc i "secret") (resources s)) as Hsame.
    { apply Hw. unfold cred_loc. solve_diverge. }
    rewrite Hsame, dict_lookup_set_ne by done. exact Hheld.
Qed.

Lemma strip_credentials_cred_inv ds s s' :
  cred_inv s → strip_credentials ds s = (Ok (), s') → cred_inv s'.
Proof.
  intros Hs. apply wp_run. unfold strip_credentials.
  do 2 wp_step. cbn [get_at].
  do 2 wp_step. destruct (py_get _ _ _) as [creds0|]; [|done].
  do 2 wp_step. destruct (get_secrets_from_context _ _) as [filtered|]; [|done].
  do 2 wp_step. destruct (iter_len _ _) as [n|]; [|done].
  unfold wp. destruct (for_each _ _ s) as [[[]|e] s1] eqn:Hloop; [|done].
  intros _. cbn [fst snd]. revert Hloop. apply for_each_inv; [|done].
  intros j t t'. apply strip_credential_cred_inv.
Qed.

Lemma strip_endpoint_auth_cred_inv ds s s' :
  cred_inv s → strip_endpoint_auth ds s = (Ok (), s') → cred_inv s'.
Proof.
  intros ([Hname Hheld] & Huniq & Hlog). apply wp_run.
  unfold strip_endpoint_auth. cbv zeta.
  do 2 wp_step. destruct (get_secrets_from_context _ _) as [filtered|]; [|done].
  do 2 wp_step. cbn [get_at].
  do 2 wp_step.
  destruct (py_get (resources s) "authentication" (JDict [])) as [auth0|]
    eqn:Hauth0; [|done].
  do 2 wp_step. destruct (py_get (py_or auth0 _) "type" JNone) as [ty|]; [|done].
  destruct (py_eqb ty (JStr "basic")); [|by wp_step].
  do 2 wp_step.
  destruct (py_getitem_key (py_or auth0 _) "username") as [username|]
    eqn:Huser; [|done].
  do 2 wp_step. destruct (py_getitem_key _ "password") as [password|]; [|done].
  do 2 wp_step.
  destruct (is_secret_modified filtered username password) as [[]|];
    [| |done].
  2: { by wp_step. }
  do 2 wp_step.
  assert (get_at endpoint_username (resources s) = Some username) as Huser'.
  { unfold py_or in Huser. destruct (truthy auth0) eqn:Ht; [|done].
    destruct (resources s) as [| | | | |rd]; try done.
    cbn [py_get] in Hauth0. injection Hauth0 as <-.
    unfold endpoint_username. cbn [get_at child].
    destruct (dict_lookup "authentication" rd) as [auth|]; [|done].
    cbn [from_option id] in Huser. destruct auth; try done.
    cbn [py_getitem_key] in Huser. cbn [get_at child].
    destruct (dict_lookup "username" _); [|done]. by injection Huser as ->. }
  set (p := [KStr "authentication"]).
  wp_step.
  destruct (get_at p (resources s)) as [auth|] eqn:Hauth.
  2: { unfold wp, pop_at, bind, deref. by rewrite Hauth. }
  destruct auth as [| | | | |ad];
    try (unfold wp, pop_at, bind, deref; by rewrite Hauth).
  eapply wp_pop_at; [exact Hauth|].
  assert (∀ (popped : json) (t : state),
            name_unique (resources t) → secret_variables t = [] →
            get_at (cred_loc i "name") (resources t) = Some name →
            get_at (cred_loc i "secret") (resources t)
            = get_at (cred_loc i "secret") (resources s) →
            secret_map t = secret_map s →
            (∃ d, get_at p (resources t) = Some (JDict d)) →
            wp (secret_map_set username popped ;;
                setitem_at p "password" endpoint_password_placeholder)
              (λ r t', r = Ok () → cred_inv t') t) as Hrest.
  { intros popped t Huniq_t Hlog_t Hname_t Hsecret_t Hmap_t [d Hd].
    wp_step. apply wp_secret_map_set.
    destruct (to_key username) as [ku|] eqn:Hku; [|done].
    eapply wp_setitem_at; [cbn [resources]; exact Hd|].
    intros _. unfold cred_inv, secret_held.
    cbn [resources set_resources secret_map secret_variables].
    assert (written_at (p ++ [KStr "password"]) (resources t)
              (alter_at (dict_setitem "password" endpoint_password_placeholder)
                 p (resources t))) as Hw.
    { apply written_at_key. intros. by apply child_dict_setitem_ne. }
    assert (ku ≠ k) as Hk.
    { intros ->. by apply (proj2 Huniq username). }
    rewrite !Hw by (unfold cred_loc; solve_diverge).
    rewrite dict_lookup_set_ne by done. rewrite Hsecret_t, Hmap_t.
    split; [done|]. split; [|done].
    by apply (name_unique_password_written (resources t)). }
  assert (written_at (p ++ [KStr "password"]) (resources s)
            (alter_at (dict_delitem "password") p (resources s))) as Hw.
  { apply written_at_key. intros. by apply child_dict_delitem_ne. }
  destruct (dict_lookup "password" ad).
  - apply Hrest; cbn [resources set_resources secret_map secret_variables];
      try done.
    + by apply (name_unique_password_written (resources s)).
    + rewrite Hw; [done|]. unfold cred_loc. solve_diverge.
    + apply Hw. unfold cred_loc. solve_diverge.
    + rewrite get_at_alter_at, Hauth. by eexists.
  - apply Hrest; try done. by eexists.
Qed.

(** After the first half of [strip_secrets] the walk over the objects
    keeps what is held, and records under the names [ok]. *)
Definition cred_kept (ok : string → Prop) (s : state) : Prop :=
  secret_held s ∧ Forall (rooted ok) (secret_variables s).

Lemma strip_objects_cred_kept ds (ok : string → Prop) object_lists objects
    s s' :
  ¬ ok "credential_definition_list" →
  (∀ nm, nm ∈ object_lists → ok nm) → (∀ nm, nm ∈ objects → ok nm) →
  cred_kept ok s →
  strip_objects ds object_lists objects s = (Ok (), s') →
  cred_kept ok s'.
Proof.
  intros Hcdl Hlists Hobjects [[Hname Hheld] Hlog] Hrun.
  pose proof (strip_objects_collects ds ok object_lists objects Hlists
                Hobjects s) as [Hmap Hlog'].
  pose proof (strip_objects_preserves ds ok object_lists objects
                (resources s) Hlists Hobjects s) as Hframe.
  rewrite Hrun in Hmap, Hlog', Hframe. cbn [snd] in *.
  assert (∀ j f, get_at (cred_loc j f) (resources s')
                 = get_at (cred_loc j f) (resources s)) as Hsame.
  { intros j f. apply Hframe; [done|].
    intros q (nm & rest & -> & Hnm). unfold cred_loc. simpl. left.
    intros [= ->]. done. }
  split; [|auto]. split; [by rewrite Hsame|].
  by rewrite Hmap, !Hsame.
Qed.

(** [strip_secrets], from fresh collections. *)
Lemma strip_secrets_cred_kept ds (ok : string → Prop) object_lists objects
    s s' :
  ¬ ok "credential_definition_list" →
  (∀ nm, nm ∈ object_lists → ok nm) → (∀ nm, nm ∈ objects → ok nm) →
  cred_inv s →
  strip_secrets ds object_lists objects s = (Ok (), s') →
  cred_kept ok s'.
Proof.
  intros Hcdl Hlists Hobjects Hs. rewrite strip_secrets_strip_objects.
  unfold bind at 1.
  destruct (strip_credentials ds s) as [[[]|?] s1] eqn:H1; [|done].
  unfold bind at 1.
  destruct (strip_endpoint_auth ds s1) as [[[]|?] s2] eqn:H2; [|done].
  apply strip_objects_cred_kept; try done.
  destruct (strip_endpoint_auth_cred_inv ds s1 s2) as (Hheld & _ & Hlog);
    [by apply (strip_credentials_cred_inv ds s)|done|].
  split; [done|]. rewrite Hlog. constructor.
Qed.

(** *** Patching *)

(** What [secret_map] holds under the name is the secret of the
    credential. *)
Definition holds_original (sm : dict) : Prop :=
  ∀ sec, dict_lookup k sm = Some sec → original = Some sec.

(** Before and after the credential's turn in [patch_secrets]. *)
Definition to_patch (sm : dict) (s : state) : Prop :=
  get_at (cred_loc i "name") (resources s) = Some name
  ∧ holds_original sm
  ∧ (dict_lookup k sm = None →
     get_at (cred_loc i "secret") (resources s) = original).

Definition patched (sm : dict) (s : state) : Prop :=
  get_at (cred_loc i "name") (resources s) = Some name
  ∧ holds_original sm
  ∧ get_at (cred_loc i "secret") (resources s) = original.

Lemma patched_to_patch sm s : patched sm s → to_patch sm s.
Proof. intros (? & ? & ?). by repeat split. Qed.

Lemma patch_credential_to_patch sm j s s' :
  to_patch sm s → patch_credential sm j s = (Ok (), s') →
  to_patch sm s' ∧ (j = i → patched sm s')
  ∧ (patched sm s → patched sm s').
Proof.
  intros (Hname & Hsm & Hloc) Hrun. pattern s'. revert Hrun. apply wp_run.
  unfold patch_credential. cbv zeta.
  set (p := [KStr "credential_definition_list"; KInt j]).
  do 2 wp_step.
  destruct (get_at p (resources s)) as [cred|] eqn:Hcred; [|done].
  do 2 wp_step.
  destruct cred as [| | | | |cd]; try done. cbn [py_getitem_key].
  destruct (dict_lookup "name" cd) as [nj|] eqn:Hnj; [|done].
  do 2 wp_step. cbn [py_contains]. unfold py_getitem.
  destruct (to_key nj) as [kj|] eqn:Hkj; [|done]. cbn [rbind].
  assert (get_at (cred_loc j "name") (resources s) = Some nj) as Hnj'.
  { change (cred_loc j "name") with (p ++ [KStr "name"]).
    by rewrite (get_at_dict_child_2 _ _ _ _ Hcred). }
  unfold dict_mem. destruct (dict_lookup kj sm) as [sec|] eqn:Hsec.
  2: { wp_step. intros _. split; [done|]. split; [|done].
       intros ->. rewrite Hname in Hnj'. injection Hnj' as <-.
       rewrite name_key in Hkj. injection Hkj as <-.
       split; [done|]. split; [done|]. auto. }
  do 2 wp_step. cbn [py_getitem_key]. rewrite Hsec.
  eapply wp_setitem_at; [exact Hcred|].
  intros _. unfold to_patch, patched. cbn [resources set_resources].
  set (r' := alter_at _ p (resources s)).
  assert (written_at (cred_loc j "secret") (resources s) r') as Hw.
  { apply (written_at_key (dict_setitem "secret" sec) p (KStr "secret")).
    intros. by apply child_dict_setitem_ne. }
  assert (get_at (cred_loc i "name") r' = Some name) as Hname'.
  { rewrite Hw; [done|]. unfold cred_loc. solve_diverge. }
  destruct (decide (j = i)) as [->|Hne].
  - rewrite Hname in Hnj'. injection Hnj' as <-.
    rewrite name_key in Hkj. injection Hkj as <-.
    assert (get_at (cred_loc i "secret") r' = original) as Hnew.
    { rewrite (Hsm sec Hsec). unfold r'.
      change (cred_loc i "secret") with (p ++ [KStr "secret"]).
      rewrite get_at_alter_at_app, Hcred. cbn [dict_setitem get_at child].
      by rewrite dict_lookup_set_eq. }
    auto.
  - assert (get_at (cred_loc i "secret") r'
            = get_at (cred_loc i "secret") (resources s)) as Hsame.
    { apply Hw. unfold cred_loc. solve_diverge. }
    rewrite Hsame. split; [auto|]. split; [done|].
    intros (_ & _ & ?). auto.
Qed.

Lemma for_each_visits {A} (R T : state → Prop) (l : list A)
    (body : A → M unit) x s s' :
  x ∈ l →
  (∀ y t t', R t → body y t = (Ok (), t') → R t') →
  (∀ t t', R t → body x t = (Ok (), t') → T t') →
  (∀ y t t', T t → body y t = (Ok (), t') → T t') →
  R s → for_each l body s = (Ok (), s') → T s'.
Proof.
  intros (l1 & l2 & ->)%list_elem_of_split HR Hx HT Hs.
  rewrite for_each_app. unfold bind at 1.
  destruct (for_each l1 body s) as [[[]|?] s1] eqn:H1; [|done].
  cbn [for_each]. unfold bind at 1.
  destruct (body x s1) as [[[]|?] s2] eqn:H2; [|done].
  apply for_each_inv; [done|].
  apply (Hx s1); [|done]. revert H1. by apply for_each_inv.
Qed.

Lemma patch_credentials_patched sm s s' :
  (0 ≤ i)%Z →
  to_patch sm s → patch_credentials sm s = (Ok (), s') → patched sm s'.
Proof.
  intros Hi Hs. apply wp_run. unfold patch_credentials.
  do 2 wp_step. cbn [get_at].
  pose proof Hs as (Hname & _ & _).
  unfold cred_loc in Hname. cbn [get_at] in Hname.
  destruct (resources s) as [| | | | |rd] eqn:Hres; try done.
  cbn [child] in Hname.
  do 2 wp_step. cbn [py_get].
  destruct (dict_lookup "credential_definition_list" rd) as [creds|];
    [|done].
  cbn [from_option id].
  destruct creds as [| | | |l|d]; try done.
  2: { destruct d; [done|]. by do 2 wp_step. }
  cbn [child] in Hname. rewrite decide_True in Hname by done.
  destruct (l !! Z.to_nat i) as [cred|] eqn:Hcred; [|done].
  do 2 wp_step. cbn [iter_len].
  wp_step. unfold wp at 1.
  destruct (for_each _ _ s) as [[[]|e] s1] eqn:Hloop; [|done].
  cbn [fst snd].
  assert (patched sm s1) as (Hname1 & Hsm1 & Hloc1).
  { revert Hloop.
    apply (for_each_visits (to_patch sm) (patched sm) _ _ i); [| | | |done].
    - unfold indices. apply list_elem_of_fmap. exists (Z.to_nat i).
      split; [lia|]. apply elem_of_seq. apply lookup_lt_Some in Hcred. lia.
    - intros y t t' Ht Hy.
      by destruct (patch_credential_to_patch sm y t t' Ht Hy).
    - intros t t' Ht Hy.
      destruct (patch_credential_to_patch sm i t t' Ht Hy) as (_ & ? & _).
      auto.
    - intros y t t' Ht Hy.
      destruct (patch_credential_to_patch sm y t t' (patched_to_patch _ _ Ht)
                  Hy) as (_ & _ & ?).
      auto. }
  do 2 wp_step. cbn [get_at].
  do 2 wp_step. destruct (py_get _ "authentication" _) as [auth|]; [|done].
  do 2 wp_step. destruct (py_get auth "username" _) as [username|]; [|done].
  destruct (truthy username); [|by wp_step].
  do 2 wp_step. destruct (py_contains _ _) as [[]|]; [| |done].
  2: { by wp_step. }
  do 2 wp_step. destruct (py_getitem _ _) as [secret|]; [|done].
  set (p := [KStr "authentication"]).
  destruct (get_at p (resources s1)) as [o|] eqn:Hauth.
  2: { unfold wp, setitem_at, bind, deref. by rewrite Hauth. }
  destruct o as [| | | | |ad];
    try (unfold wp, setitem_at, bind, deref, raise; by rewrite Hauth).
  eapply wp_setitem_at; [exact Hauth|].
  intros _. unfold patched. cbn [resources set_resources].
  assert (written_at (p ++ [KStr "password"]) (resources s1)
            (alter_at (dict_setitem "password" secret) p (resources s1)))
    as Hw.
  { apply written_at_key. intros. by apply child_dict_setitem_ne. }
  rewrite !Hw by (unfold cred_loc; solve_diverge). done.
Qed.

Lemma walk_path_prefix path v ptr q o :
  walk_path path v ptr = Ok (Some (q, o)) → ptr `prefix_of` q.
Proof.
  revert v ptr. induction path as [|key path IH]; intros v ptr; simpl.
  - by intros [= <- _].
  - destruct (_ && _); [done|].
    destruct (py_getitem_key v key) as [next|]; [|done]. simpl.
    intros Hw%IH. etransitivity; [|exact Hw]. by apply prefix_app_r.
Qed.

(** An entry recorded under another name is patched without reaching the
    credentials. *)
Lemma patch_secret_variable_rooted (ok : string → Prop) e s s' j f :
  ¬ ok "credential_definition_list" → rooted ok e →
  patch_secret_variable e s = (Ok (), s') →
  get_at (cred_loc j f) (resources s') = get_at (cred_loc j f) (resources s).
Proof.
  intros Hcdl (nm & rest & Hpath & Hnm) Hrun. pattern s'. revert Hrun.
  apply wp_run. unfold patch_secret_variable. cbv zeta. rewrite Hpath.
  do 2 wp_step. cbn [get_at].
  do 2 wp_step.
  destruct (walk_path _ _ _) as [[[ptr variable]|]|] eqn:Hwalk; [| |done].
  2: { by wp_step. }
  assert (∃ t, ptr = KStr nm :: t) as [t ->].
  { revert Hwalk. cbn [walk_path]. destruct (_ && _); [done|].
    destruct (py_getitem_key _ _) as [next|]; [|done]. cbn [rbind app].
    assert (canon_key (resources s) (KStr nm) = KStr nm) as ->.
    { by destruct (resources s). }
    intros [t' ->]%walk_path_prefix. by eexists. }
  assert (diverge (KStr nm :: t) (cred_loc j f)) as Hd.
  { unfold cred_loc. simpl. left. intros [= ->]. done. }
  destruct variable as [| | | | |vd]; try done. cbn [setitem_reached].
  wp_step.
  destruct (get_at (KStr nm :: t) (resources s)) as [o|] eqn:Hptr.
  2: { unfold wp, setitem_at, bind, deref. by rewrite Hptr. }
  destruct o as [| | | | |d];
    try (unfold wp, setitem_at, bind, deref, raise; by rewrite Hptr).
  eapply wp_setitem_at; [exact Hptr|].
  eapply wp_setitem_at.
  { cbn [resources set_resources]. rewrite get_at_alter_at, Hptr.
    reflexivity. }
  intros _. cbn [resources set_resources].
  by rewrite !get_at_alter_at_diverge.
Qed.

End credential_round_trip.

Lemma patch_secret_variables_rooted (ok : string → Prop) l s s' j f :
  ¬ ok "credential_definition_list" → Forall (rooted ok) l →
  for_each l patch_secret_variable s = (Ok (), s') →
  get_at (cred_loc j f) (resources s') = get_at (cred_loc j f) (resources s).
Proof.
  intros Hcdl Hl. revert s.
  induction Hl as [|e l He _ IH]; intros s; cbn [for_each].
  - by intros [= <-].
  - unfold bind. destruct (patch_secret_variable e s) as [[[]|?] s1] eqn:H1;
      [|done].
    intros Hrest. rewrite (IH _ Hrest).
    by apply (patch_secret_variable_rooted ok e).
Qed.

(** X19. Round trip of a credential's secret.  [strip_secrets] is called
    with an empty [secret_map] and an empty [secret_variables], on object
    lists and objects other than [credential_definition_list], and
    returns; [patch_secrets] on the stripped payload with the collected
    [secret_map] and [secret_variables] returns.  Then a credential whose
    name no other credential has, and which is not the [username] of the
    payload's [authentication], holds in the patched payload the [secret]
    it held before the walk, whether the walk moved it to [secret_map] or
    left it in place. *)
Theorem strip_patch_credentials_round_trip ds object_lists objects i name k
    s s1 r s2 :
  "credential_definition_list" ∉ object_lists →
  "credential_definition_list" ∉ objects →
  (0 ≤ i)%Z →
  secret_map s = [] →
  secret_variables s = [] →
  get_at (cred_loc i "name") (resources s) = Some name →
  to_key name = Ok k →
  (∀ j name', j ≠ i →
     get_at (cred_loc j "name") (resources s) = Some name' →
     to_key name' ≠ Ok k) →
  (∀ u, get_at endpoint_username (resources s) = Some u → to_key u ≠ Ok k) →
  strip_secrets ds object_lists objects s = (Ok (), s1) →
  patch_secrets (secret_map s1) (secret_variables s1) [] s1 = (Ok r, s2) →
  get_at (cred_loc i "secret") r = get_at (cred_loc i "secret") (resources s).
Proof.
  intros Hlists Hobjects Hi Hmap Hlog Hname Hk Hothers Huser Hstrip Hpatch.
  set (original := get_at (cred_loc i "secret") (resources s)).
  set (ok := λ nm : string, nm ≠ "credential_definition_list").
  assert (¬ ok "credential_definition_list") as Hcdl.
  { intros H. by apply H. }
  destruct (strip_secrets_cred_kept i name k Hk original ds ok object_lists
              objects s s1) as [[Hname1 Hheld1] Hlog1]; try done.
  { intros nm Hnm ->. done. }
  { intros nm Hnm ->. done. }
  { split; [|done]. split; [done|]. left. by rewrite Hmap. }
  assert (to_patch i name k original (secret_map s1) s1) as Hto.
  { split; [done|]. split.
    - intros sec Hsec.
      destruct Hheld1 as [[Hnone _]|(sec0 & -> & Hsome & _)]; congruence.
    - intros Hnone.
      destruct Hheld1 as [[_ Hloc]|(sec0 & _ & Hsome & _)]; congruence. }
  revert Hpatch. unfold patch_secrets. unfold bind at 1.
  destruct (patch_credentials (secret_map s1) s1) as [[[]|?] s1'] eqn:Hcreds;
    [|done].
  destruct (patch_credentials_patched i name k Hk original (secret_map s1)
              s1 s1' Hi Hto Hcreds) as (_ & _ & Hloc).
  cbn [for_each]. unfold bind at 1. unfold ret at 1. unfold bind at 1.
  destruct (for_each (secret_variables s1) patch_secret_variable s1')
    as [[[]|?] s2'] eqn:Hentries; [|done].
  unfold deref. cbn [get_at]. intros [= <- <-].
  by rewrite (patch_secret_variables_rooted ok _ _ _ _ _ Hcdl Hlog1 Hentries).
Qed.

Lemma strip_patch_credentials_round_trip_witness :
  get_at (cred_loc 0 "secret") (resources example_stripped)
  = Some attrs_placeholder
  ∧ get_at (cred_loc 0 "secret") (resources example_patched)
    = get_at (cred_loc 0 "secret") (resources example_state).
Proof.
  split; [reflexivity|].
  apply (strip_patch_credentials_round_trip (JList [])
           ["service_definition_list"] [] 0 (JStr "cred1") (KStr "cred1")
           example_state example_stripped (resources example_patched)
           example_patched).
  - intros H. inversion H as [|? ? ? H']. inversion H'.
  - intros H. inversion H.
  - lia.
  - reflexivity.
  - reflexivity.
  - reflexivity.
  - reflexivity.
  - intros j name' Hj. unfold cred_loc. cbn [get_at child example_state
      resources example_resources dict_lookup].
    rewrite decide_True by done. cbn [get_at child].
    destruct (decide (0 ≤ j)%Z); [|done].
    destruct (Z.to_nat j) eqn:E; [lia|done].
  - intros u. by cbn.
  - reflexivity.
  - reflexivity.
Defined.

(** ** The frames of [update_vm_image_config] and [patch_secrets] *)

(** The image reference of a disk, by the position or key of the disk. *)
Definition disk_reference_loc (disk : key) : loc :=
  disk_list_loc ++ [disk; KStr "data_source_reference"].

Lemma update_vm_image_config_preserves IMAGE_TYPES disk_packages r0 :
  preserves (λ q, ∃ disk, q = disk_reference_loc disk) r0
    (update_vm_image_config IMAGE_TYPES disk_packages).
Proof.
  unfold update_vm_image_config, update_vm_image, read_disk_list. cbv zeta.
  repeat preserves_step.
  apply covered_here. eexists. unfold disk_reference_loc.
  by rewrite <- (assoc_L (++)).
Qed.

(** X20. Frame of [update_vm_image_config]: the call writes to nothing
    but the [data_source_reference] of disks.  Every location of the spec
    that overlaps no [resources.disk_list[...].data_source_reference]
    holds after the call what it held before, whether the call returns or
    raises. *)
Theorem update_vm_image_config_frame IMAGE_TYPES disk_packages s q :
  (∀ disk, diverge (disk_reference_loc disk) q) →
  get_at q (resources (update_vm_image_config IMAGE_TYPES disk_packages s).2)
  = get_at q (resources s).
Proof.
  intros Hq.
  apply (update_vm_image_config_preserves IMAGE_TYPES disk_packages
           (resources s) s); [done|].
  intros p [disk ->]. apply Hq.
Qed.

Lemma update_vm_image_config_frame_witness :
  (∀ disk, diverge (disk_reference_loc disk)
             (disk_list_loc ++ [KInt 0; KStr "device_properties"]))
  ∧ get_at (disk_list_loc ++ [KInt 0; KStr "device_properties"])
      (resources
         (update_vm_image_config ahv_image_types
            [(1%Z, example_image "DISK_IMAGE" "centos_disk")]
            (mk_state (example_spec [example_disk "DISK"]) [] [] [])).2)
    = get_at (disk_list_loc ++ [KInt 0; KStr "device_properties"])
        (example_spec [example_disk "DISK"]).
Proof.
  assert (∀ disk, diverge (disk_reference_loc disk)
            (disk_list_loc ++ [KInt 0; KStr "device_properties"])) as H.
  { intros disk. unfold disk_reference_loc. apply diverge_app_same.
    solve_diverge. }
  split; [exact H|].
  exact (update_vm_image_config_frame ahv_image_types
           [(1%Z, example_image "DISK_IMAGE" "centos_disk")]
           (mk_state (example_spec [example_disk "DISK"]) [] [] []) _ H).
Defined.

(** The locations [patch_secrets] may write to: the secrets of the
    credentials, the password of the endpoint, the [attrs] of the existing
    secrets and the [attrs] and [value] of the secret variables it is
    given. *)
Inductive patch_site (secret_variables : list (list key * json * json))
    (existing_secrets : list (list key * json)) : loc → Prop :=
  | ps_credential j :
      patch_site secret_variables existing_secrets (cred_loc j "secret")
  | ps_endpoint_password :
      patch_site secret_variables existing_secrets
        [KStr "authentication"; KStr "password"]
  | ps_existing_attrs e :
      e ∈ existing_secrets →
      patch_site secret_variables existing_secrets (e.1 ++ [KStr "attrs"])
  | ps_variable_attrs e :
      e ∈ secret_variables →
      patch_site secret_variables existing_secrets (e.1.1 ++ [KStr "attrs"])
  | ps_variable_value e :
      e ∈ secret_variables →
      patch_site secret_variables existing_secrets (e.1.1 ++ [KStr "value"]).

Lemma patch_credentials_preserves P r0 sm :
  (∀ j, covered P (cred_loc j "secret")) →
  covered P [KStr "authentication"; KStr "password"] →
  preserves P r0 (patch_credentials sm).
Proof.
  intros Hcred Hauth. unfold patch_credentials, patch_credential. cbv zeta.
  repeat preserves_step; [apply Hcred|apply Hauth].
Qed.

Lemma patch_existing_secret_preserves P r0 e :
  Forall from_start e.1 →
  covered P (e.1 ++ [KStr "attrs"]) →
  preserves P r0 (patch_existing_secret e).
Proof.
  intros Hstart Hattrs s Hs.
  unfold patch_existing_secret, bind, deref, lift. cbn [get_at].
  destruct (walk_path e.1 (resources s) []) as [[[ptr variable]|]|] eqn:Hw;
    try done.
  destruct variable as [| | | | |d]; try done.
  apply walk_path_reached in Hw as [-> _]; [|done].
  cbn [setitem_reached app].
  by apply (preserves_setitem_at P r0 e.1 (KStr "attrs")).
Qed.

Lemma patch_secret_variable_preserves P r0 e :
  Forall from_start e.1.1 →
  covered P (e.1.1 ++ [KStr "attrs"]) →
  covered P (e.1.1 ++ [KStr "value"]) →
  preserves P r0 (patch_secret_variable e).
Proof.
  intros Hstart Hattrs Hvalue s Hs.
  unfold patch_secret_variable. cbv zeta.
  unfold bind at 1, deref at 1. cbn [get_at]. unfold bind at 1, lift at 1.
  destruct (walk_path e.1.1 (resources s) []) as [[[ptr variable]|]|] eqn:Hw;
    try done.
  destruct variable as [| | | | |d]; try done.
  apply walk_path_reached in Hw as [-> _]; [|done].
  cbn [setitem_reached app].
  apply (preserves_bind P r0); [| |done].
  - by apply preserves_setitem_at.
  - intros _. by apply preserves_setitem_at.
Qed.

Lemma patch_secrets_preserves sm sv ex r0 :
  Forall (λ e, Forall from_start e.1) ex →
  Forall (λ e, Forall from_start e.1.1) sv →
  preserves (patch_site sv ex) r0 (patch_secrets sm sv ex).
Proof.
  intros Hex Hsv. unfold patch_secrets.
  apply preserves_bind; [|intros _; apply preserves_bind;
                           [|intros _; apply preserves_bind; [|intros _]]].
  - apply patch_credentials_preserves.
    + intros j. apply covered_here. constructor.
    + apply covered_here. constructor.
  - apply preserves_for_each_in. intros e He.
    apply patch_existing_secret_preserves.
    + by apply (Forall_forall (λ e, Forall from_start e.1) ex).
    + apply covered_here. by constructor.
  - apply preserves_for_each_in. intros e He.
    apply patch_secret_variable_preserves.
    + by apply (Forall_forall (λ e, Forall from_start e.1.1) sv).
    + apply covered_here. by constructor.
    + apply covered_here. by apply ps_variable_value.
  - apply preserves_deref.
Qed.

(** X21. Frame of [patch_secrets], for entries whose paths count list
    positions from the start, as the paths [strip_secrets] records do:
    every location of the payload that overlaps none of the credentials'
    [secret], the endpoint's [authentication.password], the [attrs] of the
    paths of [existing_secrets] and the [attrs] and [value] of the paths
    of [secret_variables] holds after the call what it held before,
    whether the call returns or raises. *)
Theorem patch_secrets_frame sm sv ex s q :
  Forall (λ e, Forall from_start e.1) ex →
  Forall (λ e, Forall from_start e.1.1) sv →
  outside (patch_site sv ex) q →
  get_at q (resources (patch_secrets sm sv ex s).2) = get_at q (resources s).
Proof.
  intros Hex Hsv Hq.
  by apply (patch_secrets_preserves sm sv ex (resources s) Hex Hsv s).
Qed.

Definition example_token_entry : list key * json * json :=
  ([KStr "service_definition_list"; KInt 0; KStr "variable_list"; KInt 0],
   JStr "s3cret", JStr "token").

Definition example_token_name : loc :=
  [KStr "service_definition_list"; KInt 0; KStr "variable_list"; KInt 0;
   KStr "name"].

Lemma patch_secrets_frame_witness :
  outside (patch_site [example_token_entry] []) example_token_name
  ∧ get_at example_token_name
      (resources (patch_secrets [] [example_token_entry] []
                    example_stripped).2)
    = get_at example_token_name (resources example_stripped).
Proof.
  assert (outside (patch_site [example_token_entry] []) example_token_name)
    as H.
  { intros p Hp. inversion Hp as [j| |e He|e He|e He]; subst.
    - unfold cred_loc, example_token_name. solve_diverge.
    - unfold example_token_name. solve_diverge.
    - inversion He.
    - apply list_elem_of_singleton in He as ->.
      unfold example_token_entry, example_token_name. solve_diverge.
    - apply list_elem_of_singleton in He as ->.
      unfold example_token_entry, example_token_name. solve_diverge. }
  split; [exact H|].
  apply (patch_secrets_frame [] [example_token_entry] [] example_stripped);
    [constructor| |exact H].
  repeat constructor; simpl; lia.
Defined.

(** ** [get_acps]: one call to the server *)

Section get_acps_calls.

Variable world : Type.
Variable acp_list : json → world → response * world.
Variable get_name_query : list string → string.
Variable highlight_text : json → string.
Variable pc_ip : string.

(** A step that makes no call: the server is after it as before. *)
Definition no_call {A} (m : H world A) : Prop := ∀ w, (m w).2 = w.

Lemma no_call_hret {A} (a : A) : no_call (hret world a).
Proof. done. Qed.

Lemma no_call_emit e : no_call (emit world e).
Proof. done. Qed.

Lemma no_call_hlift {A} (r : result A) : no_call (hlift world r).
Proof. by destruct r. Qed.

Lemma no_call_hbind {A B} (m : H world A) (f : A → H world B) :
  no_call m → (∀ a, no_call (f a)) → no_call (hbind world m f).
Proof.
  intros Hm Hf w. unfold hbind. specialize (Hm w).
  destruct (m w) as [[ev [a|c|e]] w1]; simpl in *; subst; try done.
  specialize (Hf a w). by destruct (f a w) as [[??]?].
Qed.

Lemma no_call_hfor_each {A} (l : list A) (body : A → H world unit) :
  (∀ x, no_call (body x)) → no_call (hfor_each world l body).
Proof.
  intros Hb. induction l as [|x l IH]; simpl; [apply no_call_hret|].
  by apply no_call_hbind.
Qed.

(** X22. [get_acps] makes one call to the server, [client.acp.list] with
    the parameters it builds, and no other: whatever the answer, the
    output format and the way the handler ends, the server is after the
    handler as that one call left it. *)
Theorem get_acps_one_call name filter_by limit offset quiet out w :
  (get_acps world acp_list get_name_query highlight_text pc_ip
     name filter_by limit offset quiet out w).2
  = (acp_list (get_acps_params get_name_query name filter_by limit offset)
       w).2.
Proof.
  unfold get_acps. rewrite hbind_call.
  match goal with
  | |- (?m ?w1).2 = _ => assert (no_call m) as Hm; [|apply Hm]
  end.
  repeat first
    [ apply no_call_hbind; [|intros ?]
    | apply no_call_hret
    | apply no_call_emit
    | apply no_call_hlift
    | apply no_call_hfor_each; intros ?
    | match goal with
      | |- no_call (if ?b then _ else _) => destruct b
      end ].
Qed.

End get_acps_calls.

(** ** Missing options and missing customization *)

(** X23. Called with an empty [option] on a schema whose [anyOf] is not
    empty, [find_schema] raises [IndexError] at [option[indOpt]] in its
    first round, for any non-empty path, and prints nothing: each [anyOf]
    on the way needs an option of its own. *)
Theorem find_schema_no_option rounds sd first rest title path :
  dict_lookup "anyOf" sd = Some (JList (first :: rest)) →
  py_getitem_key first "title" = Ok title →
  path ≠ [] →
  find_schema (S rounds) (JDict sd) path []
  = ([], Ended (Raise (builtin IndexError))).
Proof.
  intros Hany Htitle Hpath. unfold find_schema.
  destruct path as [|k path]; [done|]. cbn [length Nat.eqb].
  cbn [find_schema_loop Nat.ltb Nat.leb negb length py_get py_getitem_key].
  rewrite Hany. cbn [from_option id rbind py_iter find_title].
  rewrite Htitle. reflexivity.
Qed.

Lemma find_schema_no_option_witness :
  find_schema 1 boot_schema [JStr "device_type"] []
  = ([], Ended (Raise (builtin IndexError))).
Proof.
  apply (find_schema_no_option 0 _
           (JDict [(KStr "title", JStr "DISK"); (KStr "type", JStr "object")])
           [JDict [(KStr "title", JStr "CDROM"); (KStr "type", JStr "object")]]
           (JStr "DISK")); [reflexivity|reflexivity|done].
Defined.

(** X24. [strip_vmware_secrets] handles [windows_data] only: when the
    guest customization has no [windows_data], or an empty one, the call
    returns with the payload and the collections as they were, whatever
    else the customization holds; [path_list] has grown by
    [create_spec], [resources], [guest_customization]. *)
Theorem strip_vmware_secrets_no_windows_data ds path_list st gc :
  get_at guest_customization_loc (resources st) = Some (JDict gc) →
  truthy (default (JDict []) (dict_lookup "windows_data" gc)) = false →
  strip_vmware_secrets ds (mk_vm_state path_list st)
  = (Ok (), mk_vm_state (path_list ++ guest_customization_loc) st).
Proof.
  intros Hgc Hwd. unfold strip_vmware_secrets.
  rewrite bind_path_list_extend, bind_in_store_deref_root, bind_lift.
  cbn [vm_store]. rewrite (guest_customization_getitem _ _ Hgc).
  rewrite bind_lift. cbn [py_get]. by rewrite Hwd.
Qed.

(** A guest customization for Linux: none of its entries is looked at. *)
Definition linux_spec (password : string) : json :=
  JDict [(KStr "create_spec", JDict [
     (KStr "resources", JDict [
        (KStr "guest_customization", JDict [
           (KStr "customization_type", JStr "GUEST_OS_LINUX");
           (KStr "linux_data", JDict [
              (KStr "hostname", JStr "vm-1");
              (KStr "password", JStr password)])])])])].

Lemma strip_vmware_secrets_no_windows_data_witness :
  strip_vmware_secrets (JList [])
    (mk_vm_state [] (mk_state (linux_spec "s3cret") [] [] []))
  = (Ok (),
     mk_vm_state ([] ++ guest_customization_loc)
       (mk_state (linux_spec "s3cret") [] [] [])).
Proof.
  eapply strip_vmware_secrets_no_windows_data; reflexivity.
Defined.
